(** * dabl: supervised exploration plots and estimator explanation

    A shallow embedding of [dabl/plot/supervised.py] and [dabl/explain.py].

    Data frames are association lists of labelled columns (order and
    duplicate labels matter to pandas), the type table of [detect_types]
    is a list of labelled boolean rows, Python exceptions are an error
    monad, and what is drawn or printed is returned as data.  The
    collaborators of the two modules (the univariate tests, the imputer,
    the plotting helpers of [dabl.plot.utils], scikit-learn's inspection
    functions) are parameters of the definitions that call them. *)

From Stdlib Require Import String.
From Stdlib Require Import List ZArith Bool Arith Lia Permutation Sorted.
Import ListNotations.

Set Implicit Arguments.
Open Scope string_scope.
Open Scope list_scope.

(* ================================================================= *)
(** * Part I.  Definitions *)
(* ================================================================= *)

(** ** Python exceptions *)

Inductive exn : Type :=
| ValueError (msg : string)
| AssertionError
| TypeError
| AttributeError (attr : string)
| KeyError (key : string)
| NameError (name : string)
| IndexError
| IndexingError.

Inductive result (A : Type) : Type :=
| Ok (a : A)
| Raise (e : exn).

Arguments Ok {A} a.
Arguments Raise {A} e.

Definition bind {A B : Type} (m : result A) (k : A -> result B) : result B :=
  match m with
  | Ok a => k a
  | Raise e => Raise e
  end.

Declare Scope py_scope.
Delimit Scope py_scope with py.
Notation "x <- m ;; k" := (bind m (fun x => k))
  (at level 61, m at next level, right associativity) : py_scope.
Open Scope py_scope.

(** ** Python sequences *)

Module Py.

(** [l[start:]], with Python's treatment of a negative or too large
    start.  [l[-0:]] is [l[0:]], the whole list. *)
Definition slice_from {A : Type} (start : Z) (l : list A) : list A :=
  let n := Z.of_nat (length l) in
  let s := if (start <? 0)%Z then Z.max (start + n) 0 else Z.min start n in
  skipn (Z.to_nat s) l.

(** [l[::-1]] *)
Definition reversed {A : Type} (l : list A) : list A := rev l.

(** [enumerate(l)] *)
Definition enumerate {A : Type} (l : list A) : list (nat * A) :=
  combine (seq 0 (length l)) l.

(** [zip(l1, l2)] stops at the shorter argument. *)
Definition zip {A B : Type} (l1 : list A) (l2 : list B) : list (A * B) :=
  combine l1 l2.

(** [l[i]] for a non-negative index. *)
Definition getitem {A : Type} (l : list A) (i : nat) : result A :=
  match nth_error l i with
  | Some a => Ok a
  | None => Raise IndexError
  end.

End Py.

(** ** Sorting *)

Module Sorting.

Section Insertion.
Variable A : Type.
Variable leb : A -> A -> bool.

(** [x] goes in front of the first element that is not below it, so
    an element inserted later never passes an equal one. *)
Fixpoint insert_by (x : A) (l : list A) : list A :=
    match l with
    | [] => [x]
    | y :: l' => if leb x y then x :: l else y :: insert_by x l'
    end.

Definition sort_by (l : list A) : list A :=
  fold_right insert_by [] l.

(** The order a stable sort produces on a list whose elements carry
    their input position [pos]: ascending, and among equals the
    earlier first. *)
Definition stable_le (pos : A -> nat) (p q : A) : Prop :=
  leb p q = true /\ (leb q p = true -> pos p < pos q).
End Insertion.

(** The stable ascending index sort: the positions of [f], ordered by
    the value they hold, equal values in their input order.  This is
    what [np.argsort(f)] returns where numpy's default sort is an
    insertion sort (up to 16 elements), and [np.argsort(f, kind='mergesort')]
    at every length. *)
Definition insertion_argsort {S : Type} (sleb : S -> S -> bool)
    (f : list S) : list nat :=
  map fst (sort_by (fun a b => sleb (snd a) (snd b)) (Py.enumerate f)).

End Sorting.

(** ** Scores and ranking *)

Section Ranking.
(** Scores are floating-point numbers in the source; the code only sorts
    them.  [sleb] is the order [np.argsort] sorts by. *)
Variable score : Type.
Variable sleb : score -> score -> bool.

(** [f[i] <= f[j]] for two positions of [f]. *)
Definition ascending_at (f : list score) (i j : nat) : Prop :=
  match nth_error f i, nth_error f j with
  | Some a, Some b => sleb a b = true
  | _, _ => False
  end.

Definition descending_at (f : list score) (i j : nat) : Prop :=
  ascending_at f j i.

(** [f[i] == f[j]] in the sort order. *)
Definition tied_at (f : list score) (i j : nat) : Prop :=
  ascending_at f i j /\ ascending_at f j i.

(** Ascending, and among tied positions the earlier first. *)
Definition stable_at (f : list score) (i j : nat) : Prop :=
  ascending_at f i j /\ (ascending_at f j i -> i < j).

(** What the code relies on from [np.argsort]: the positions of [f],
    each once, in ascending order of the values. *)
Record argsort_spec (argsort : list score -> list nat) : Prop := {
  argsort_perm : forall f, Permutation (argsort f) (seq 0 (length f));
  argsort_sorted : forall f, StronglySorted (ascending_at f) (argsort f)
}.

Variable argsort : list score -> list nat.

(** [np.argsort(f)[-show_top:][::-1]] *)
Definition top_k (f : list score) (show_top : Z) : list nat :=
  Py.reversed (Py.slice_from (- show_top) (argsort f)).

(** The position of index [i] in a ranking; [length r] when absent. *)
Fixpoint rank_of (i : nat) (r : list nat) : nat :=
  match r with
  | [] => 0
  | j :: r' => if Nat.eqb i j then 0 else S (rank_of i r')
  end.

End Ranking.

(** ** Data frames *)

Module Frame.

(** A cell holds a number or a string; [None] is a missing value (NaN).
    The numeric payload is only compared for equality here, everything
    else is done to it by the collaborators. *)
Inductive value : Type :=
  | VNum (z : Z)
  | VStr (s : string).

Definition cell : Type := option value.
Definition column : Type := list cell.

(** Columns in their order, each under its label.  The rows are kept by
    position: the frames of the model carry pandas' default row index,
    in which row [i] has the label [i]. *)
Definition dataframe : Type := list (string * column).

(** A boolean Series, indexed by column label. *)
Definition bool_series : Type := list (string * bool).

Definition value_eqb (a b : value) : bool :=
  match a, b with
  | VNum x, VNum y => Z.eqb x y
  | VStr s, VStr t => String.eqb s t
  | _, _ => false
  end.

(** The order pandas sorts categories by: numbers before strings, numbers
    by value and strings by their characters. *)
Definition value_leb (a b : value) : bool :=
  match a, b with
  | VNum x, VNum y => Z.leb x y
  | VStr s, VStr t => String.leb s t
  | VNum _, VStr _ => true
  | VStr _, VNum _ => false
  end.

(** [X.columns] *)
Definition columns {C : Type} (X : list (string * C)) : list string :=
  map fst X.

(** [X.shape[1]] *)
Definition shape1 {C : Type} (X : list (string * C)) : nat := length X.

(** [X[name]] *)
Definition getitem (X : dataframe) (name : string) : result column :=
  match find (fun c => String.eqb (fst c) name) X with
  | Some c => Ok (snd c)
  | None => Raise (KeyError name)
  end.

(** [s[0]] on a Series: the row under the label 0, the first row of a
    frame of the model, a [KeyError] when there is none. *)
Definition series_getitem_0 (s : column) : result cell :=
  match s with
  | x :: _ => Ok x
  | [] => Raise (KeyError "0")
  end.

(** [name in X.columns] *)
Definition has_column {C : Type} (name : string) (X : list (string * C))
    : bool :=
  existsb (String.eqb name) (columns X).

(** [X.drop(name, axis=1)]: every column under that label goes. *)
Definition drop {C : Type} (name : string) (X : list (string * C))
    : list (string * C) :=
  filter (fun c => negb (String.eqb (fst c) name)) X.

Definition lookup_flag (mask : bool_series) (name : string) : result bool :=
  match find (fun c => String.eqb (fst c) name) mask with
  | Some c => Ok (snd c)
  | None => Raise IndexingError
  end.

(** [X.loc[:, mask]] for a boolean Series: the mask is aligned with the
    columns by label, and a column the mask does not cover is an
    error. *)
Fixpoint loc_columns (X : dataframe) (mask : bool_series)
    : result dataframe :=
  match X with
  | [] => Ok []
  | c :: X' =>
      b <- lookup_flag mask (fst c) ;;
      rest <- loc_columns X' mask ;;
      Ok (if b then c :: rest else rest)
  end.

(** [X.iloc[:, idx]] for a list of positions. *)
Fixpoint iloc_columns {C : Type} (X : list (string * C)) (idx : list nat)
    : result (list (string * C)) :=
  match idx with
  | [] => Ok []
  | i :: idx' =>
      c <- Py.getitem X i ;;
      rest <- iloc_columns X idx' ;;
      Ok (c :: rest)
  end.

(** The distinct values of a list, each at its first occurrence. *)
Fixpoint unique (l : list value) : list value :=
  match l with
  | [] => []
  | v :: l' => v :: filter (fun w => negb (value_eqb v w)) (unique l')
  end.

Fixpoint dropna (c : column) : list value :=
  match c with
  | [] => []
  | Some v :: c' => v :: dropna c'
  | None :: c' => dropna c'
  end.

(** Whether a column has a value that is not missing. *)
Definition observed (c : column) : bool :=
  match dropna c with
  | [] => false
  | _ :: _ => true
  end.

(** [c.nunique()]: missing values are not counted. *)
Definition nunique (c : column) : nat := length (unique (dropna c)).

(** The categories of [c.astype('category')]: the distinct values that
    are not missing, sorted; in a column that mixes numbers and strings
    the numbers come first. *)
Definition categories (c : column) : list value :=
  Sorting.sort_by value_leb (unique (dropna c)).

Fixpoint index_of (v : value) (cats : list value) : Z :=
  match cats with
  | [] => (-1)%Z
  | w :: cats' =>
      if value_eqb v w then 0%Z
      else let i := index_of v cats' in
           if (i <? 0)%Z then (-1)%Z else (i + 1)%Z
  end.

(** [c.cat.codes]: the position of each value among the categories,
    -1 for a missing value. *)
Definition cat_codes (c : column) : list Z :=
  let cats := categories c in
  map (fun x => match x with
                | Some v => index_of v cats
                | None => (-1)%Z
                end) c.

(** [X.apply(fn)], column by column. *)
Definition apply {C D : Type} (fn : C -> D) (X : list (string * C))
    : list (string * D) :=
  map (fun c => (fst c, fn (snd c))) X.

End Frame.

Import Frame.

(** ** The type table of [detect_types] *)

(** One row per column of the frame, one boolean per kind.  [other_kind]
    stands for the kinds this code never reads (dirty floats, dates, free
    strings, useless columns). *)
Record type_row : Type := {
  continuous : bool;
  categorical : bool;
  low_card_int : bool;
  other_kind : bool
}.

Definition types_frame : Type := list (string * type_row).

(** [types.continuous], [types.categorical], ...: one column of the table. *)
Definition kind_series (kind : type_row -> bool) (types : types_frame)
  : bool_series :=
  map (fun r => (fst r, kind (snd r))) types.

(** [types.index[types.low_card_int]] *)
Definition index_where (kind : type_row -> bool) (types : types_frame)
  : list string :=
  map fst (filter (fun r => kind (snd r)) types).

(** [types.loc[col, 'low_card_int'] = False]: label-based, every row under
    that label is written. *)
Definition set_loc (upd : type_row -> type_row) (col : string)
  (types : types_frame) : types_frame :=
  map (fun r => if String.eqb (fst r) col then (fst r, upd (snd r)) else r)
    types.

Definition set_low_card_int (b : bool) (r : type_row) : type_row :=
  {| continuous := continuous r; categorical := categorical r;
   low_card_int := b; other_kind := other_kind r |}.

Definition set_continuous (b : bool) (r : type_row) : type_row :=
  {| continuous := b; categorical := categorical r;
   low_card_int := low_card_int r; other_kind := other_kind r |}.

Definition set_categorical (b : bool) (r : type_row) : type_row :=
  {| continuous := continuous r; categorical := b;
   low_card_int := low_card_int r; other_kind := other_kind r |}.


(** ** [dabl/plot/supervised.py] *)

(** One subplot that a panel function filled: the axis, the column drawn
    on it, the score printed in its title (if any) and the plot kind. *)
Record panel (score : Type) : Type := {
  panel_axis : nat;
  panel_column : string;
  panel_title : option score;
  panel_kind : string
}.

(** What a panel function computed on the way: the feature frame that was
    scored, the scores, the ranking, the subplots filled and the axes
    switched off. *)
Record ranked (score : Type) : Type := {
  scored_features : dataframe;
  scores : list score;
  selected : list nat;
  panels : list (panel score);
  axes_off : list nat
}.

Fixpoint map_result {A B : Type} (fn : A -> result B) (l : list A)
  : result (list B) :=
  match l with
  | [] => Ok []
  | a :: l' =>
    b <- fn a ;;
    rest <- map_result fn l' ;;
    Ok (b :: rest)
  end.

(** [for j in range(i + 1, axes.size)], with [i] left over from the loop
    before: no iteration there leaves [i] unbound. *)
Definition remaining_axes (n_filled n_axes : nat) : result (list nat) :=
  match n_filled with
  | O => Raise (NameError "i")
  | S _ => Ok (seq n_filled (n_axes - n_filled))
  end.

Section Supervised.
Variable score : Type.

(** [np.argsort] *)
Variable argsort : list score -> list nat.

(** Collaborators from [dabl.plot.utils] and [dabl.preprocessing]:
    [_check_X_target_col] returns the type table (detecting the types
    when it is given none), [_get_n_top] the number of features to show,
    [_make_subplots] a grid of axes, of which the model keeps the
    count. *)
Variable _check_X_target_col :
  dataframe -> string -> option types_frame -> option string ->
  result types_frame.
Variable _get_n_top : dataframe -> string -> Z.
Variable _make_subplots : Z -> nat.

(** Collaborators from scikit-learn.  The imputer fills the missing
    values of a column; the univariate tests and the mutual information
    estimate score one feature against the target. *)
Variable impute_column : column -> column.
Variable f_regression_1 : column -> column -> score.
Variable f_classif_1 : column -> column -> score.

(** [mutual_info_regression] is called without [random_state]:
    scikit-learn then draws from numpy's global generator the noise it
    adds to a continuous target before it estimates anything, so an
    estimate also depends on the state that generator is in at the
    call.  [mutual_info_classif], on discrete features and a discrete
    target, draws nothing. *)
Variable RandomState : Type.
Variable mi_regression_1 : RandomState -> list Z -> column -> bool -> score.
Variable mi_classif_1 : list Z -> column -> bool -> score.

(** [SimpleImputer().fit_transform(features)]: a column without any
    observed value has no mean to be filled with and is left out of the
    result ("Deleting features without observed values"); the other
    columns are filled, in their order.  The result is a bare matrix:
    its columns carry no labels. *)
Definition SimpleImputer_fit_transform (features : dataframe)
    : list column :=
  map impute_column (filter observed (map snd features)).

(** [f_regression(X, y)] and [f_classif(X, y)]: one statistic per
    column of the matrix.  The tests are taken to answer on every
    matrix: what scikit-learn does with a matrix it refuses (no rows, no
    columns) is not modelled. *)
Definition f_regression (Xm : list column) (y : column) : list score :=
  map (fun x => f_regression_1 x y) Xm.

Definition f_classif (Xm : list column) (y : column) : list score :=
  map (fun x => f_classif_1 x y) Xm.

(** [mutual_info_regression(X, y, discrete_features=mask)] and
    [mutual_info_classif]: scikit-learn pairs the columns with the mask,
    [zip(columns, mask)], and estimates one value per pair. *)
Definition mutual_info_regression (random_state : RandomState)
    (Xm : list (string * list Z))
    (y : column) (discrete_features : list bool) : list score :=
  map (fun xd => mi_regression_1 random_state (fst xd) y (snd xd))
      (Py.zip (map snd Xm) discrete_features).

Definition mutual_info_classif (Xm : list (string * list Z))
    (y : column) (discrete_features : list bool) : list score :=
  map (fun xd => mi_classif_1 (fst xd) y (snd xd))
      (Py.zip (map snd Xm) discrete_features).

(** The first lines of each panel function:
<<
  features = X.loc[:, types.<kind>]
  if target_col in features.columns:
      features = features.drop(target_col, axis=1)
>> *)
Definition select_features (kind : type_row -> bool) (X : dataframe)
    (target_col : string) (types : types_frame) : result dataframe :=
  features <- loc_columns X (kind_series kind types) ;;
  Ok (if has_column target_col features
      then drop target_col features
      else features).

Definition plot_regression_continuous (X : dataframe) (target_col : string)
    (types : option types_frame) : result (option (ranked score)) :=
  types <- _check_X_target_col X target_col types (Some "regression") ;;
  features <- select_features continuous X target_col types ;;
  if Nat.eqb (shape1 features) 0 then Ok None else
  let show_top := _get_n_top features "continuous" in
  target <- getitem X target_col ;;
  let features_imp := SimpleImputer_fit_transform features in
  let f := f_regression features_imp target in
  let top := top_k argsort f show_top in
  let n_axes := _make_subplots show_top in
  drawn <- map_result
    (fun it =>
       let '(col_idx, ax) := it in
       col <- Py.getitem (columns features) col_idx ;;
       f_col <- Py.getitem f col_idx ;;
       Ok {| panel_axis := ax; panel_column := col;
             panel_title := Some f_col; panel_kind := "scatter" |})
    (Py.zip top (seq 0 n_axes)) ;;
  off <- remaining_axes (length drawn) n_axes ;;
  Ok (Some {| scored_features := features; scores := f; selected := top;
              panels := drawn; axes_off := off |}).

Definition plot_regression_categorical (random_state : RandomState)
    (X : dataframe) (target_col : string)
    (types : option types_frame) : result (option (ranked score)) :=
  types <- _check_X_target_col X target_col types (Some "regression") ;;
  features <- select_features categorical X target_col types ;;
  if Nat.eqb (shape1 features) 0 then Ok None else
  let show_top := _get_n_top features "categorical" in
  let ordinal_encoded := apply cat_codes features in
  target <- getitem X target_col ;;
  let f := mutual_info_regression random_state ordinal_encoded target
             (repeat true (shape1 X)) in
  let top := top_k argsort f show_top in
  let n_axes := _make_subplots show_top in
  drawn <- map_result
    (fun it =>
       let '(i, (col_ind, ax)) := it in
       col <- Py.getitem (columns features) i ;;
       f_col <- Py.getitem f col_ind ;;
       Ok {| panel_axis := ax; panel_column := col;
             panel_title := Some f_col; panel_kind := "box" |})
    (Py.enumerate (Py.zip top (seq 0 n_axes))) ;;
  off <- remaining_axes (length drawn) n_axes ;;
  Ok (Some {| scored_features := features; scores := f; selected := top;
              panels := drawn; axes_off := off |}).

(** What [plot_classification_continuous] shows for the features: a
    pair plot of all of them when there are at most five, otherwise the
    univariate plots of the top-ranked ones and, with [plot_pairwise],
    the positions handed to the interaction search.  The PCA and LDA
    figures that follow are computed by collaborators from the same
    imputed feature matrix and are not modelled. *)
Inductive continuous_overview : Type :=
  | Pairplot (features : dataframe)
  | Univariate (r : ranked score) (interaction_candidates : option (list nat)).

Definition plot_classification_continuous (X : dataframe)
    (target_col : string) (types : option types_frame)
    (univariate_plot : string) (plot_pairwise : bool)
    (top_k_interactions : Z) : result (option continuous_overview) :=
  types <- _check_X_target_col X target_col types (Some "classification") ;;
  features <- select_features continuous X target_col types ;;
  if Nat.eqb (shape1 features) 0 then Ok None else
  let features_imp := SimpleImputer_fit_transform features in
  target <- getitem X target_col ;;
  if Nat.leb (shape1 features) 5 then Ok (Some (Pairplot features)) else
  let show_top := _get_n_top features "continuous" in
  let f := f_classif features_imp target in
  let top := top_k argsort f show_top in
  best_features <- iloc_columns features top ;;
  let best_columns := columns best_features ++ [target_col] in
  r <- (if String.eqb univariate_plot "kde" then
          Ok {| scored_features := features; scores := f; selected := top;
                panels := map (fun ic =>
                                 {| panel_axis := fst ic;
                                    panel_column := snd ic;
                                    panel_title := None;
                                    panel_kind := "kde" |})
                              (Py.enumerate (columns best_features));
                axes_off := [] |}
        else if String.eqb univariate_plot "histogram" then
          let n_axes := _make_subplots show_top in
          drawn <- map_result
            (fun it =>
               let '(i, (ind, ax)) := it in
               col <- Py.getitem best_columns i ;;
               f_col <- Py.getitem f ind ;;
               Ok {| panel_axis := ax; panel_column := col;
                     panel_title := Some f_col;
                     panel_kind := "histogram" |})
            (Py.enumerate (Py.zip top (seq 0 n_axes))) ;;
          off <- remaining_axes (length drawn) n_axes ;;
          Ok {| scored_features := features; scores := f; selected := top;
                panels := drawn; axes_off := off |}
        else Raise (ValueError "Unknown value for univariate_plot: ")) ;;
  if negb plot_pairwise then Ok (Some (Univariate r None)) else
  Ok (Some (Univariate r (Some (top_k argsort f top_k_interactions)))).

(** The resolution of [kind='auto'] at the head of
    [plot_classification_categorical]. *)
Definition resolve_kind (kind : string) (target : column) : string :=
  if String.eqb kind "auto" then
    if Nat.ltb 5 (nunique target) then "count" else "mosaic"
  else kind.

Definition plot_classification_categorical (X : dataframe)
    (target_col : string) (types : option types_frame) (kind : string)
    : result (option (ranked score)) :=
  types <- _check_X_target_col X target_col types (Some "classification") ;;
  kind <- (if String.eqb kind "auto" then
             t <- getitem X target_col ;; Ok (resolve_kind kind t)
           else Ok kind) ;;
  features <- select_features categorical X target_col types ;;
  if Nat.eqb (shape1 features) 0 then Ok None else
  let show_top := _get_n_top features "categorical" in
  let ordinal_encoded := apply cat_codes features in
  target <- getitem X target_col ;;
  let f := mutual_info_classif ordinal_encoded target
             (repeat true (shape1 X)) in
  let top := top_k argsort f show_top in
  let n_axes := _make_subplots show_top in
  drawn <- map_result
    (fun it =>
       let '(col_ind, ax) := it in
       col <- Py.getitem (columns features) col_ind ;;
       let drawn_panel := {| panel_axis := ax; panel_column := col;
                             panel_title := None; panel_kind := kind |} in
       if String.eqb kind "proportion" then
         _ <- series_getitem_0 target ;; Ok drawn_panel
       else if String.eqb kind "mosaic" || String.eqb kind "count" then
         Ok drawn_panel
       else Raise (ValueError ("Unknown plot kind " ++ kind)))
    (Py.zip top (seq 0 n_axes)) ;;
  off <- remaining_axes (length drawn) n_axes ;;
  Ok (Some {| scored_features := features; scores := f; selected := top;
              panels := drawn; axes_off := off |}).

(** *** The top-level [plot] *)

(** Collaborators from [dabl.preprocessing]. *)
Variable clean :
  dataframe -> option (list (string * string)) -> dataframe * types_frame.
Variable guess_ordinal : column -> bool.

(** The loop over [types.index[types.low_card_int]]. *)
Fixpoint retype_low_card_int (X : dataframe) (cols : list string)
    (types : types_frame) : result types_frame :=
  match cols with
  | [] => Ok types
  | col :: cols' =>
      x <- getitem X col ;;
      let types :=
        if guess_ordinal x then
          set_loc (set_continuous true) col
                  (set_loc (set_low_card_int false) col types)
        else
          set_loc (set_categorical true) col
                  (set_loc (set_low_card_int false) col types) in
      retype_low_card_int X cols' types
  end.

(** What one pass of the loop body leaves in a row under its label. *)
Definition retype_row (X : dataframe) (r : string * type_row)
  : string * type_row :=
  match getitem X (fst r) with
  | Ok x =>
    (fst r,
     if guess_ordinal x
     then set_continuous true (set_low_card_int false (snd r))
     else set_categorical true (set_low_card_int false (snd r)))
  | Raise _ => r
  end.

(** "low_cardinality integers plot better as categorical" *)
Definition resolve_low_card_int (X : dataframe) (types : types_frame)
    : result types_frame :=
  if existsb (fun r => low_card_int (snd r)) types
  then retype_low_card_int X (index_where low_card_int types) types
  else Ok types.

(** The figures of one call of [plot], and the type table its panel
    functions were given. *)
Inductive figures : Type :=
  | Regression (cont : option (ranked score)) (cat : option (ranked score))
  | Classification (cont : option continuous_overview)
                 (cat : option (ranked score)).

Record plotted : Type := {
  panel_types : types_frame;
  plotted_figures : figures
}.

Definition plot (random_state : RandomState)
    (X : dataframe) (target_col : string)
    (type_hints : option (list (string * string))) (plot_pairwise : bool)
    : result plotted :=
  let '(X, types) := clean X type_hints in
  types <- _check_X_target_col X target_col (Some types) None ;;
  types <- resolve_low_card_int X types ;;
  is_regression <- match find (fun r => String.eqb (fst r) target_col)
                              (kind_series continuous types) with
                   | Some r => Ok (snd r)
                   | None => Raise (KeyError target_col)
                   end ;;
  if is_regression then
    cont <- plot_regression_continuous X target_col (Some types) ;;
    cat <- plot_regression_categorical random_state X target_col
             (Some types) ;;
    Ok {| panel_types := types; plotted_figures := Regression cont cat |}
  else
    cont <- plot_classification_continuous X target_col (Some types)
              "histogram" plot_pairwise 10 ;;
    cat <- plot_classification_categorical X target_col (Some types)
             "auto" ;;
    Ok {| panel_types := types;
          plotted_figures := Classification cont cat |}.

End Supervised.

Arguments Pairplot {score} features.

(** The feature frame behind the figures of
    [plot_classification_continuous]. *)
Definition overview_features {score : Type} (o : continuous_overview score)
    : dataframe :=
  match o with
  | Pairplot features => features
  | Univariate r _ => scored_features r
  end.

(** ** [dabl/explain.py] *)

Module Explain.

(** The coefficients of a linear model: a vector, or one row per class
    or target. *)
Inductive coef (score : Type) : Type :=
  | Coef1 (c : list score)
  | Coef2 (rows : list (list score)).

(** The attributes [explain] probes on an object.  [None] is an absent
    attribute: [hasattr] is false and reading it raises [AttributeError].
    [get_feature_names] is the method of a preprocessing step, called
    with the input names ([Some names]) or with no argument ([None]). *)
Record attrs (score : Type) : Type := {
  classes_ : option (list value);
  feature_names_ : option (list string);
  coef_ : option (coef score);
  feature_importances_ : option (list score);
  tree_depth : option (nat * nat);
  get_feature_names : option (option (list string) -> result (list string))
}.

(** The estimator classes [explain] tells apart with [isinstance]. *)
#[warnings="-register-all"] Inductive estimator (score : Type) : Type :=
  | SimpleClassifier (a : attrs score) (est_ : estimator score)
  | SimpleRegressor (a : attrs score) (est_ : estimator score)
  | AnyClassifier (a : attrs score) (est_ : estimator score)
  | Pipeline (a : attrs score) (steps : list (string * estimator score))
  | DecisionTreeClassifier (a : attrs score)
  | RandomForestClassifier (a : attrs score)
  | OtherEstimator (a : attrs score).

(** What [explain] prints and draws, in order. *)
Inductive event (score : Type) : Type :=
  | Printed (text : string)
  | Warned (text : string)
  | ClassificationReport
  | ConfusionMatrix
  | RocCurve (multiclass : bool)
  | TreePlot (feature_names : list string) (class_names : list value)
  | Coefficients (c : list score) (feature_names : list string)
               (classname : option value)
  | YLabel (text : string)
  | PartialDependence (features : list string) (feature_names : list string)
                    (target : option value) (n_cols : nat).

Section WithScore.
Variable score : Type.

Definition attrs_of (e : estimator score) : attrs score :=
    match e with
    | SimpleClassifier a _ | SimpleRegressor a _ | AnyClassifier a _
    | Pipeline a _ | DecisionTreeClassifier a | RandomForestClassifier a
    | OtherEstimator a => a
    end.

(** Reading an attribute. *)
Definition getattr {A : Type} (field : attrs score -> option A)
      (name : string) (e : estimator score) : result A :=
    match field (attrs_of e) with
    | Some a => Ok a
    | None => Raise (AttributeError name)
    end.

Definition hasattr {A : Type} (field : attrs score -> option A)
      (e : estimator score) : bool :=
    match field (attrs_of e) with
    | Some _ => true
    | None => false
    end.

(** [Pipeline._final_estimator]: the estimator of the last step. *)
Definition _final_estimator (steps : list (string * estimator score))
      : result (estimator score) :=
    match rev steps with
    | s :: _ => Ok (snd s)
    | [] => Raise IndexError
    end.

(** The names a preprocessing step gives its output features:
<<
    try:
        feature_names = step.get_feature_names(feature_names)
    except TypeError:
        feature_names = step.get_feature_names()
>> *)
Definition step_feature_names (step : estimator score)
      (feature_names : list string) : result (list string) :=
    method <- getattr (@get_feature_names score) "get_feature_names" step ;;
    match method (Some feature_names) with
    | Raise TypeError => method None
    | r => r
    end.

(** The wrappers of [dabl.models] keep their pipeline in [est_]. *)
Definition unwrap_wrapper (est : estimator score) : estimator score :=
  match est with
  | SimpleClassifier _ est_ | SimpleRegressor _ est_ => est_
  | AnyClassifier _ est_ => est_
  | _ => est
  end.

Definition _extract_inner_estimator (est : estimator score)
  (feature_names : list string)
  : result (estimator score * list string) :=
  let inner_estimator := unwrap_wrapper est in
  match inner_estimator with
  | Pipeline _ steps =>
    if negb (Nat.eqb (length steps) 2) then Raise AssertionError else
    final_est <- _final_estimator steps ;;
    first <- Py.getitem steps 0 ;;
    feature_names <- step_feature_names (snd first) feature_names ;;
    Ok (final_est, feature_names)
  | _ => Ok (inner_estimator, feature_names)
  end.

(** *** Output and exceptions together

    A computation returns what it printed and drew up to its result
    or up to the exception that ended it. *)
Definition io (A : Type) : Type := list (event score) * result A.

Definition ret {A : Type} (a : A) : io A := ([], Ok a).
Definition emit (ev : event score) : io unit := ([ev], Ok tt).
Definition throw {A : Type} (e : exn) : io A := ([], Raise e).
Definition lift {A : Type} (r : result A) : io A := ([], r).

Definition iobind {A B : Type} (m : io A) (k : A -> io B) : io B :=
    match m with
    | (t, Ok a) => let (t', r) := k a in (t ++ t', r)
    | (t, Raise e) => (t, Raise e)
    end.

(** [try: m except <handled exceptions>: handler] *)
Definition try_except {A : Type} (m : io A)
      (handler : exn -> option (io A)) : io A :=
    match m with
    | (t, Raise e) =>
        match handler e with
        | Some h => let (t', r) := h in (t ++ t', r)
        | None => (t, Raise e)
        end
    | done => done
    end.

Fixpoint for_each {A : Type} (body : A -> io unit) (l : list A)
      : io unit :=
    match l with
    | [] => ret tt
    | a :: l' => iobind (body a) (fun _ => for_each body l')
    end.

(** *** Collaborators *)

(** The order of the importances and their negation, for the feature
    selector. *)
Variable sleb : score -> score -> bool.
Variable sneg : score -> score.

(** [_validate_Xyt(X_val, y_val, target_col, do_clean=False)] splits the
    validation frame into features and labels. *)
Variable _validate_Xyt :
  dataframe -> option column -> option string -> dataframe * column.

(** Whether [sklearn.metrics.plot_roc_curve] can be imported. *)
Variable has_plot_roc_curve : bool.

(** [find_pretty_grid(n)]: rows and columns for [n] plots;
    [_make_subplots(n)]: a grid of axes, of which the model keeps the
    count. *)
Variable find_pretty_grid : nat -> nat * nat.
Variable _make_subplots : nat -> nat.

(** [plot_partial_dependence(estimator, X_val, features=..., feature_names=...,
    target=..., n_cols=...)]: [None] when the plot is drawn, the exception
    when the computation raises one. *)
Variable plot_partial_dependence :
  estimator score -> dataframe -> list string -> list string ->
  option value -> nat -> option exn.

(** The importance of each feature for [SelectFromModel]: the
    [feature_importances_] of the estimator, else the magnitude of its
    coefficients, and the threshold below which a feature is left out. *)
Variable coef_importances : coef score -> list score.
Variable calculate_threshold : estimator score -> list score -> score.

Definition _get_feature_importances (est : estimator score)
    : result (list score) :=
  match feature_importances_ (attrs_of est), coef_ (attrs_of est) with
  | Some imp, _ => Ok imp
  | None, Some c => Ok (coef_importances c)
  | None, None =>
      Raise (ValueError "The underlying estimator has no `coef_` or `feature_importances_` attribute.")
  end.

(** The mask over the importances: a position is kept when it is among
    the first [max_features] of [np.argsort(-scores, kind='mergesort')]
    and its importance is not below the threshold. *)
Definition support_mask (threshold : score) (max_features : nat)
    (imp : list score) : list bool :=
  let candidate_indices :=
    firstn max_features (Sorting.insertion_argsort sleb (map sneg imp)) in
  map (fun ix =>
         existsb (Nat.eqb (fst ix)) candidate_indices
         && sleb threshold (snd ix))
      (Py.enumerate imp).

(** [SelectFromModel(est, prefit=True, max_features=m)._get_support_mask()]:
    the positions of the [m] highest importances (a stable sort of the
    negated scores), without those below the threshold. *)
Definition _get_support_mask (est : estimator score) (max_features : nat)
    : result (list bool) :=
  imp <- _get_feature_importances est ;;
  let threshold := calculate_threshold est imp in
  Ok (support_mask threshold max_features imp).

(** [fs.transform([feature_names]).ravel()]: the names under the mask;
    none, with a warning of scikit-learn's own, when the mask selects
    nothing. *)
Definition SelectFromModel_transform (est : estimator score)
    (max_features : nat) (feature_names : list string)
    : result (list string) :=
  mask <- _get_support_mask est max_features ;;
  if negb (existsb (fun b : bool => b) mask) then Ok []
  else if negb (Nat.eqb (length feature_names) (length mask))
  then Raise (ValueError "X has a different shape than during fitting.")
  else Ok (map fst (filter snd (Py.zip feature_names mask))).

(** *** The explainer *)

Definition classification_metrics (est : estimator score)
    (X_val : dataframe) (y_val : column) : io unit :=
  iobind (emit (ClassificationReport score)) (fun _ =>
  iobind (emit (ConfusionMatrix score)) (fun _ =>
  if has_plot_roc_curve then
    iobind (lift (getattr (@classes_ score) "classes_" est)) (fun classes =>
    if Nat.eqb (length classes) 2 then emit (RocCurve score false)
    else if Nat.ltb 2 (length classes) then emit (RocCurve score true)
    else ret tt)
  else emit (Warned score "Can't plot roc curve, install sklearn 0.22-dev"))).

(** [np.squeeze(coef_)] of a vector or a matrix; [None] when more than
    one dimension is left. *)
Definition squeeze (c : coef score) : option (list score) :=
  match c with
  | Coef1 v => Some v
  | Coef2 [row] => Some row
  | Coef2 rows =>
      if forallb (fun row => Nat.eqb (length row) 1) rows
      then Some (concat rows) else None
  end.

(** [np.atleast_2d(coef_)] *)
Definition atleast_2d (c : coef score) : list (list score) :=
  match c with
  | Coef1 v => [v]
  | Coef2 rows => rows
  end.

(** The plots that depend on the kind of the unwrapped estimator. *)
Definition explain_inner (est inner_estimator : estimator score)
    (feature_names : list string) (n_classes : nat) : io unit :=
  match inner_estimator with
  | DecisionTreeClassifier a =>
      iobind (emit (Printed score "DecisionTreeClassifier")) (fun _ =>
      iobind (match tree_depth a with
              | Some _ => iobind (emit (Printed score "Depth: "))
                            (fun _ => emit (Printed score "Number of leaves: "))
              | None => emit (Warned score "Can't show tree depth, install scikit-learn 0.21 to show the full information.")
              end) (fun _ =>
      iobind (lift (getattr (@classes_ score) "classes_" est)) (fun class_names =>
      iobind (emit (TreePlot score feature_names class_names)) (fun _ =>
      iobind (lift (getattr (@feature_importances_ score)
                            "feature_importances_" inner_estimator)) (fun imp =>
      iobind (emit (Coefficients imp feature_names None)) (fun _ =>
      emit (YLabel score "Impurity Decrease")))))))
  | _ =>
      match coef_ (attrs_of inner_estimator) with
      | Some c =>
          if Nat.ltb 2 n_classes then
            iobind (lift (getattr (@classes_ score) "classes_" inner_estimator))
              (fun classes =>
            for_each (fun kc => emit (Coefficients (snd kc) feature_names
                                                   (Some (fst kc))))
                     (firstn (_make_subplots n_classes)
                             (Py.zip classes (atleast_2d c))))
          else
            match squeeze c with
            | Some v => emit (Coefficients v feature_names None)
            | None => throw (ValueError "Don't know how to handle multi-target regressor")
            end
      | None =>
          match inner_estimator with
          | RandomForestClassifier _ =>
              iobind (lift (getattr (@feature_importances_ score)
                                    "feature_importances_" inner_estimator))
                (fun imp =>
              iobind (emit (Coefficients imp feature_names None)) (fun _ =>
              emit (YLabel score "Imputity Decrease")))
          | _ => ret tt
          end
      end
  end.

(** One call of [plot_partial_dependence] with its figure. *)
Definition partial_dependence_figure (est : estimator score)
    (X_val : dataframe) (features feature_names : list string)
    (target : option value) (n_cols : nat) : io unit :=
  match plot_partial_dependence est X_val features feature_names target
                                n_cols with
  | None => emit (PartialDependence score features feature_names target n_cols)
  | Some e => throw e
  end.

(** The last block of [explain], under [if X_val is not None]. *)
Definition explain_partial_dependence (est inner_estimator : estimator score)
    (X_val : dataframe) (feature_names : list string) (n_classes : nat)
    : io unit :=
  iobind (lift (SelectFromModel_transform inner_estimator 10 feature_names))
    (fun features =>
  if hasattr (@coef_ score) inner_estimator then ret tt else
  iobind (emit (Printed score "Computing partial dependence plots..."))
    (fun _ =>
  let '(n_rows, n_cols) := find_pretty_grid (length features) in
  try_except
    (if Nat.leb n_classes 2 then
       partial_dependence_figure est X_val features feature_names None n_cols
     else
       iobind (lift (getattr (@classes_ score) "classes_" est)) (fun classes =>
       for_each (fun c => partial_dependence_figure est X_val features
                            feature_names (Some c) n_cols)
                classes))
    (fun e =>
       match e with
       | ValueError msg =>
           Some (emit (Warned score
                   ("Couldn't run partial dependence plot: " ++ msg)))
       | _ => None
       end))).

(** [explain] up to the plots of the unwrapped estimator: the unwrapped
    estimator, the feature names of its input, the number of classes and
    the validation data. *)
Definition explain_head (est : estimator score) (X_val : option dataframe)
    (y_val : option column) (target_col : option string)
    (feature_names : option (list string))
    : io (estimator score * list string * nat * option (dataframe * column)) :=
  iobind (match feature_names with
          | Some names => ret names
          | None =>
              match feature_names_ (attrs_of est) with
              | Some names => ret names
              | None => throw (ValueError "Can't determine input feature names, please pass them.")
              end
          end) (fun feature_names =>
  let n_classes :=
    match classes_ (attrs_of est) with
    | Some classes => if Nat.leb 2 (length classes) then length classes else 1
    | None => 1
    end in
  let classifier :=
    match classes_ (attrs_of est) with
    | Some classes => Nat.leb 2 (length classes)
    | None => false
    end in
  iobind (lift (_extract_inner_estimator est feature_names)) (fun unwrapped =>
  let '(inner_estimator, feature_names) := unwrapped in
  let validated :=
    match X_val with
    | Some Xv => Some (_validate_Xyt Xv y_val target_col)
    | None => None
    end in
  iobind (match validated with
          | Some (Xv, yv) =>
              if classifier then classification_metrics est Xv yv else ret tt
          | None => ret tt
          end) (fun _ =>
  iobind (explain_inner est inner_estimator feature_names n_classes) (fun _ =>
  ret (inner_estimator, feature_names, n_classes, validated))))).

Definition explain (est : estimator score) (X_val : option dataframe)
    (y_val : option column) (target_col : option string)
    (feature_names : option (list string)) : io unit :=
  iobind (explain_head est X_val y_val target_col feature_names) (fun st =>
  let '(inner_estimator, feature_names, n_classes, validated) := st in
  match validated with
  | Some (Xv, _) =>
      explain_partial_dependence est inner_estimator Xv feature_names n_classes
  | None => ret tt
  end).

End WithScore.

Arguments ret {score A} a.
Arguments throw {score A} e.
Arguments lift {score A} r.

End Explain.

Import Explain.

(** ** Reading the results

    What a boolean Series says about a label, and the kinds of events
    [explain] leaves in its output. *)

(** [mask[name]] where the mask covers the label, false elsewhere. *)
Definition flagged (mask : bool_series) (name : string) : bool :=
  match lookup_flag mask name with
  | Ok b => b
  | Raise _ => false
  end.

(** The events of [classification_metrics]. *)
Definition is_metrics {score : Type} (ev : event score) : bool :=
  match ev with
  | ClassificationReport _ | ConfusionMatrix _ | RocCurve _ _ => true
  | Warned _ text =>
      String.eqb text "Can't plot roc curve, install sklearn 0.22-dev"
  | _ => false
  end.

(** The events of the partial dependence block. *)
Definition is_partial_dependence {score : Type} (ev : event score) : bool :=
  match ev with
  | PartialDependence _ _ _ _ _ => true
  | Printed _ text => String.eqb text "Computing partial dependence plots..."
  | _ => false
  end.

(** Neither of the two. *)
Definition is_model_plot {score : Type} (ev : event score) : bool :=
  negb (is_metrics ev || is_partial_dependence ev).

(** ** Sample data

    Concrete collaborators and frames on which the definitions above can
    be run.  Scores are integers here; a feature scores the number of
    rows on which it agrees with the target. *)

Module Sample.

Definition num (z : Z) : cell := Some (VNum z).

Definition cell_eqb (a b : cell) : bool :=
  match a, b with
  | Some v, Some w => value_eqb v w
  | _, _ => false
  end.

Definition agreement (x y : column) : Z :=
  Z.of_nat (length (filter (fun p => cell_eqb (fst p) (snd p)) (combine x y))).

Definition code_agreement (codes : list Z) (y : column) (discrete : bool) : Z :=
  agreement (map num codes) y.

(** A mutual information estimate with noise: the state of the generator
    is a number, which a feature gains once for every row of code 1.
    In state 0 it is [code_agreement]. *)
Definition noisy_agreement (state : Z) (codes : list Z) (y : column)
    (discrete : bool) : Z :=
  (code_agreement codes y discrete
   + state * Z.of_nat (length (filter (Z.eqb 1) codes)))%Z.

Definition argsort : list Z -> list nat := Sorting.insertion_argsort Z.leb.

Definition check_types (X : dataframe) (target_col : string)
    (types : option types_frame) (task : option string)
    : result types_frame :=
  match types with
  | Some t => Ok t
  | None => Raise (ValueError "no types")
  end.

Definition get_n_top (features : dataframe) (name : string) : Z :=
  let n := Z.of_nat (shape1 features) in
  if (20 <? n)%Z then 10%Z else n.

Definition make_subplots (n_plots : Z) : nat := Z.to_nat n_plots.

Definition impute (c : column) : column := c.

Definition is_continuous : type_row :=
  {| continuous := true; categorical := false; low_card_int := false;
     other_kind := false |}.

Definition is_categorical : type_row :=
  {| continuous := false; categorical := true; low_card_int := false;
     other_kind := false |}.

Definition is_low_card_int : type_row :=
  {| continuous := false; categorical := false; low_card_int := true;
     other_kind := false |}.

(** Two continuous features and a continuous target. *)
Definition X_reg : dataframe :=
  [ ("a", map num [1; 2; 3; 4]%Z);
    ("b", map num [1; 2; 0; 0]%Z);
    ("y", map num [1; 2; 3; 4]%Z) ].

Definition types_reg : types_frame :=
  [ ("a", is_continuous); ("b", is_continuous); ("y", is_continuous) ].

(** Three continuous features, the first without any observed value. *)
Definition X_gap : dataframe :=
  [ ("a", [None; None; None; None]);
    ("b", map num [1; 2; 0; 0]%Z);
    ("c", map num [1; 2; 3; 5]%Z);
    ("y", map num [1; 2; 3; 4]%Z) ].

Definition types_gap : types_frame :=
  [ ("a", is_continuous); ("b", is_continuous); ("c", is_continuous);
    ("y", is_continuous) ].

(** Two categorical features and a target; [b] follows the target, [a]
    is constant. *)
Definition str (s : string) : cell := Some (VStr s).

Definition X_cat : dataframe :=
  [ ("a", map str ["x"; "x"; "x"; "x"]);
    ("b", map str ["p"; "q"; "p"; "q"]);
    ("y", map num [0; 1; 0; 1]%Z) ].

Definition types_cat_reg : types_frame :=
  [ ("a", is_categorical); ("b", is_categorical); ("y", is_continuous) ].

Definition types_cat_clf : types_frame :=
  [ ("a", is_categorical); ("b", is_categorical); ("y", is_categorical) ].



(** Two features with the same values, hence the same score under every
    univariate test. *)
Definition X_tie : dataframe :=
  [ ("a", map num [1; 2; 0; 0]%Z);
    ("b", map num [1; 2; 0; 0]%Z);
    ("y", map num [1; 2; 3; 4]%Z) ].

(** A frame with a low-cardinality integer column. *)
Definition X_low : dataframe :=
  [ ("n", map num [1; 2; 3; 1]%Z);
    ("c", map str ["p"; "q"; "p"; "q"]);
    ("y", map num [10; 20; 30; 40]%Z) ].

Definition types_low : types_frame :=
  [ ("n", is_low_card_int); ("c", is_categorical); ("y", is_continuous) ].


Definition guess_ordinal (c : column) : bool := Nat.leb 3 (nunique c).

(** Estimators. *)
Definition no_attrs : attrs Z :=
  {| classes_ := None; feature_names_ := None; coef_ := None;
     feature_importances_ := None; tree_depth := None;
     get_feature_names := None |}.

Definition two_classes : list value := [VNum 0; VNum 1].
Definition three_classes : list value := [VNum 0; VNum 1; VNum 2].

Definition forest_attrs (classes : list value) : attrs Z :=
  {| classes_ := Some classes; feature_names_ := None; coef_ := None;
     feature_importances_ := Some [5; 1; 3]%Z; tree_depth := None;
     get_feature_names := None |}.

Definition linear_attrs : attrs Z :=
  {| classes_ := Some two_classes; feature_names_ := None;
     coef_ := Some (Coef2 [[4; 0; 2]%Z]);
     feature_importances_ := None; tree_depth := None;
     get_feature_names := None |}.

(** A preprocessing step whose [get_feature_names] takes no argument. *)
Definition preprocessor_attrs : attrs Z :=
  {| classes_ := None; feature_names_ := None; coef_ := None;
     feature_importances_ := None; tree_depth := None;
     get_feature_names :=
       Some (fun arg => match arg with
                        | Some _ => Raise TypeError
                        | None => Ok ["f0"; "f1"; "f2"]
                        end) |}.

Definition forest (classes : list value) : estimator Z :=
  RandomForestClassifier (forest_attrs classes).

Definition linear : estimator Z := OtherEstimator linear_attrs.

Definition pipeline_attrs : attrs Z :=
  {| classes_ := Some two_classes; feature_names_ := None; coef_ := None;
     feature_importances_ := None; tree_depth := None;
     get_feature_names := None |}.

Definition pipeline2 : estimator Z :=
  Pipeline pipeline_attrs
    [ ("prep", OtherEstimator preprocessor_attrs);
      ("clf", forest two_classes) ].

(** Two steps, the first a scaler without [get_feature_names]. *)
Definition pipeline_scaler : estimator Z :=
  Pipeline pipeline_attrs
    [ ("scale", OtherEstimator no_attrs); ("clf", linear) ].

Definition pipeline3 : estimator Z :=
  Pipeline pipeline_attrs
    [ ("prep", OtherEstimator preprocessor_attrs);
      ("scale", OtherEstimator no_attrs);
      ("clf", forest two_classes) ].

Definition simple_classifier : estimator Z :=
  SimpleClassifier pipeline_attrs pipeline2.

(** Collaborators of [explain]. *)
Definition validate (X_val : dataframe) (y_val : option column)
    (target_col : option string) : dataframe * column :=
  (X_val, match y_val with Some y => y | None => [] end).

Definition pretty_grid (n : nat) : nat * nat := (1, n).
Definition subplots (n : nat) : nat := n.

Definition pd_draws (est : estimator Z) (X_val : dataframe)
    (features feature_names : list string) (target : option value)
    (n_cols : nat) : option exn := None.

Definition pd_raises (est : estimator Z) (X_val : dataframe)
    (features feature_names : list string) (target : option value)
    (n_cols : nat) : option exn := Some (ValueError "too few samples").

Definition magnitudes (c : coef Z) : list Z :=
  match c with
  | Coef1 v => map Z.abs v
  | Coef2 rows => map Z.abs (concat rows)
  end.

Definition threshold (est : estimator Z) (imp : list Z) : Z := 2%Z.

Definition X_val : dataframe :=
  [ ("f0", map num [1; 2]%Z); ("f1", map num [3; 4]%Z);
    ("f2", map num [5; 6]%Z) ].

(** Six continuous features and a class label. *)
Definition X_wide : dataframe :=
  [ ("f0", map num [0; 0; 0; 0]%Z);
    ("f1", map num [0; 1; 0; 0]%Z);
    ("f2", map num [0; 1; 1; 0]%Z);
    ("f3", map num [0; 1; 1; 1]%Z);
    ("f4", map num [1; 1; 1; 0]%Z);
    ("f5", map num [1; 0; 0; 1]%Z);
    ("y", map num [0; 1; 1; 1]%Z) ].

Definition types_wide : types_frame :=
  [ ("f0", is_continuous); ("f1", is_continuous); ("f2", is_continuous);
    ("f3", is_continuous); ("f4", is_continuous); ("f5", is_continuous);
    ("y", is_categorical) ].

(** A frame whose target is a low-cardinality integer. *)
Definition X_rating : dataframe :=
  [ ("a", map num [1; 2; 3; 1]%Z);
    ("y", map num [1; 2; 3; 1]%Z) ].

Definition types_rating : types_frame :=
  [ ("a", is_continuous); ("y", is_low_card_int) ].

Definition clean_rating (X : dataframe)
    (type_hints : option (list (string * string)))
    : dataframe * types_frame :=
  (X, types_rating).

(** A linear model of three classes and a regressor of two targets. *)
Definition linear3 : estimator Z :=
  OtherEstimator
    {| classes_ := Some three_classes; feature_names_ := None;
       coef_ := Some (Coef2 [[1; 0; 2]; [0; 3; 0]; [4; 4; 1]]%Z);
       feature_importances_ := None; tree_depth := None;
       get_feature_names := None |}.

Definition multi_target : estimator Z :=
  OtherEstimator
    {| classes_ := None; feature_names_ := None;
       coef_ := Some (Coef2 [[1; 0; 2]; [0; 3; 0]]%Z);
       feature_importances_ := None; tree_depth := None;
       get_feature_names := None |}.

Definition pd_type_error (est : estimator Z) (X_val : dataframe)
    (features feature_names : list string) (target : option value)
    (n_cols : nat) : option exn := Some TypeError.

End Sample.

(* ================================================================= *)
(** * Part II.  Properties *)
(* ================================================================= *)

(** ** Lists, slices and sorted lists *)

Section ListFacts.
Variable A : Type.
Variable R : A -> A -> Prop.

Lemma ssorted_app (l1 l2 : list A) :
  StronglySorted R (l1 ++ l2) ->
  StronglySorted R l1 /\ StronglySorted R l2 /\
  (forall x y, In x l1 -> In y l2 -> R x y).
Proof.
  induction l1 as [|a l1 IH]; simpl; intros H.
  - repeat split; [constructor | assumption | intros x y []].
  - apply StronglySorted_inv in H. destruct H as [Hs Hall].
    destruct (IH Hs) as (H1 & H2 & H12).
    rewrite Forall_app in Hall. destruct Hall as [Ha1 Ha2].
    repeat split; [constructor; assumption | assumption |].
    intros x y [<-|Hx] Hy.
    + rewrite Forall_forall in Ha2. auto.
    + auto.
Qed.

Lemma ssorted_app_intro (l1 l2 : list A) :
  StronglySorted R l1 -> StronglySorted R l2 ->
  (forall x y, In x l1 -> In y l2 -> R x y) ->
  StronglySorted R (l1 ++ l2).
Proof.
  induction l1 as [|a l1 IH]; simpl; intros H1 H2 H12; [assumption|].
  apply StronglySorted_inv in H1. destruct H1 as [Hs Hall].
  constructor.
  - apply IH; auto.
  - rewrite Forall_app. split; [assumption|].
    rewrite Forall_forall. intros y Hy. apply H12; auto.
Qed.

Lemma ssorted_skipn (n : nat) (l : list A) :
  StronglySorted R l -> StronglySorted R (skipn n l).
Proof.
  intros H. rewrite <- (firstn_skipn n l) in H.
  apply ssorted_app in H. tauto.
Qed.

Lemma NoDup_skipn (n : nat) (l : list A) : NoDup l -> NoDup (skipn n l).
Proof.
  intros H. rewrite <- (firstn_skipn n l) in H.
  eapply NoDup_app_remove_l; eassumption.
Qed.

Lemma In_skipn (n : nat) (l : list A) (x : A) : In x (skipn n l) -> In x l.
Proof.
  intros H. rewrite <- (firstn_skipn n l). apply in_or_app. now right.
Qed.

Lemma slice_from_suffix (start : Z) (l : list A) :
  exists n, Py.slice_from start l = skipn n l.
Proof. unfold Py.slice_from. eexists. reflexivity. Qed.

(** [l[-k:]] keeps the last [k] elements, all of them when there are
    fewer. *)
Lemma slice_from_last_length (k : Z) (l : list A) :
  (0 < k)%Z ->
  length (Py.slice_from (- k) l) = Z.to_nat (Z.min k (Z.of_nat (length l))).
Proof.
  intros Hk. unfold Py.slice_from.
  destruct (Z.ltb_spec (- k) 0) as [_|Hge]; [|lia].
  rewrite length_skipn. lia.
Qed.

(** [l[-0:]] is the whole list. *)
Lemma slice_from_zero (l : list A) : Py.slice_from (- 0) l = l.
Proof.
  unfold Py.slice_from. simpl.
  replace (Z.to_nat (Z.min 0 (Z.of_nat (length l)))) with 0 by lia.
  reflexivity.
Qed.

End ListFacts.

Lemma ssorted_rev (A : Type) (R : A -> A -> Prop) (l : list A) :
  StronglySorted R l -> StronglySorted (fun x y => R y x) (rev l).
Proof.
  induction 1 as [|a l Hs IH Hall]; simpl; [constructor|].
  apply ssorted_app_intro.
  - assumption.
  - repeat constructor.
  - intros x y Hx [<-|[]]. rewrite Forall_forall in Hall.
    apply Hall. apply in_rev. assumption.
Qed.

Lemma map_result_ok (A B : Type) (fn : A -> result B) (l : list A) :
  (forall a, In a l -> exists b, fn a = Ok b) ->
  exists bs, map_result fn l = Ok bs /\ length bs = length l.
Proof.
  induction l as [|a l IH]; simpl; intros H.
  - exists []. split; reflexivity.
  - destruct (H a (or_introl eq_refl)) as [b Hb].
    destruct IH as (bs & Hbs & Hlen); [intros; apply H; now right|].
    exists (b :: bs). rewrite Hb, Hbs. simpl. split; congruence.
Qed.

Lemma getitem_ok (A : Type) (l : list A) (i : nat) :
  i < length l -> exists a, Py.getitem l i = Ok a.
Proof.
  intros H. unfold Py.getitem.
  destruct (nth_error l i) eqn:E; [eauto|].
  apply nth_error_None in E. lia.
Qed.

(** ** The ranking [np.argsort(f)[-show_top:][::-1]] *)

Section RankingFacts.
Variable score : Type.
Variable sleb : score -> score -> bool.
Variable argsort : list score -> list nat.
Hypothesis argsort_ok : argsort_spec sleb argsort.

Lemma argsort_length (f : list score) : length (argsort f) = length f.
Proof.
  rewrite (Permutation_length (argsort_perm argsort_ok f)).
  apply length_seq.
Qed.

Lemma argsort_NoDup (f : list score) : NoDup (argsort f).
Proof.
  eapply Permutation_NoDup.
  - apply Permutation_sym, (argsort_perm argsort_ok f).
  - apply seq_NoDup.
Qed.

Lemma argsort_in_range (f : list score) (i : nat) :
  In i (argsort f) <-> i < length f.
Proof.
  split; intros H.
  - apply (Permutation_in _ (argsort_perm argsort_ok f)) in H.
    apply in_seq in H. lia.
  - apply (Permutation_in _ (Permutation_sym (argsort_perm argsort_ok f))).
    apply in_seq. lia.
Qed.

Lemma top_k_length (f : list score) (show_top : Z) :
  (0 < show_top)%Z ->
  length (top_k argsort f show_top)
  = Z.to_nat (Z.min show_top (Z.of_nat (length f))).
Proof.
  intros H. unfold top_k, Py.reversed.
  rewrite length_rev, slice_from_last_length by assumption.
  now rewrite argsort_length.
Qed.

Lemma top_k_NoDup (f : list score) (show_top : Z) :
  NoDup (top_k argsort f show_top).
Proof.
  unfold top_k, Py.reversed.
  destruct (slice_from_suffix (- show_top) (argsort f)) as [n ->].
  apply NoDup_rev, NoDup_skipn, argsort_NoDup.
Qed.

Lemma top_k_in_range (f : list score) (show_top : Z) (i : nat) :
  In i (top_k argsort f show_top) -> i < length f.
Proof.
  unfold top_k, Py.reversed. intros H. apply in_rev in H.
  destruct (slice_from_suffix (- show_top) (argsort f)) as [n Hn].
  rewrite Hn in H. apply In_skipn in H. now apply argsort_in_range.
Qed.

Lemma top_k_descending (f : list score) (show_top : Z) :
  StronglySorted (descending_at sleb f) (top_k argsort f show_top).
Proof.
  unfold top_k, Py.reversed, descending_at.
  destruct (slice_from_suffix (- show_top) (argsort f)) as [n ->].
  apply ssorted_rev, ssorted_skipn, (argsort_sorted argsort_ok).
Qed.

(** No feature left out scores above a selected one. *)
Lemma top_k_dominates (f : list score) (show_top : Z) (i j : nat) :
  i < length f -> ~ In i (top_k argsort f show_top) ->
  In j (top_k argsort f show_top) ->
  ascending_at sleb f i j.
Proof.
  unfold top_k, Py.reversed. intros Hi Hni Hj.
  destruct (slice_from_suffix (- show_top) (argsort f)) as [n Hn].
  rewrite Hn in *. rewrite <- in_rev in Hni, Hj.
  pose proof (argsort_sorted argsort_ok f) as Hs.
  rewrite <- (firstn_skipn n (argsort f)) in Hs.
  apply ssorted_app in Hs. destruct Hs as (_ & _ & H12).
  apply H12; [|assumption].
  apply argsort_in_range in Hi.
  rewrite <- (firstn_skipn n (argsort f)) in Hi.
  apply in_app_or in Hi. tauto.
Qed.

End RankingFacts.

(** ** Insertion sort *)

Section InsertionFacts.
Variable A : Type.
Variable leb : A -> A -> bool.

Lemma insert_by_perm (x : A) (l : list A) :
  Permutation (Sorting.insert_by leb x l) (x :: l).
Proof.
  induction l as [|y l IH]; simpl; [reflexivity|].
  destruct (leb x y); [reflexivity|].
  rewrite IH. apply perm_swap.
Qed.

Lemma sort_by_perm (l : list A) : Permutation (Sorting.sort_by leb l) l.
Proof.
  induction l as [|x l IH]; simpl; [reflexivity|].
  rewrite insert_by_perm. now constructor.
Qed.

Variable pos : A -> nat.

Hypothesis leb_total : forall a b, leb a b = true \/ leb b a = true.
Hypothesis leb_trans :
  forall a b c, leb a b = true -> leb b c = true -> leb a c = true.

Lemma insert_by_stable (p : A) (s : list A) :
  StronglySorted (Sorting.stable_le leb pos) s ->
  (forall q, In q s -> pos p < pos q) ->
  StronglySorted (Sorting.stable_le leb pos) (Sorting.insert_by leb p s).
Proof.
  induction 1 as [|y s Hs IH Hall]; simpl; intros Hpos.
  - repeat constructor.
  - destruct (leb p y) eqn:Hpy.
    + constructor; [constructor; assumption|].
      rewrite Forall_forall in *. intros q [<-|Hq].
      * split; [assumption | intros _; apply Hpos; now left].
      * split; [|intros _; apply Hpos; now right].
        apply leb_trans with y; [assumption | apply Hall, Hq].
    + constructor; [apply IH; intros; apply Hpos; now right|].
      rewrite Forall_forall in *. intros q Hq.
      apply (Permutation_in _ (insert_by_perm p s)) in Hq.
      destruct Hq as [<-|Hq]; [|auto].
      split; [|congruence].
      destruct (leb_total y p); congruence.
Qed.

Lemma sort_by_stable (l : list A) :
  StronglySorted (fun p q => pos p < pos q) l ->
  StronglySorted (Sorting.stable_le leb pos) (Sorting.sort_by leb l).
Proof.
  induction 1 as [|p l Hs IH Hall]; simpl; [constructor|].
  apply insert_by_stable; [assumption|].
  intros q Hq. apply (Permutation_in _ (sort_by_perm l)) in Hq.
  rewrite Forall_forall in Hall. auto.
Qed.

End InsertionFacts.

Lemma ssorted_map (A B : Type) (R : A -> A -> Prop) (R' : B -> B -> Prop)
    (g : A -> B) (l : list A) :
  (forall p q, In p l -> In q l -> R p q -> R' (g p) (g q)) ->
  StronglySorted R l -> StronglySorted R' (map g l).
Proof.
  intros Hg H. induction H as [|a l Hs IH Hall]; simpl; [constructor|].
  constructor.
  - apply IH. intros p q Hp Hq. apply Hg; now right.
  - rewrite Forall_forall in *. intros b Hb.
    apply in_map_iff in Hb. destruct Hb as (q & <- & Hq).
    apply Hg; [now left | now right | auto].
Qed.

Lemma enumerate_fst (A : Type) (l : list A) :
  map fst (Py.enumerate l) = seq 0 (length l).
Proof.
  unfold Py.enumerate. generalize 0.
  induction l as [|a l IH]; simpl; intros n; [reflexivity|].
  now rewrite IH.
Qed.

Lemma enumerate_snd (A : Type) (l : list A) :
  map snd (Py.enumerate l) = l.
Proof.
  unfold Py.enumerate. generalize 0.
  induction l as [|a l IH]; simpl; intros n; [reflexivity|].
  now rewrite IH.
Qed.

Lemma enumerate_nth (A : Type) (l : list A) (p : nat * A) :
  In p (Py.enumerate l) -> nth_error l (fst p) = Some (snd p).
Proof.
  unfold Py.enumerate. intros H.
  assert (G : forall n, In p (combine (seq n (length l)) l) ->
                        n <= fst p /\ nth_error l (fst p - n) = Some (snd p)).
  { clear H. induction l as [|a l IH]; simpl; intros n H; [destruct H|].
    destruct H as [<-|H]; simpl.
    - rewrite Nat.sub_diag. split; [lia | reflexivity].
    - apply IH in H. destruct H as [Hle Hnth]. split; [lia|].
      replace (fst p - n) with (S (fst p - S n)) by lia. exact Hnth. }
  apply G in H. now rewrite Nat.sub_0_r in H.
Qed.

Lemma enumerate_increasing (A : Type) (l : list A) :
  StronglySorted (fun p q : nat * A => fst p < fst q) (Py.enumerate l).
Proof.
  unfold Py.enumerate. generalize 0.
  induction l as [|a l IH]; simpl; intros n; constructor.
  - apply IH.
  - rewrite Forall_forall. intros [i v] Hq.
    apply in_combine_l in Hq. apply in_seq in Hq. simpl. lia.
Qed.

Lemma ssorted_weaken (A : Type) (R R' : A -> A -> Prop) (l : list A) :
  (forall x y, R x y -> R' x y) ->
  StronglySorted R l -> StronglySorted R' l.
Proof.
  intros HR H. rewrite <- (map_id l).
  apply ssorted_map with (R := R); auto.
Qed.

(** ** The stable index sort *)

Section ArgsortFacts.
Variable score : Type.
Variable sleb : score -> score -> bool.
Hypothesis sleb_total : forall a b, sleb a b = true \/ sleb b a = true.
Hypothesis sleb_trans :
  forall a b c, sleb a b = true -> sleb b c = true -> sleb a c = true.

Lemma insertion_argsort_perm (f : list score) :
  Permutation (Sorting.insertion_argsort sleb f) (seq 0 (length f)).
Proof.
  unfold Sorting.insertion_argsort.
  rewrite <- enumerate_fst. apply Permutation_map, sort_by_perm.
Qed.

Lemma insertion_argsort_stable (f : list score) :
  StronglySorted (stable_at sleb f) (Sorting.insertion_argsort sleb f).
Proof.
  unfold Sorting.insertion_argsort.
  set (pleb := fun a b : nat * score => sleb (snd a) (snd b)).
  apply ssorted_map with (R := Sorting.stable_le pleb fst).
  - intros p q Hp Hq [Hle Hpos].
    apply (Permutation_in _ (sort_by_perm pleb _)) in Hp, Hq.
    apply enumerate_nth in Hp, Hq.
    unfold stable_at, ascending_at. rewrite Hp, Hq. split; assumption.
  - apply sort_by_stable.
    + intros a b. apply sleb_total.
    + intros a b c. apply sleb_trans.
    + apply enumerate_increasing.
Qed.

Lemma insertion_argsort_spec :
  argsort_spec sleb (Sorting.insertion_argsort sleb).
Proof.
  split.
  - apply insertion_argsort_perm.
  - intros f. apply ssorted_weaken with (R := stable_at sleb f).
    + intros x y [H _]. exact H.
    + apply insertion_argsort_stable.
Qed.

End ArgsortFacts.

(** The order of the integers is one such order of scores. *)
Lemma Z_leb_total (a b : Z) : Z.leb a b = true \/ Z.leb b a = true.
Proof. destruct (Z.leb_spec a b); [now left | right; apply Z.leb_le; lia]. Qed.

Lemma Z_leb_trans (a b c : Z) :
  Z.leb a b = true -> Z.leb b c = true -> Z.leb a c = true.
Proof. rewrite !Z.leb_le. lia. Qed.

(** ** Ranking in [plot_regression_continuous] *)

Lemma remaining_axes_ok (n_filled n_axes : nat) :
  0 < n_filled -> exists off, remaining_axes n_filled n_axes = Ok off.
Proof. destruct n_filled; [lia | simpl; eauto]. Qed.

(** The imputed matrix has a column for every feature with an observed
    value, and for no other. *)
Lemma SimpleImputer_fit_transform_length
    (impute_column : column -> column) (features : dataframe) :
  length (SimpleImputer_fit_transform impute_column features)
  = length (filter observed (map snd features)).
Proof. unfold SimpleImputer_fit_transform. apply length_map. Qed.

Lemma filter_all (A : Type) (p : A -> bool) (l : list A) :
  Forall (fun a => p a = true) l -> filter p l = l.
Proof.
  induction 1 as [|a l Ha _ IH]; simpl; [reflexivity|].
  now rewrite Ha, IH.
Qed.

(** When every feature has an observed value the imputer keeps every
    column, and column [i] of the matrix is feature [i], filled. *)
Lemma SimpleImputer_fit_transform_observed
    (impute_column : column -> column) (features : dataframe) :
  Forall (fun c => observed (snd c) = true) features ->
  SimpleImputer_fit_transform impute_column features
  = map (fun c => impute_column (snd c)) features.
Proof.
  intros H. unfold SimpleImputer_fit_transform.
  rewrite filter_all, map_map; [reflexivity|].
  rewrite Forall_map. exact H.
Qed.

Lemma filter_length_le (A : Type) (p : A -> bool) (l : list A) :
  length (filter p l) <= length l.
Proof.
  induction l as [|a l IH]; simpl; [lia|].
  destruct (p a); simpl; lia.
Qed.

Lemma filter_nonempty (A : Type) (p : A -> bool) (l : list A) (a : A) :
  In a l -> p a = true -> 1 <= length (filter p l).
Proof.
  intros Hin Hp.
  assert (H : In a (filter p l)) by (apply filter_In; auto).
  destruct (filter p l); [destruct H | simpl; lia].
Qed.

(** What [plot_regression_continuous] ranks: the columns of the imputed
    matrix, one F score each, of which it selects [min(show_top, n)] in
    descending order of the score, [n] being the number of features
    with an observed value.  [show_top] is what [_get_n_top] answers, a
    positive number. *)
Lemma plot_regression_continuous_ranking
    (score : Type) (sleb : score -> score -> bool)
    (argsort : list score -> list nat)
    (_check_X_target_col :
       dataframe -> string -> option types_frame -> option string ->
       result types_frame)
    (_get_n_top : dataframe -> string -> Z) (_make_subplots : Z -> nat)
    (impute_column : column -> column)
    (f_regression_1 : column -> column -> score)
    (X : dataframe) (target_col : string) (types0 : option types_frame)
    (types : types_frame) (features : dataframe) (target : column) :
  argsort_spec sleb argsort ->
  _check_X_target_col X target_col types0 (Some "regression") = Ok types ->
  select_features continuous X target_col types = Ok features ->
  1 <= length (filter observed (map snd features)) ->
  getitem X target_col = Ok target ->
  (0 < _get_n_top features "continuous")%Z ->
  0 < _make_subplots (_get_n_top features "continuous") ->
  exists r,
    plot_regression_continuous argsort _check_X_target_col _get_n_top
      _make_subplots impute_column f_regression_1 X target_col types0
    = Ok (Some r) /\
    scored_features r = features /\
    length (scores r) = length (filter observed (map snd features)) /\
    length (selected r)
    = Z.to_nat (Z.min (_get_n_top features "continuous")
                      (Z.of_nat (length (scores r)))) /\
    StronglySorted (descending_at sleb (scores r)) (selected r) /\
    NoDup (selected r) /\
    (forall i, In i (selected r) -> i < length (scores r)).
Proof.
  intros Hsort Hc Hs Hn Ht Htop Hax.
  unfold plot_regression_continuous.
  rewrite Hc. cbn [bind]. rewrite Hs. cbn [bind].
  assert (Hle : length (filter observed (map snd features))
                <= shape1 features).
  { unfold shape1. rewrite <- (length_map snd features).
    apply filter_length_le. }
  destruct (Nat.eqb_spec (shape1 features) 0) as [E|_]; [lia|].
  rewrite Ht. cbn [bind].
  set (show_top := _get_n_top features "continuous") in *.
  set (f := f_regression f_regression_1
              (SimpleImputer_fit_transform impute_column features) target).
  assert (Hf : length f = length (filter observed (map snd features))).
  { unfold f, f_regression, SimpleImputer_fit_transform.
    now rewrite !length_map. }
  match goal with
  | |- context [map_result ?fn ?l] =>
      destruct (map_result_ok fn l) as (drawn & Hd & Hlen)
  end.
  { intros [col_idx ax] Hin. apply in_combine_l in Hin.
    apply (top_k_in_range Hsort) in Hin.
    destruct (@getitem_ok _ (columns features) col_idx) as [col Hcol].
    { unfold columns. rewrite length_map. unfold shape1 in Hle. lia. }
    destruct (@getitem_ok _ f col_idx) as [fc Hfc]; [assumption|].
    rewrite Hcol, Hfc. cbn [bind]. eauto. }
  rewrite Hd. cbn [bind].
  destruct (@remaining_axes_ok (length drawn) (_make_subplots show_top))
    as [off Hoff].
  { rewrite Hlen. unfold Py.zip. rewrite length_combine, length_seq.
    rewrite (top_k_length Hsort) by assumption. lia. }
  rewrite Hoff. cbn [bind].
  eexists. split; [reflexivity|]. cbn.
  split; [reflexivity|]. split; [assumption|].
  split; [rewrite (top_k_length Hsort) by assumption; reflexivity|].
  split; [apply (top_k_descending Hsort)|].
  split; [apply (top_k_NoDup Hsort)|].
  intros i Hi. eapply top_k_in_range; eassumption.
Qed.

Lemma sample_argsort_spec : argsort_spec Z.leb Sample.argsort.
Proof. apply insertion_argsort_spec; [apply Z_leb_total | apply Z_leb_trans]. Qed.

Lemma plot_regression_continuous_ranking_example :
  exists r,
    plot_regression_continuous Sample.argsort Sample.check_types
      Sample.get_n_top Sample.make_subplots Sample.impute Sample.agreement
      Sample.X_reg "y" (Some Sample.types_reg)
    = Ok (Some r) /\
    scored_features r = firstn 2 Sample.X_reg /\
    length (scores r) = 2 /\
    length (selected r)
    = Z.to_nat (Z.min 2 (Z.of_nat (length (scores r)))) /\
    StronglySorted (descending_at Z.leb (scores r)) (selected r) /\
    NoDup (selected r) /\
    (forall i, In i (selected r) -> i < length (scores r)).
Proof.
  apply (@plot_regression_continuous_ranking Z Z.leb Sample.argsort
           Sample.check_types Sample.get_n_top Sample.make_subplots
           Sample.impute Sample.agreement Sample.X_reg "y"
           (Some Sample.types_reg) Sample.types_reg
           (firstn 2 Sample.X_reg) (map Sample.num [1; 2; 3; 4]%Z)).
  - exact sample_argsort_spec.
  - reflexivity.
  - reflexivity.
  - vm_compute. lia.
  - reflexivity.
  - vm_compute. reflexivity.
  - vm_compute. lia.
Defined.

(** C1.  A continuous feature without any observed value has no column
    in the imputed matrix, so [plot_regression_continuous] computes two
    F scores for the three features of this frame and selects two
    positions of the matrix, not [min(show_top, n_features) = 3] of the
    frame.  It reads the labels from the frame all the same: the first
    panel shows [b] under the score of [c], the second the empty [a]
    under the score of [b]. *)
Theorem plot_regression_continuous_unobserved_feature :
  exists r,
    plot_regression_continuous Sample.argsort Sample.check_types
      Sample.get_n_top Sample.make_subplots Sample.impute Sample.agreement
      Sample.X_gap "y" (Some Sample.types_gap)
    = Ok (Some r) /\
    columns (scored_features r) = ["a"; "b"; "c"] /\
    Sample.get_n_top (scored_features r) "continuous" = 3%Z /\
    scores r = [Sample.agreement (map Sample.num [1; 2; 0; 0]%Z)
                                 (map Sample.num [1; 2; 3; 4]%Z);
                Sample.agreement (map Sample.num [1; 2; 3; 5]%Z)
                                 (map Sample.num [1; 2; 3; 4]%Z)] /\
    selected r = [1; 0] /\
    map (fun p => (panel_column p, panel_title p)) (panels r)
    = [("b", Some 3%Z); ("a", Some 2%Z)].
Proof.
  eexists. split; [reflexivity|]. repeat split.
Qed.

(** ** Ties *)

Lemma rank_of_inj (l : list nat) (x y : nat) :
  In x l -> rank_of x l = rank_of y l -> x = y.
Proof.
  induction l as [|a l IH]; simpl; [intros []|].
  intros Hx. destruct (Nat.eqb_spec x a) as [->|Hxa].
  - destruct (Nat.eqb_spec y a); [congruence | discriminate].
  - destruct (Nat.eqb_spec y a); [discriminate|].
    intros E. injection E as E. destruct Hx as [->|Hx]; [congruence | auto].
Qed.

Lemma ssorted_rank (R : nat -> nat -> Prop) (l : list nat) (x y : nat) :
  StronglySorted R l -> In x l -> In y l ->
  rank_of x l < rank_of y l -> R x y.
Proof.
  induction 1 as [|a l Hs IH Hall]; simpl; [intros []|].
  intros Hx Hy. rewrite Forall_forall in Hall.
  destruct (Nat.eqb_spec x a) as [->|Hxa];
    destruct (Nat.eqb_spec y a) as [->|Hya]; try lia.
  - intros _. destruct Hy as [->|Hy]; [congruence | auto].
  - intros Hlt. apply IH; [| | lia].
    + destruct Hx; [congruence | assumption].
    + destruct Hy; [congruence | assumption].
Qed.

(** C5, as the code has it.  Where the index sort is stable, two selected
    features with equal scores are ranked in reverse column order: the
    later column comes first, because the ascending order is reversed. *)
Theorem top_k_ties_later_column_first
    (score : Type) (sleb : score -> score -> bool)
    (argsort : list score -> list nat)
    (f : list score) (show_top : Z) (i j : nat) :
  (forall g, StronglySorted (stable_at sleb g) (argsort g)) ->
  i < j ->
  tied_at sleb f i j ->
  In i (top_k argsort f show_top) ->
  In j (top_k argsort f show_top) ->
  rank_of j (top_k argsort f show_top) < rank_of i (top_k argsort f show_top).
Proof.
  intros Hstable Hij [Hle Hge] Hi Hj.
  assert (Hs : StronglySorted (fun x y => stable_at sleb f y x)
                              (top_k argsort f show_top)).
  { unfold top_k, Py.reversed.
    destruct (slice_from_suffix (- show_top) (argsort f)) as [n ->].
    apply ssorted_rev, ssorted_skipn, Hstable. }
  destruct (Nat.lt_total (rank_of j (top_k argsort f show_top))
                         (rank_of i (top_k argsort f show_top)))
    as [Hlt|[Heq|Hgt]]; [assumption | |].
  - apply rank_of_inj in Heq; [lia | assumption].
  - pose proof (@ssorted_rank _ _ _ _ Hs Hi Hj Hgt) as [_ Hpos].
    specialize (Hpos Hle). lia.
Qed.

Lemma top_k_ties_later_column_first_witness :
  rank_of 1 (top_k Sample.argsort [5; 5; 7]%Z 3)
  < rank_of 0 (top_k Sample.argsort [5; 5; 7]%Z 3).
Proof.
  apply (@top_k_ties_later_column_first Z Z.leb Sample.argsort
           [5; 5; 7]%Z 3 0 1).
  - intros g. apply insertion_argsort_stable;
      [apply Z_leb_total | apply Z_leb_trans].
  - lia.
  - split; reflexivity.
  - vm_compute. tauto.
  - vm_compute. tauto.
Defined.

(** C5, as stated, fails: two features with the same values and so the
    same score, and the one that comes later in the frame is ranked
    first. *)
Lemma tie_broken_by_column_order_counterexample :
  exists r,
    plot_regression_continuous Sample.argsort Sample.check_types
      Sample.get_n_top Sample.make_subplots Sample.impute Sample.agreement
      Sample.X_tie "y" (Some Sample.types_reg)
    = Ok (Some r) /\
    scores r = [2; 2]%Z /\
    selected r = [1; 0] /\
    tied_at Z.leb (scores r) 0 1 /\
    ~ rank_of 0 (selected r) < rank_of 1 (selected r).
Proof.
  eexists. split; [vm_compute; reflexivity|]. cbn.
  repeat split; lia.
Qed.

(** ** Feature selection *)

(** Taking apart a successful run of a function written with [bind]. *)
Ltac inv_ok H :=
  repeat match type of H with
  | bind ?m _ = Ok _ =>
      let E := fresh "E" in
      destruct m eqn:E; cbn [bind] in H; [|discriminate H]
  | (if ?c then _ else _) = Ok _ =>
      let E := fresh "E" in destruct c eqn:E
  | Ok None = Ok (Some _) => discriminate H
  | Raise _ = Ok _ => discriminate H
  end.

Lemma drop_excludes (C : Type) (name : string) (X : list (string * C)) :
  ~ In name (columns (drop name X)).
Proof.
  unfold columns, drop. intros H. apply in_map_iff in H.
  destruct H as (c & Hc & Hin). apply filter_In in Hin.
  destruct Hin as [_ Hneq]. subst name.
  now rewrite String.eqb_refl in Hneq.
Qed.

Lemma has_column_false (C : Type) (name : string) (X : list (string * C)) :
  has_column name X = false -> ~ In name (columns X).
Proof.
  unfold has_column. intros H Hin.
  assert (existsb (String.eqb name) (columns X) = true); [|congruence].
  apply existsb_exists. exists name. split; [assumption|].
  apply String.eqb_refl.
Qed.

Lemma select_features_excludes_target (kind : type_row -> bool)
    (X : dataframe) (target_col : string) (types : types_frame)
    (features : dataframe) :
  select_features kind X target_col types = Ok features ->
  ~ In target_col (columns features).
Proof.
  unfold select_features. intros H. inv_ok H.
  destruct (has_column target_col a) eqn:Hhas; injection H as <-.
  - apply drop_excludes.
  - now apply has_column_false.
Qed.

Lemma loc_columns_length (X : dataframe) (mask : bool_series)
    (features : dataframe) :
  loc_columns X mask = Ok features -> length features <= length X.
Proof.
  revert features. induction X as [|c X IH]; simpl; intros features H.
  - injection H as <-. simpl. lia.
  - inv_ok H. injection H as <-. specialize (IH _ eq_refl).
    destruct a; simpl; lia.
Qed.

Lemma drop_length (C : Type) (name : string) (X : list (string * C)) :
  length (drop name X) <= length X.
Proof. apply filter_length_le. Qed.

Lemma select_features_length (kind : type_row -> bool)
    (X : dataframe) (target_col : string) (types : types_frame)
    (features : dataframe) :
  select_features kind X target_col types = Ok features ->
  shape1 features <= shape1 X.
Proof.
  unfold select_features, shape1. intros H. inv_ok H.
  apply loc_columns_length in E.
  destruct (has_column target_col a); injection H as <-; [|assumption].
  pose proof (drop_length target_col a). lia.
Qed.

(** The table covers the frame: every column has a row. *)
Lemma loc_columns_ok (X : dataframe) (mask : bool_series) :
  (forall name, In name (columns X) -> In name (columns mask)) ->
  exists features, loc_columns X mask = Ok features.
Proof.
  induction X as [|c X IH]; simpl; intros H; [eauto|].
  destruct IH as [rest Hrest]; [intros; apply H; now right|].
  assert (Hc : exists b, lookup_flag mask (fst c) = Ok b).
  { unfold lookup_flag.
    destruct (find (fun c0 => String.eqb (fst c0) (fst c)) mask) eqn:E;
      [eauto|].
    specialize (H (fst c) (or_introl eq_refl)).
    unfold columns in H. apply in_map_iff in H.
    destruct H as (m & Hm & Hin).
    apply (find_none _ _ E) in Hin. rewrite Hm, String.eqb_refl in Hin.
    discriminate. }
  destruct Hc as [b Hb]. rewrite Hb, Hrest. cbn [bind]. eauto.
Qed.

(** ** What the panel functions score *)

Section SupervisedFacts.
Variable score : Type.
Variable argsort : list score -> list nat.
Variable _check_X_target_col :
  dataframe -> string -> option types_frame -> option string ->
  result types_frame.
Variable _get_n_top : dataframe -> string -> Z.
Variable _make_subplots : Z -> nat.
Variable impute_column : column -> column.
Variables f_regression_1 f_classif_1 : column -> column -> score.
Variable RandomState : Type.
Variable mi_regression_1 : RandomState -> list Z -> column -> bool -> score.
Variable mi_classif_1 : list Z -> column -> bool -> score.
Variable random_state : RandomState.

Lemma plot_regression_continuous_inv (X : dataframe) (target_col : string)
    (types0 : option types_frame) (r : ranked score) :
  plot_regression_continuous argsort _check_X_target_col _get_n_top
    _make_subplots impute_column f_regression_1 X target_col types0
  = Ok (Some r) ->
  exists types target,
    _check_X_target_col X target_col types0 (Some "regression") = Ok types /\
    select_features continuous X target_col types = Ok (scored_features r) /\
    getitem X target_col = Ok target /\
    scores r = f_regression f_regression_1
                 (SimpleImputer_fit_transform impute_column
                    (scored_features r)) target.
Proof.
  unfold plot_regression_continuous. intros H. inv_ok H.
  injection H as <-. cbn. eauto 8.
Qed.

Lemma plot_regression_categorical_inv (X : dataframe) (target_col : string)
    (types0 : option types_frame) (r : ranked score) :
  plot_regression_categorical argsort _check_X_target_col _get_n_top
    _make_subplots mi_regression_1 random_state X target_col types0
  = Ok (Some r) ->
  exists types target,
    _check_X_target_col X target_col types0 (Some "regression") = Ok types /\
    select_features categorical X target_col types = Ok (scored_features r) /\
    getitem X target_col = Ok target /\
    scores r = mutual_info_regression mi_regression_1 random_state
                 (apply cat_codes (scored_features r)) target
                 (repeat true (shape1 X)).
Proof.
  unfold plot_regression_categorical. intros H. inv_ok H.
  injection H as <-. cbn. eauto 8.
Qed.

Lemma plot_classification_categorical_inv (X : dataframe)
    (target_col : string) (types0 : option types_frame) (kind : string)
    (r : ranked score) :
  plot_classification_categorical argsort _check_X_target_col _get_n_top
    _make_subplots mi_classif_1 X target_col types0 kind
  = Ok (Some r) ->
  exists types target,
    _check_X_target_col X target_col types0 (Some "classification")
    = Ok types /\
    select_features categorical X target_col types = Ok (scored_features r) /\
    getitem X target_col = Ok target /\
    scores r = mutual_info_classif mi_classif_1
                 (apply cat_codes (scored_features r)) target
                 (repeat true (shape1 X)).
Proof.
  unfold plot_classification_categorical. intros H. inv_ok H.
  all: injection H as <-; cbn; eauto 8.
Qed.

Lemma plot_classification_continuous_inv (X : dataframe)
    (target_col : string) (types0 : option types_frame)
    (univariate_plot : string) (plot_pairwise : bool)
    (top_k_interactions : Z) (o : continuous_overview score) :
  plot_classification_continuous argsort _check_X_target_col _get_n_top
    _make_subplots impute_column f_classif_1 X target_col types0
    univariate_plot plot_pairwise top_k_interactions
  = Ok (Some o) ->
  exists types target features,
    _check_X_target_col X target_col types0 (Some "classification")
    = Ok types /\
    select_features continuous X target_col types = Ok features /\
    getitem X target_col = Ok target /\
    match o with
    | Pairplot shown => shown = features
    | Univariate r _ =>
        scored_features r = features /\
        scores r = f_classif f_classif_1
                     (SimpleImputer_fit_transform impute_column features)
                     target
    end.
Proof.
  unfold plot_classification_continuous. intros H. inv_ok H.
  all: injection H as <-; do 3 eexists.
  all: split; [reflexivity|]; split; [eassumption|]; split; [reflexivity|].
  all: try reflexivity.
  all: inv_ok E5; injection E5 as <-; split; reflexivity.
Qed.

End SupervisedFacts.

Section SupervisedInvariants.
Variable score : Type.
Variable argsort : list score -> list nat.
Variable _check_X_target_col :
  dataframe -> string -> option types_frame -> option string ->
  result types_frame.
Variable _get_n_top : dataframe -> string -> Z.
Variable _make_subplots : Z -> nat.
Variable impute_column : column -> column.
Variables f_regression_1 f_classif_1 : column -> column -> score.
Variable RandomState : Type.
Variable mi_regression_1 : RandomState -> list Z -> column -> bool -> score.
Variable mi_classif_1 : list Z -> column -> bool -> score.
Variable random_state : RandomState.

(** C9.  In each of the four panel functions the frame that is scored
    against the target has no column under the target's label. *)
Theorem target_not_among_scored_features (X : dataframe)
    (target_col : string) (types0 : option types_frame) :
  (forall r,
     plot_regression_continuous argsort _check_X_target_col _get_n_top
       _make_subplots impute_column f_regression_1 X target_col types0
     = Ok (Some r) ->
     ~ In target_col (columns (scored_features r))) /\
  (forall r,
     plot_regression_categorical argsort _check_X_target_col _get_n_top
       _make_subplots mi_regression_1 random_state X target_col types0
     = Ok (Some r) ->
     ~ In target_col (columns (scored_features r))) /\
  (forall univariate_plot plot_pairwise top_k_interactions o,
     plot_classification_continuous argsort _check_X_target_col _get_n_top
       _make_subplots impute_column f_classif_1 X target_col types0
       univariate_plot plot_pairwise top_k_interactions
     = Ok (Some o) ->
     ~ In target_col (columns (overview_features o))) /\
  (forall kind r,
     plot_classification_categorical argsort _check_X_target_col _get_n_top
       _make_subplots mi_classif_1 X target_col types0 kind
     = Ok (Some r) ->
     ~ In target_col (columns (scored_features r))).
Proof.
  repeat split.
  - intros r H. apply plot_regression_continuous_inv in H.
    destruct H as (types & target & _ & Hs & _).
    eapply select_features_excludes_target; eassumption.
  - intros r H. apply plot_regression_categorical_inv in H.
    destruct H as (types & target & _ & Hs & _).
    eapply select_features_excludes_target; eassumption.
  - intros u p k o H. apply plot_classification_continuous_inv in H.
    destruct H as (types & target & features & _ & Hs & _ & Ho).
    apply select_features_excludes_target in Hs.
    destruct o as [shown|r ic]; simpl.
    + now subst shown.
    + destruct Ho as [-> _]. assumption.
  - intros kind r H. apply plot_classification_categorical_inv in H.
    destruct H as (types & target & _ & Hs & _).
    eapply select_features_excludes_target; eassumption.
Qed.

Lemma mutual_info_regression_length (Xm : list (string * list Z))
    (y : column) (mask : list bool) :
  length (mutual_info_regression mi_regression_1 random_state Xm y mask)
  = Nat.min (shape1 Xm) (length mask).
Proof.
  unfold mutual_info_regression, Py.zip, shape1.
  now rewrite length_map, length_combine, length_map.
Qed.

Lemma mutual_info_classif_length (Xm : list (string * list Z))
    (y : column) (mask : list bool) :
  length (mutual_info_classif mi_classif_1 Xm y mask)
  = Nat.min (shape1 Xm) (length mask).
Proof.
  unfold mutual_info_classif, Py.zip, shape1.
  now rewrite length_map, length_combine, length_map.
Qed.

Lemma apply_shape (C D : Type) (fn : C -> D) (Xm : list (string * C)) :
  shape1 (apply fn Xm) = shape1 Xm.
Proof. unfold shape1, apply. apply length_map. Qed.


End SupervisedInvariants.

Lemma target_not_among_scored_features_witness :
  exists r,
    plot_regression_continuous Sample.argsort Sample.check_types
      Sample.get_n_top Sample.make_subplots Sample.impute Sample.agreement
      Sample.X_reg "y" (Some Sample.types_reg)
    = Ok (Some r) /\
    ~ In "y" (columns (scored_features r)).
Proof.
  eexists. split; [vm_compute; reflexivity|].
  eapply (proj1 (@target_not_among_scored_features Z Sample.argsort
                   Sample.check_types Sample.get_n_top Sample.make_subplots
                   Sample.impute Sample.agreement Sample.agreement
                   Z Sample.noisy_agreement Sample.code_agreement 0%Z
                   Sample.X_reg "y" (Some Sample.types_reg))).
  vm_compute. reflexivity.
Defined.


(** ** Which column a panel shows *)

Lemma map_result_Forall (A B : Type) (fn : A -> result B) (P : B -> Prop)
    (l : list A) (out : list B) :
  (forall a b, In a l -> fn a = Ok b -> P b) ->
  map_result fn l = Ok out -> Forall P out.
Proof.
  revert out. induction l as [|a l IH]; simpl; intros out HP H.
  - injection H as <-. constructor.
  - inv_ok H. injection H as <-. constructor; [eauto|].
    apply IH; [intros; eapply HP; eauto | reflexivity].
Qed.

Lemma skipn_nth_error (A : Type) (l : list A) (n : nat) (a : A) :
  nth_error l n = Some a -> skipn n l = a :: skipn (S n) l.
Proof.
  revert n. induction l as [|b l IH]; intros [|n]; simpl; try discriminate.
  - now intros [= ->].
  - intros H. now rewrite (IH _ H).
Qed.

(** A loop over [enumerate(...)] that reads [cols[i]] at its counter [i]
    goes through the first columns in their order. *)
Lemma map_result_by_counter (B P : Type) (cols : list string)
    (proj : P -> string) (fn : nat * B -> result P) (l : list B) :
  (forall i x p, fn (i, x) = Ok p -> nth_error cols i = Some (proj p)) ->
  forall start out,
    map_result fn (combine (seq start (length l)) l) = Ok out ->
    map proj out = firstn (length l) (skipn start cols).
Proof.
  intros Hfn. induction l as [|x l IH]; simpl; intros start out H.
  - injection H as <-. reflexivity.
  - inv_ok H. injection H as <-.
    apply Hfn in E. rewrite (skipn_nth_error _ _ E).
    cbn [map firstn]. f_equal. now apply IH.
Qed.

Lemma firstn_length_firstn (A : Type) (n : nat) (l : list A) :
  firstn (length (firstn n l)) l = firstn n l.
Proof.
  rewrite length_firstn. destruct (Nat.le_ge_cases n (length l)) as [H|H].
  - now rewrite Nat.min_l.
  - rewrite Nat.min_r by assumption.
    now rewrite firstn_all, firstn_all2.
Qed.

Section PanelColumns.
Variable score : Type.
Variable argsort : list score -> list nat.
Variable _check_X_target_col :
  dataframe -> string -> option types_frame -> option string ->
  result types_frame.
Variable _get_n_top : dataframe -> string -> Z.
Variable _make_subplots : Z -> nat.
Variable RandomState : Type.
Variable mi_regression_1 : RandomState -> list Z -> column -> bool -> score.
Variable mi_classif_1 : list Z -> column -> bool -> score.
Variable random_state : RandomState.

(** The box plots of [plot_regression_categorical] show the first
    columns of the feature frame in frame order, whatever the ranking. *)
Lemma plot_regression_categorical_panels_in_frame_order (X : dataframe)
    (target_col : string) (types0 : option types_frame) (r : ranked score) :
  plot_regression_categorical argsort _check_X_target_col _get_n_top
    _make_subplots mi_regression_1 random_state X target_col types0
  = Ok (Some r) ->
  map (@panel_column score) (panels r)
  = firstn (length (panels r)) (columns (scored_features r)).
Proof.
  unfold plot_regression_categorical. intros H. inv_ok H.
  injection H as <-. cbn [panels scored_features].
  unfold Py.enumerate in E3.
  apply map_result_by_counter
    with (cols := columns a0) (proj := @panel_column score) in E3.
  - rewrite <- (length_map (@panel_column score)), E3.
    symmetry. apply firstn_length_firstn.
  - intros i [col_ind ax] p Hp. unfold Py.getitem at 1 in Hp.
    destruct (nth_error (columns a0) i) as [col|]; cbn [bind] in Hp;
      [|discriminate].
    inv_ok Hp. injection Hp as <-. reflexivity.
Qed.

End PanelColumns.

(** A loop over [zip(top_k, axes)] that reads [cols[col_ind]] goes through
    the ranking. *)
Lemma map_result_by_rank (B P : Type) (cols : list string)
    (proj : P -> string) (fn : nat * B -> result P) (top : list nat) :
  (forall c x p, fn (c, x) = Ok p -> nth_error cols c = Some (proj p)) ->
  forall (axes : list B) (out : list P),
    map_result fn (Py.zip top axes) = Ok out ->
    Forall2 (fun p c => nth_error cols c = Some (proj p))
            out (firstn (length out) top).
Proof.
  intros Hfn. unfold Py.zip.
  induction top as [|c top IH]; simpl; intros axes out H.
  - injection H as <-. constructor.
  - destruct axes as [|ax axes]; simpl in H.
    + injection H as <-. constructor.
    + inv_ok H. injection H as <-. simpl. constructor; eauto.
Qed.

Section PanelColumnsByRank.
Variable score : Type.
Variable argsort : list score -> list nat.
Variable _check_X_target_col :
  dataframe -> string -> option types_frame -> option string ->
  result types_frame.
Variable _get_n_top : dataframe -> string -> Z.
Variable _make_subplots : Z -> nat.
Variable mi_classif_1 : list Z -> column -> bool -> score.

(** The sibling [plot_classification_categorical] reads
    [features.columns[col_ind]]: its i-th panel shows the i-th ranked
    feature. *)
Lemma plot_classification_categorical_panels_follow_ranking (X : dataframe)
    (target_col : string) (types0 : option types_frame) (kind : string)
    (r : ranked score) :
  plot_classification_categorical argsort _check_X_target_col _get_n_top
    _make_subplots mi_classif_1 X target_col types0 kind
  = Ok (Some r) ->
  Forall2 (fun p c =>
             nth_error (columns (scored_features r)) c
             = Some (panel_column p))
          (panels r) (firstn (length (panels r)) (selected r)).
Proof.
  unfold plot_classification_categorical. intros H. inv_ok H.
  all: injection H as <-; cbn [panels scored_features selected].
  all: match goal with
       | Hm : map_result _ _ = Ok ?out |- Forall2 _ ?out _ =>
           apply map_result_by_rank
             with (cols := columns a1) (proj := @panel_column score) in Hm;
           [exact Hm|]
       end.
  all: intros c ax p Hp; unfold Py.getitem in Hp.
  all: destruct (nth_error (columns a1) c) as [col|]; cbn [bind] in Hp;
         [|discriminate].
  all: inv_ok Hp; injection Hp as <-; reflexivity.
Qed.

(** The kind of every panel is the resolved kind. *)
Lemma plot_classification_categorical_panel_kind (X : dataframe)
    (target_col : string) (types0 : option types_frame) (target : column)
    (r : ranked score) :
  getitem X target_col = Ok target ->
  plot_classification_categorical argsort _check_X_target_col _get_n_top
    _make_subplots mi_classif_1 X target_col types0 "auto"
  = Ok (Some r) ->
  Forall (fun p => panel_kind p = resolve_kind "auto" target) (panels r).
Proof.
  intros Ht. unfold plot_classification_categorical.
  rewrite Ht. cbn [String.eqb Ascii.eqb Bool.eqb bind].
  intros H. inv_ok H. injection H as <-. cbn [panels].
  eapply map_result_Forall; [|eassumption].
  intros [c ax] p _ Hp. cbn beta iota zeta in Hp.
  inv_ok Hp; injection Hp as <-; reflexivity.
Qed.

End PanelColumnsByRank.

(** C3.  On a frame whose second categorical feature is the informative
    one, the ranking of [plot_regression_categorical] puts that feature
    first, and the first box plot still shows the first column of the
    frame, under the score of the other: the loop reads
    [features.columns[i]], not [features.columns[col_ind]]. *)
Theorem plot_regression_categorical_panel_mismatch :
  exists r,
    plot_regression_categorical Sample.argsort Sample.check_types
      Sample.get_n_top Sample.make_subplots Sample.noisy_agreement 0%Z
      Sample.X_cat "y" (Some Sample.types_cat_reg)
    = Ok (Some r) /\
    columns (scored_features r) = ["a"; "b"] /\
    scores r = [2; 4]%Z /\
    selected r = [1; 0] /\
    map (@panel_column Z) (panels r) = ["a"; "b"] /\
    map (@panel_title Z) (panels r) = [Some 4; Some 2]%Z.
Proof.
  eexists. split; [vm_compute; reflexivity|].
  cbn. repeat split; reflexivity.
Qed.

(** On the same frame the classification panel shows the ranked
    columns. *)
Lemma plot_classification_categorical_panel_match :
  exists r,
    plot_classification_categorical Sample.argsort Sample.check_types
      Sample.get_n_top Sample.make_subplots Sample.code_agreement
      Sample.X_cat "y" (Some Sample.types_cat_clf) "auto"
    = Ok (Some r) /\
    selected r = [1; 0] /\
    map (@panel_column Z) (panels r) = ["b"; "a"].
Proof.
  eexists. split; [vm_compute; reflexivity|].
  cbn. repeat split; reflexivity.
Qed.

(** ** The plot kind *)

(** ['auto'] stands for 'mosaic' up to five classes and for 'count'
    above. *)
Lemma resolve_kind_auto_eq (target : column) :
  resolve_kind "auto" target
  = if Nat.leb (nunique target) 5 then "mosaic" else "count".
Proof.
  unfold resolve_kind. cbn [String.eqb Ascii.eqb Bool.eqb].
  destruct (Nat.ltb_spec 5 (nunique target));
    destruct (Nat.leb_spec (nunique target) 5); try lia; reflexivity.
Qed.

Example resolve_kind_six_classes :
  resolve_kind "auto" (map Sample.num [0; 1; 2; 3; 4; 5; 0]%Z) = "count".
Proof. reflexivity. Qed.

Example resolve_kind_five_classes :
  resolve_kind "auto" (map Sample.num [0; 1; 2; 3; 4; 4; 0]%Z) = "mosaic".
Proof. reflexivity. Qed.

(** ** Low-cardinality integers in [plot] *)

Section LowCardInt.
Variable guess_ordinal : column -> bool.

Lemma retype_row_label (X : dataframe) (r : string * type_row) :
  fst (retype_row guess_ordinal X r) = fst r.
Proof. unfold retype_row. destruct (getitem X (fst r)); reflexivity. Qed.

Lemma retype_row_idem (X : dataframe) (r : string * type_row) :
  retype_row guess_ordinal X (retype_row guess_ordinal X r)
  = retype_row guess_ordinal X r.
Proof.
  unfold retype_row at 2. destruct (getitem X (fst r)) as [x|e] eqn:E.
  - unfold retype_row. cbn [fst snd]. rewrite E.
    destruct (guess_ordinal x); reflexivity.
  - unfold retype_row. now rewrite E.
Qed.

(** The loop is a map over the rows: a row is rewritten when its label
    is one of the visited ones. *)
Lemma retype_low_card_int_map (X : dataframe) (cols : list string) :
  (forall col, In col cols -> exists x, getitem X col = Ok x) ->
  forall types,
    retype_low_card_int guess_ordinal X cols types
    = Ok (map (fun r => if existsb (String.eqb (fst r)) cols
                        then retype_row guess_ordinal X r else r) types).
Proof.
  induction cols as [|col cols IH]; intros Hcols types.
  - simpl. now rewrite map_id.
  - cbn [retype_low_card_int].
    destruct (Hcols col (or_introl eq_refl)) as [x Hx].
    rewrite Hx. cbn [bind]. rewrite IH by (intros; apply Hcols; now right).
    f_equal.
    assert (Hstep :
      (if guess_ordinal x
       then set_loc (set_continuous true) col
              (set_loc (set_low_card_int false) col types)
       else set_loc (set_categorical true) col
              (set_loc (set_low_card_int false) col types))
      = map (fun r => if String.eqb (fst r) col
                      then retype_row guess_ordinal X r else r) types).
    { unfold set_loc. destruct (guess_ordinal x) eqn:G; rewrite map_map;
        apply map_ext; intros [name row]; cbn [fst snd];
        destruct (String.eqb_spec name col) as [->|Hne]; cbn [fst snd].
      - rewrite String.eqb_refl. unfold retype_row. cbn [fst snd].
        now rewrite Hx, G.
      - destruct (String.eqb_spec name col); [contradiction | reflexivity].
      - rewrite String.eqb_refl. unfold retype_row. cbn [fst snd].
        now rewrite Hx, G.
      - destruct (String.eqb_spec name col); [contradiction | reflexivity]. }
    rewrite Hstep, map_map. apply map_ext. intros r. cbn [existsb].
    destruct (String.eqb (fst r) col) eqn:Ec; cbn [orb].
    + rewrite retype_row_label.
      destruct (existsb (String.eqb (fst r)) cols);
        [apply retype_row_idem | reflexivity].
    + reflexivity.
Qed.

Lemma index_where_In (kind : type_row -> bool) (types : types_frame)
    (r : string * type_row) :
  In r types -> kind (snd r) = true ->
  existsb (String.eqb (fst r)) (index_where kind types) = true.
Proof.
  intros Hin Hk. apply existsb_exists. exists (fst r).
  split; [|apply String.eqb_refl].
  unfold index_where. apply in_map. apply filter_In. auto.
Qed.

Lemma index_where_columns (kind : type_row -> bool) (types : types_frame)
    (name : string) :
  In name (index_where kind types) ->
  exists row, In (name, row) types /\ kind row = true.
Proof.
  unfold index_where. intros H. apply in_map_iff in H.
  destruct H as ([n row] & <- & Hin). apply filter_In in Hin.
  destruct Hin. eauto.
Qed.

End LowCardInt.

Lemma Forall2_map_self (A B : Type) (P : A -> B -> Prop) (g : A -> B)
    (l : list A) :
  (forall a, In a l -> P a (g a)) -> Forall2 P l (map g l).
Proof.
  induction l as [|a l IH]; simpl; intros H; constructor.
  - apply H. now left.
  - apply IH. intros. apply H. now right.
Qed.

(** ** Unwrapping the estimator *)

(** C8, as the code has it.  Once the wrapper is taken off and a Pipeline
    is found: with a number of steps other than two the unwrapping fails
    with [AssertionError].  With two steps it asks the first step for
    the feature names, passing the input names, and once more without
    argument when that call raises [TypeError]; the call that answers
    gives the names returned with the estimator of the second step.  A
    first step without [get_feature_names], any other exception of the
    first call and every exception of the second end the unwrapping
    with that exception. *)
Theorem extract_inner_estimator_pipeline
    (score : Type) (est : estimator score) (a : attrs score)
    (steps : list (string * estimator score)) (feature_names : list string) :
  unwrap_wrapper est = Pipeline a steps ->
  let result := _extract_inner_estimator est feature_names in
  (length steps <> 2 -> result = Raise AssertionError) /\
  (forall name0 first name1 final,
     steps = [(name0, first); (name1, final)] ->
     (get_feature_names (attrs_of first) = None ->
      result = Raise (AttributeError "get_feature_names")) /\
     (forall method,
        get_feature_names (attrs_of first) = Some method ->
        (forall names,
           method (Some feature_names) = Ok names ->
           result = Ok (final, names)) /\
        (forall names,
           method (Some feature_names) = Raise TypeError ->
           method None = Ok names ->
           result = Ok (final, names)) /\
        (forall e,
           method (Some feature_names) = Raise TypeError ->
           method None = Raise e ->
           result = Raise e) /\
        (forall e,
           method (Some feature_names) = Raise e -> e <> TypeError ->
           result = Raise e))).
Proof.
  intros Hu result. unfold result, _extract_inner_estimator. rewrite Hu.
  split.
  - intros Hlen. destruct (Nat.eqb_spec (length steps) 2); [contradiction|].
    reflexivity.
  - intros name0 first name1 final ->.
    cbn [length Nat.eqb negb _final_estimator rev app snd bind Py.getitem
         nth_error].
    unfold step_feature_names, getattr. split.
    + intros ->. reflexivity.
    + intros method ->. cbn [bind]. repeat split.
      * intros names ->. reflexivity.
      * intros names -> ->. reflexivity.
      * intros e -> ->. reflexivity.
      * intros e -> Hne. destruct e; try reflexivity. contradiction.
Qed.

Lemma extract_inner_estimator_pipeline_witness :
  _extract_inner_estimator Sample.pipeline3 ["x0"; "x1"; "x2"]
  = Raise AssertionError /\
  _extract_inner_estimator Sample.simple_classifier ["x0"; "x1"; "x2"]
  = Ok (Sample.forest Sample.two_classes, ["f0"; "f1"; "f2"]).
Proof.
  split.
  - apply (proj1 (@extract_inner_estimator_pipeline Z Sample.pipeline3
                    Sample.pipeline_attrs _ ["x0"; "x1"; "x2"] eq_refl)).
    simpl. lia.
  - refine (proj1 (proj2 (proj2
              (proj2 (@extract_inner_estimator_pipeline Z
                        Sample.simple_classifier Sample.pipeline_attrs _
                        ["x0"; "x1"; "x2"] eq_refl)
                 _ _ _ _ eq_refl) _ eq_refl)) _ eq_refl eq_refl).
Defined.

(** C8, as stated, fails: a pipeline of two steps, a scaler and a linear
    model, is not unwrapped to its final estimator; the scaler has no
    [get_feature_names] and the [AttributeError] is not handled. *)
Lemma two_step_pipeline_counterexample :
  unwrap_wrapper Sample.pipeline_scaler
  = Pipeline Sample.pipeline_attrs
      [ ("scale", OtherEstimator Sample.no_attrs); ("clf", Sample.linear) ] /\
  _extract_inner_estimator Sample.pipeline_scaler ["x0"; "x1"; "x2"]
  = Raise (AttributeError "get_feature_names") /\
  ~ (exists names,
       _extract_inner_estimator Sample.pipeline_scaler ["x0"; "x1"; "x2"]
       = Ok (Sample.linear, names)).
Proof.
  split; [reflexivity|]. split; [reflexivity|].
  intros [names H]. discriminate H.
Qed.

(** ** The feature selector *)

Lemma filter_snd_zip_le (A : Type) (names : list A) (mask : list bool) :
  length (filter snd (Py.zip names mask))
  <= length (filter (fun b : bool => b) mask).
Proof.
  unfold Py.zip. revert mask.
  induction names as [|n names IH]; intros [|b mask]; simpl; try lia.
  specialize (IH mask). destruct b; simpl; lia.
Qed.

Lemma filter_map_length (A : Type) (p : A -> bool) (l : list A) :
  length (filter (fun b : bool => b) (map p l)) = length (filter p l).
Proof.
  induction l as [|a l IH]; simpl; [reflexivity|].
  destruct (p a); simpl; lia.
Qed.

Lemma filter_and_le (A : Type) (p q : A -> bool) (l : list A) :
  length (filter (fun a => p a && q a) l) <= length (filter p l).
Proof.
  induction l as [|a l IH]; simpl; [lia|].
  destruct (p a), (q a); simpl; lia.
Qed.

Lemma NoDup_map_filter (A B : Type) (g : A -> B) (p : A -> bool)
    (l : list A) :
  NoDup (map g l) -> NoDup (map g (filter p l)).
Proof.
  induction l as [|a l IH]; simpl; intros H; [constructor|].
  apply NoDup_cons_iff in H. destruct H as [Hn Hd].
  destruct (p a); simpl; [|auto].
  constructor; [|auto].
  intros Hin. apply Hn. apply in_map_iff in Hin.
  destruct Hin as (x & Hx & Hf). apply filter_In in Hf.
  apply in_map_iff. exists x. tauto.
Qed.

(** At most as many positions of a list pass a membership test as the
    list tested against has elements. *)
Lemma members_le (A : Type) (l : list A) (cand : list nat) :
  length (filter (fun ix : nat * A => existsb (Nat.eqb (fst ix)) cand)
                 (Py.enumerate l))
  <= length cand.
Proof.
  rewrite <- (length_map fst).
  apply NoDup_incl_length.
  - apply NoDup_map_filter. rewrite enumerate_fst. apply seq_NoDup.
  - intros i Hi. apply in_map_iff in Hi. destruct Hi as (ix & <- & Hf).
    apply filter_In in Hf. destruct Hf as [_ Hex].
    apply existsb_exists in Hex. destruct Hex as (c & Hc & Heq).
    apply Nat.eqb_eq in Heq. now rewrite Heq.
Qed.

Lemma filter_snd_zip_length (A : Type) (names : list A) (mask : list bool) :
  length names = length mask ->
  length (filter snd (Py.zip names mask))
  = length (filter (fun b : bool => b) mask).
Proof.
  unfold Py.zip. revert mask.
  induction names as [|n names IH]; intros [|b mask]; simpl; try lia.
  intros H. specialize (IH mask). destruct b; simpl; rewrite IH by lia;
    reflexivity.
Qed.

Lemma filter_ext_in (A : Type) (p q : A -> bool) (l : list A) :
  (forall a, In a l -> p a = q a) -> filter p l = filter q l.
Proof.
  induction l as [|a l IH]; simpl; intros H; [reflexivity|].
  rewrite (H a (or_introl eq_refl)), IH by (intros; apply H; now right).
  reflexivity.
Qed.

Lemma filter_none (A : Type) (p : A -> bool) (l : list A) :
  existsb p l = false -> filter p l = [].
Proof.
  induction l as [|a l IH]; simpl; [reflexivity|].
  destruct (p a); simpl; [discriminate | exact IH].
Qed.

Lemma filter_snd_zip_none (A : Type) (names : list A) (mask : list bool) :
  existsb (fun b : bool => b) mask = false ->
  filter snd (Py.zip names mask) = [].
Proof.
  unfold Py.zip. revert mask.
  induction names as [|n names IH]; intros [|b mask]; simpl; try reflexivity.
  destruct b; simpl; [discriminate | apply IH].
Qed.

Lemma enumerate_nth_error (A : Type) (l : list A) (i : nat) :
  nth_error (Py.enumerate l) i
  = option_map (fun a => (i, a)) (nth_error l i).
Proof.
  unfold Py.enumerate.
  assert (G : forall n,
            nth_error (combine (seq n (length l)) l) i
            = option_map (fun a => (n + i, a)) (nth_error l i)).
  { revert i. induction l as [|a l IH]; intros [|i] n; simpl;
      try reflexivity.
    - now rewrite Nat.add_0_r.
    - rewrite IH. destruct (nth_error l i); simpl; [|reflexivity].
      do 2 f_equal. lia. }
  apply (G 0).
Qed.

(** Every candidate position, each once, passes the membership test. *)
Lemma members_all (A : Type) (l : list A) (cand : list nat) :
  NoDup cand -> (forall c, In c cand -> c < length l) ->
  length (filter (fun ix : nat * A => existsb (Nat.eqb (fst ix)) cand)
                 (Py.enumerate l))
  = length cand.
Proof.
  intros Hnd Hrange. apply Nat.le_antisymm; [apply members_le|].
  rewrite <- (length_map fst (filter _ _)).
  apply NoDup_incl_length; [assumption|].
  intros c Hc. apply in_map_iff.
  destruct (nth_error l c) as [a|] eqn:Ha.
  - exists (c, a). split; [reflexivity|]. apply filter_In. split.
    + apply nth_error_In with (n := c).
      rewrite enumerate_nth_error, Ha. reflexivity.
    + apply existsb_exists. exists c. split; [assumption|].
      apply Nat.eqb_refl.
  - apply nth_error_None in Ha. specialize (Hrange c Hc). lia.
Qed.

Section SelectorFacts.
Variable score : Type.
Variable sleb : score -> score -> bool.
Variable sneg : score -> score.
Variable coef_importances : coef score -> list score.
Variable calculate_threshold : estimator score -> list score -> score.

(** [max_features] bounds what the selector keeps. *)
Lemma SelectFromModel_transform_length (est : estimator score)
    (max_features : nat) (feature_names features : list string) :
  SelectFromModel_transform sleb sneg coef_importances calculate_threshold
    est max_features feature_names = Ok features ->
  length features <= max_features.
Proof.
  unfold SelectFromModel_transform, _get_support_mask. intros H.
  destruct (_get_feature_importances coef_importances est) as [imp|];
    cbn [bind] in H; [|discriminate].
  inv_ok H; injection H as <-; [simpl; lia|].
  rewrite length_map.
  etransitivity; [apply filter_snd_zip_le|].
  unfold support_mask. rewrite filter_map_length.
  etransitivity; [apply filter_and_le|].
  etransitivity; [apply members_le|].
  rewrite length_firstn. apply Nat.le_min_l.
Qed.

Lemma _get_support_mask_importances (est : estimator score)
    (max_features : nat) (imp : list score) :
  feature_importances_ (attrs_of est) = Some imp ->
  _get_support_mask sleb sneg coef_importances calculate_threshold
    est max_features
  = Ok (support_mask sleb sneg (calculate_threshold est imp) max_features imp).
Proof.
  intros Himp. unfold _get_support_mask, _get_feature_importances.
  rewrite Himp. reflexivity.
Qed.

Lemma support_mask_length (est : estimator score) (max_features : nat)
    (imp : list score) :
  length (support_mask sleb sneg (calculate_threshold est imp) max_features imp) = length imp.
Proof.
  unfold support_mask, Py.enumerate.
  now rewrite length_map, length_combine, length_seq, Nat.min_id.
Qed.

Lemma support_mask_nth (est : estimator score) (max_features : nat)
    (imp : list score) (i : nat) (b : bool) :
  nth_error (support_mask sleb sneg (calculate_threshold est imp) max_features imp) i = Some b ->
  exists a,
    nth_error imp i = Some a /\
    b = existsb (Nat.eqb i)
          (firstn max_features
                  (Sorting.insertion_argsort sleb (map sneg imp)))
        && sleb (calculate_threshold est imp) a.
Proof.
  unfold support_mask. rewrite nth_error_map, enumerate_nth_error.
  destruct (nth_error imp i) as [a|]; simpl; [|discriminate].
  intros [= <-]. eauto.
Qed.

(** The selector answers for an estimator with one importance per
    feature name: the names under the mask. *)
Lemma SelectFromModel_transform_ok (est : estimator score)
    (max_features : nat) (feature_names : list string) (imp : list score) :
  feature_importances_ (attrs_of est) = Some imp ->
  length imp = length feature_names ->
  SelectFromModel_transform sleb sneg coef_importances calculate_threshold
    est max_features feature_names
  = Ok (map fst (filter snd (Py.zip feature_names
                               (support_mask sleb sneg (calculate_threshold est imp) max_features imp)))).
Proof.
  intros Himp Hlen.
  unfold SelectFromModel_transform.
  rewrite (_get_support_mask_importances est max_features Himp).
  cbn [bind].
  destruct (existsb (fun b : bool => b) (support_mask sleb sneg (calculate_threshold est imp) max_features imp))
    eqn:Eany; cbn [negb].
  - rewrite support_mask_length, Hlen, Nat.eqb_refl. reflexivity.
  - now rewrite filter_snd_zip_none.
Qed.

(** Without [coef_] and without [feature_importances_] the selector has
    nothing to rank by. *)
Lemma SelectFromModel_transform_no_importances (est : estimator score)
    (max_features : nat) (feature_names : list string) :
  feature_importances_ (attrs_of est) = None ->
  coef_ (attrs_of est) = None ->
  SelectFromModel_transform sleb sneg coef_importances calculate_threshold
    est max_features feature_names
  = Raise (ValueError "The underlying estimator has no `coef_` or `feature_importances_` attribute.").
Proof.
  intros Himp Hcoef.
  unfold SelectFromModel_transform, _get_support_mask,
    _get_feature_importances.
  rewrite Himp, Hcoef. reflexivity.
Qed.

Hypothesis sleb_total : forall a b, sleb a b = true \/ sleb b a = true.
Hypothesis sleb_trans :
  forall a b c, sleb a b = true -> sleb b c = true -> sleb a c = true.
Hypothesis sneg_reverses :
  forall a b, sleb (sneg a) (sneg b) = true -> sleb b a = true.

(** A candidate is at least as important as a position that is not
    one. *)
Lemma candidates_dominate (max_features : nat) (imp : list score)
    (i j : nat) (a b : score) :
  let cand := firstn max_features
                     (Sorting.insertion_argsort sleb (map sneg imp)) in
  In i cand -> ~ In j cand ->
  nth_error imp i = Some a -> nth_error imp j = Some b ->
  sleb b a = true.
Proof.
  intros cand Hi Hj Ha Hb.
  set (order := Sorting.insertion_argsort sleb (map sneg imp)) in *.
  pose proof (@insertion_argsort_spec _ sleb sleb_total sleb_trans) as [Hperm Hsorted].
  specialize (Hperm (map sneg imp)). specialize (Hsorted (map sneg imp)).
  fold order in Hperm, Hsorted.
  assert (Hjo : In j order).
  { apply (Permutation_in _ (Permutation_sym Hperm)).
    apply in_seq. rewrite length_map.
    assert (j < length imp) by (apply nth_error_Some; congruence). lia. }
  rewrite <- (firstn_skipn max_features order) in Hjo, Hsorted.
  apply in_app_or in Hjo. destruct Hjo as [Hjo|Hjo]; [contradiction|].
  apply ssorted_app in Hsorted. destruct Hsorted as (_ & _ & H12).
  specialize (H12 i j Hi Hjo). unfold ascending_at in H12.
  rewrite !nth_error_map, Ha, Hb in H12. simpl in H12.
  now apply sneg_reverses.
Qed.

(** No position the mask leaves out is more important than one it
    keeps. *)
Lemma support_mask_dominance (est : estimator score) (max_features : nat)
    (imp : list score) (i j : nat) :
  nth_error (support_mask sleb sneg (calculate_threshold est imp) max_features imp) i = Some true ->
  nth_error (support_mask sleb sneg (calculate_threshold est imp) max_features imp) j = Some false ->
  exists a b,
    nth_error imp i = Some a /\ nth_error imp j = Some b /\
    sleb (calculate_threshold est imp) a = true /\
    sleb b a = true.
Proof.
  intros Hi Hj.
  apply support_mask_nth in Hi, Hj.
  destruct Hi as (a & Ha & Hi), Hj as (b & Hb & Hj).
  symmetry in Hi, Hj. apply andb_prop in Hi. destruct Hi as [Hci Hti].
  exists a, b. repeat split; try assumption.
  apply existsb_exists in Hci. destruct Hci as (c & Hc & Heq).
  apply Nat.eqb_eq in Heq. subst c.
  apply andb_false_iff in Hj. destruct Hj as [Hcj|Htj].
  - eapply candidates_dominate; try eassumption.
    intros Hin.
    assert (existsb (Nat.eqb j)
              (firstn max_features
                 (Sorting.insertion_argsort sleb (map sneg imp))) = true);
      [|congruence].
    apply existsb_exists. exists j. split; [assumption|apply Nat.eqb_refl].
  - destruct (sleb_total (calculate_threshold est imp) b) as [H|H];
      [congruence|].
    eapply sleb_trans; eassumption.
Qed.

(** The mask keeps as many positions as it may: when it leaves out a
    position whose importance is not below the threshold, it keeps
    [max_features] positions. *)
Lemma support_mask_full (est : estimator score) (max_features : nat)
    (imp : list score) (j : nat) (b : score) :
  nth_error (support_mask sleb sneg (calculate_threshold est imp) max_features imp) j = Some false ->
  nth_error imp j = Some b ->
  sleb (calculate_threshold est imp) b = true ->
  length (filter (fun x : bool => x) (support_mask sleb sneg (calculate_threshold est imp) max_features imp))
  = max_features.
Proof.
  intros Hj Hb Htb.
  set (order := Sorting.insertion_argsort sleb (map sneg imp)).
  set (cand := firstn max_features order).
  pose proof (@insertion_argsort_spec _ sleb sleb_total sleb_trans) as Hspec.
  pose proof (argsort_perm Hspec (map sneg imp)) as Hperm.
  fold order in Hperm. rewrite length_map in Hperm.
  assert (Hnd : NoDup order).
  { apply (Permutation_NoDup (Permutation_sym Hperm)), seq_NoDup. }
  assert (Hlen : length order = length imp).
  { rewrite (Permutation_length Hperm). apply length_seq. }
  assert (Hrange : forall c, In c order -> c < length imp).
  { intros c Hc. apply (Permutation_in _ Hperm) in Hc.
    apply in_seq in Hc. lia. }
  assert (Hjc : ~ In j cand).
  { apply support_mask_nth in Hj. destruct Hj as (b' & Hb' & Hj).
    rewrite Hb in Hb'. injection Hb' as <-.
    rewrite Htb, andb_true_r in Hj. intros Hin.
    assert (existsb (Nat.eqb j) cand = true); [|fold order cand in Hj; congruence].
    apply existsb_exists. exists j. split; [assumption|apply Nat.eqb_refl]. }
  assert (Hjo : In j order).
  { apply (Permutation_in _ (Permutation_sym Hperm)). apply in_seq.
    assert (j < length imp) by (apply nth_error_Some; congruence). lia. }
  assert (Hcl : length cand = max_features).
  { unfold cand. rewrite length_firstn.
    destruct (Nat.le_gt_cases (length order) max_features) as [Hle|Hgt];
      [|lia].
    exfalso. apply Hjc. unfold cand. now rewrite firstn_all2. }
  unfold support_mask. fold order cand.
  rewrite filter_map_length.
  rewrite (@filter_ext_in _ _
             (fun ix : nat * score => existsb (Nat.eqb (fst ix)) cand)).
  - rewrite members_all; [exact Hcl | |].
    + unfold cand. rewrite <- (firstn_skipn max_features order) in Hnd.
      eapply NoDup_app_remove_r. exact Hnd.
    + intros c Hc. apply Hrange. unfold cand in Hc.
      rewrite <- (firstn_skipn max_features order).
      apply in_or_app. now left.
  - intros [i a] Hin. cbn [fst snd].
    destruct (existsb (Nat.eqb i) cand) eqn:Ec; [|reflexivity].
    cbn [andb].
    apply existsb_exists in Ec. destruct Ec as (c & Hc & Heq).
    apply Nat.eqb_eq in Heq. subst c.
    apply enumerate_nth in Hin. cbn [fst snd] in Hin.
    pose proof (@candidates_dominate max_features imp i j a b Hc Hjc Hin Hb)
      as Hba.
    eapply sleb_trans; eassumption.
Qed.

End SelectorFacts.

(** ** Partial dependence plots *)

Section PartialDependenceFacts.
Variable score : Type.
Variable sleb : score -> score -> bool.
Variable sneg : score -> score.
Variable _validate_Xyt :
  dataframe -> option column -> option string -> dataframe * column.
Variable has_plot_roc_curve : bool.
Variable find_pretty_grid : nat -> nat * nat.
Variable _make_subplots : nat -> nat.
Variable plot_partial_dependence :
  estimator score -> dataframe -> list string -> list string ->
  option value -> nat -> option exn.
Variable coef_importances : coef score -> list score.
Variable calculate_threshold : estimator score -> list score -> score.

Variable est : estimator score.
Variable X_val : dataframe.
Variables features feature_names : list string.
Variable n_cols : nat.

Lemma for_each_class_all_drawn (classes : list value) :
  (forall c, In c classes ->
     plot_partial_dependence est X_val features feature_names (Some c) n_cols
     = None) ->
  for_each (fun c => partial_dependence_figure plot_partial_dependence est
                       X_val features feature_names (Some c) n_cols)
           classes
  = (map (fun c => PartialDependence score features feature_names (Some c)
                     n_cols) classes,
     Ok tt).
Proof.
  induction classes as [|c classes IH]; intros H; [reflexivity|].
  cbn [for_each map]. unfold partial_dependence_figure at 1.
  rewrite (H c (or_introl eq_refl)).
  rewrite IH by (intros; apply H; now right). reflexivity.
Qed.

Lemma for_each_class_first_raise (pre post : list value) (c : value)
    (e : exn) :
  (forall c', In c' pre ->
     plot_partial_dependence est X_val features feature_names (Some c') n_cols
     = None) ->
  plot_partial_dependence est X_val features feature_names (Some c) n_cols
  = Some e ->
  for_each (fun c => partial_dependence_figure plot_partial_dependence est
                       X_val features feature_names (Some c) n_cols)
           (pre ++ c :: post)
  = (map (fun c => PartialDependence score features feature_names (Some c)
                     n_cols) pre,
     Raise e).
Proof.
  induction pre as [|c' pre IH]; intros H He.
  - cbn [app for_each map]. unfold partial_dependence_figure at 1.
    rewrite He. reflexivity.
  - cbn [app for_each map]. unfold partial_dependence_figure at 1.
    rewrite (H c' (or_introl eq_refl)).
    rewrite IH by (try assumption; intros; apply H; now right). reflexivity.
Qed.

End PartialDependenceFacts.

Lemma iobind_ret_l (score A B : Type) (a : A) (k : A -> io score B) :
  iobind ([], Ok a) k = k a.
Proof. unfold iobind. destruct (k a). reflexivity. Qed.

Section ExplainFacts.
Variable score : Type.
Variable sleb : score -> score -> bool.
Variable sneg : score -> score.
Variable _validate_Xyt :
  dataframe -> option column -> option string -> dataframe * column.
Variable has_plot_roc_curve : bool.
Variable find_pretty_grid : nat -> nat * nat.
Variable _make_subplots : nat -> nat.
Variable plot_partial_dependence :
  estimator score -> dataframe -> list string -> list string ->
  option value -> nat -> option exn.
Variable coef_importances : coef score -> list score.
Variable calculate_threshold : estimator score -> list score -> score.

(** The figures of the partial dependence block once the selector has
    answered, for an unwrapped estimator without [coef_]: one figure
    when there are at most two classes, one per class otherwise; a
    [ValueError] raised by the computation ends the figures with a
    warning. *)
Lemma explain_partial_dependence_stage
    (est inner_estimator : estimator score) (Xv : dataframe)
    (feature_names features : list string) (n_classes n_rows n_cols : nat) :
  coef_ (attrs_of inner_estimator) = None ->
  SelectFromModel_transform sleb sneg coef_importances calculate_threshold
    inner_estimator 10 feature_names = Ok features ->
  find_pretty_grid (length features) = (n_rows, n_cols) ->
  let stage :=
    explain_partial_dependence sleb sneg find_pretty_grid
      plot_partial_dependence coef_importances calculate_threshold
      est inner_estimator Xv feature_names n_classes in
  let raises target :=
    plot_partial_dependence est Xv features feature_names target n_cols in
  let drawn target :=
    PartialDependence score features feature_names target n_cols in
  let announced := Printed score "Computing partial dependence plots..." in
  let warned msg :=
    Warned score ("Couldn't run partial dependence plot: " ++ msg) in
  length features <= 10 /\
  (n_classes <= 2 ->
   (raises None = None -> stage = ([announced; drawn None], Ok tt)) /\
   (forall msg, raises None = Some (ValueError msg) ->
                stage = ([announced; warned msg], Ok tt))) /\
  (2 < n_classes ->
   forall classes, classes_ (attrs_of est) = Some classes ->
   ((forall c, In c classes -> raises (Some c) = None) ->
    stage = (announced :: map (fun c => drawn (Some c)) classes, Ok tt)) /\
   (forall pre c post msg,
      classes = pre ++ c :: post ->
      (forall c', In c' pre -> raises (Some c') = None) ->
      raises (Some c) = Some (ValueError msg) ->
      stage = (announced :: map (fun c => drawn (Some c)) pre
                 ++ [warned msg], Ok tt))) /\
  (forall X_val y_val target_col names0 head_trace yv,
     explain_head _validate_Xyt has_plot_roc_curve _make_subplots
       est (Some X_val) y_val target_col names0
     = (head_trace,
        Ok (inner_estimator, feature_names, n_classes, Some (Xv, yv))) ->
     explain sleb sneg _validate_Xyt has_plot_roc_curve find_pretty_grid
       _make_subplots plot_partial_dependence coef_importances
       calculate_threshold est (Some X_val) y_val target_col names0
     = (head_trace ++ fst stage, snd stage)).
Proof.
  intros Hcoef Hsel Hgrid stage raises drawn announced warned.
  assert (Hstage :
    stage
    = let (t, r) :=
        try_except
          (if Nat.leb n_classes 2 then
             partial_dependence_figure plot_partial_dependence est Xv
               features feature_names None n_cols
           else
             iobind (lift (getattr (@classes_ score) "classes_" est))
               (fun classes =>
                for_each (fun c => partial_dependence_figure
                                     plot_partial_dependence est Xv features
                                     feature_names (Some c) n_cols)
                         classes))
          (fun e => match e with
                    | ValueError msg => Some (emit (warned msg))
                    | _ => None
                    end) in
      (announced :: t, r)).
  { unfold stage, explain_partial_dependence.
    rewrite Hsel. unfold lift. rewrite iobind_ret_l.
    unfold hasattr. rewrite Hcoef, Hgrid. reflexivity. }
  split; [eapply SelectFromModel_transform_length; eassumption|].
  split; [|split].
  - intros Hn. rewrite Hstage.
    destruct (Nat.leb_spec n_classes 2) as [_|]; [|lia].
    unfold partial_dependence_figure. fold (raises None).
    split.
    + intros ->. reflexivity.
    + intros msg ->. reflexivity.
  - intros Hn classes Hclasses. rewrite Hstage.
    destruct (Nat.leb_spec n_classes 2) as [|_]; [lia|].
    unfold getattr. rewrite Hclasses. unfold lift. rewrite iobind_ret_l.
    split.
    + intros Hall.
      rewrite (for_each_class_all_drawn plot_partial_dependence est Xv
                 features feature_names n_cols classes Hall).
      reflexivity.
    + intros pre c post msg -> Hpre Hc.
      rewrite (for_each_class_first_raise plot_partial_dependence est Xv
                 features feature_names n_cols pre post c Hpre Hc).
      reflexivity.
  - intros X_val y_val target_col names0 head_trace yv Hhead.
    unfold explain. rewrite Hhead. unfold iobind at 1. fold stage.
    destruct stage as [t r]. reflexivity.
Qed.

(** With [coef_] on the unwrapped estimator the features are selected
    and nothing is drawn. *)
Lemma explain_partial_dependence_skipped
    (est inner_estimator : estimator score) (Xv : dataframe)
    (feature_names features : list string) (n_classes : nat)
    (c : coef score) :
  coef_ (attrs_of inner_estimator) = Some c ->
  SelectFromModel_transform sleb sneg coef_importances calculate_threshold
    inner_estimator 10 feature_names = Ok features ->
  explain_partial_dependence sleb sneg find_pretty_grid
    plot_partial_dependence coef_importances calculate_threshold
    est inner_estimator Xv feature_names n_classes
  = ([], Ok tt).
Proof.
  intros Hcoef Hsel. unfold explain_partial_dependence.
  rewrite Hsel. unfold lift. rewrite iobind_ret_l.
  unfold hasattr. rewrite Hcoef. reflexivity.
Qed.

(** C7, as the code has it.  With validation data and an unwrapped
    estimator without [coef_] that has [feature_importances_], one per
    feature name, [explain] selects with [SelectFromModel] at most ten
    features, none less important than a feature it leaves out and none
    below the selector's threshold, ten whenever it leaves out a feature
    that is not below the threshold, and draws their partial dependence:
    one figure when there are at most two classes, one per class
    otherwise.  A [ValueError] raised by the computation ends the
    figures with a warning, and [explain] completes.  Without
    [feature_importances_] the selector raises [ValueError], which is
    not handled and ends [explain]; and for an unwrapped estimator with
    [coef_] nothing of the partial dependence block is printed or
    drawn. *)
Theorem explain_partial_dependence_panels
    (est inner_estimator : estimator score) (Xv : dataframe)
    (feature_names : list string) (n_classes : nat) :
  (forall a b, sleb a b = true \/ sleb b a = true) ->
  (forall a b c, sleb a b = true -> sleb b c = true -> sleb a c = true) ->
  (forall a b, sleb (sneg a) (sneg b) = true -> sleb b a = true) ->
  let stage :=
    explain_partial_dependence sleb sneg find_pretty_grid
      plot_partial_dependence coef_importances calculate_threshold
      est inner_estimator Xv feature_names n_classes in
  (coef_ (attrs_of inner_estimator) <> None ->
   existsb (@is_partial_dependence score) (fst stage) = false) /\
  (coef_ (attrs_of inner_estimator) = None ->
   feature_importances_ (attrs_of inner_estimator) = None ->
   stage = ([], Raise (ValueError "The underlying estimator has no `coef_` or `feature_importances_` attribute."))) /\
  (forall imp,
     coef_ (attrs_of inner_estimator) = None ->
     feature_importances_ (attrs_of inner_estimator) = Some imp ->
     length imp = length feature_names ->
     let threshold := calculate_threshold inner_estimator imp in
     let mask := support_mask sleb sneg threshold 10 imp in
     let features := map fst (filter snd (Py.zip feature_names mask)) in
     let n_cols := snd (find_pretty_grid (length features)) in
     let raises target :=
       plot_partial_dependence est Xv features feature_names target n_cols in
     let drawn target :=
       PartialDependence score features feature_names target n_cols in
     let announced := Printed score "Computing partial dependence plots..." in
     let warned msg :=
       Warned score ("Couldn't run partial dependence plot: " ++ msg) in
     length features <= 10 /\
     (forall i j,
        nth_error mask i = Some true -> nth_error mask j = Some false ->
        exists a b,
          nth_error imp i = Some a /\ nth_error imp j = Some b /\
          sleb threshold a = true /\ sleb b a = true) /\
     (forall j b,
        nth_error mask j = Some false -> nth_error imp j = Some b ->
        sleb threshold b = true -> length features = 10) /\
     (n_classes <= 2 ->
      (raises None = None -> stage = ([announced; drawn None], Ok tt)) /\
      (forall msg, raises None = Some (ValueError msg) ->
                   stage = ([announced; warned msg], Ok tt))) /\
     (2 < n_classes ->
      forall classes, classes_ (attrs_of est) = Some classes ->
      ((forall c, In c classes -> raises (Some c) = None) ->
       stage = (announced :: map (fun c => drawn (Some c)) classes, Ok tt)) /\
      (forall pre c post msg,
         classes = pre ++ c :: post ->
         (forall c', In c' pre -> raises (Some c') = None) ->
         raises (Some c) = Some (ValueError msg) ->
         stage = (announced :: map (fun c => drawn (Some c)) pre
                    ++ [warned msg], Ok tt)))) /\
  (forall X_val y_val target_col names0 head_trace yv,
     explain_head _validate_Xyt has_plot_roc_curve _make_subplots
       est (Some X_val) y_val target_col names0
     = (head_trace,
        Ok (inner_estimator, feature_names, n_classes, Some (Xv, yv))) ->
     explain sleb sneg _validate_Xyt has_plot_roc_curve find_pretty_grid
       _make_subplots plot_partial_dependence coef_importances
       calculate_threshold est (Some X_val) y_val target_col names0
     = (head_trace ++ fst stage, snd stage)).
Proof.
  intros Htotal Htrans Hneg stage. split; [|split; [|split]].
  - intros Hcoef. unfold stage, explain_partial_dependence.
    destruct (SelectFromModel_transform sleb sneg coef_importances
                calculate_threshold inner_estimator 10 feature_names)
      as [features|e]; [|reflexivity].
    unfold lift. rewrite iobind_ret_l. unfold hasattr.
    destruct (coef_ (attrs_of inner_estimator)); [reflexivity|].
    now elim Hcoef.
  - intros Hcoef Himp. unfold stage, explain_partial_dependence.
    rewrite (SelectFromModel_transform_no_importances sleb sneg
               coef_importances calculate_threshold inner_estimator 10
               feature_names Himp Hcoef).
    reflexivity.
  - intros imp Hcoef Himp Hlen threshold mask features n_cols.
    pose proof (SelectFromModel_transform_ok sleb sneg coef_importances
                  calculate_threshold inner_estimator 10 feature_names
                  Himp Hlen) as Hsel.
    fold threshold mask features in Hsel.
    subst n_cols.
    destruct (find_pretty_grid (length features)) as [n_rows n_cols0]
      eqn:Hgrid.
    cbn [snd].
    destruct (@explain_partial_dependence_stage est inner_estimator Xv
                feature_names features n_classes n_rows n_cols0
                Hcoef Hsel Hgrid)
      as (Hten & Hfew & Hmany & _).
    fold stage in Hfew, Hmany.
    split; [exact Hten|]. split; [|split; [|split]].
    + intros i j.
      apply (@support_mask_dominance _ sleb sneg calculate_threshold
               Htotal Htrans Hneg inner_estimator 10 imp i j).
    + intros j b Hj Hb Htb. unfold features.
      rewrite length_map, filter_snd_zip_length.
      * apply (@support_mask_full _ sleb sneg calculate_threshold
                 Htotal Htrans Hneg inner_estimator 10 imp j b Hj Hb Htb).
      * unfold mask, threshold. now rewrite support_mask_length.
    + exact Hfew.
    + exact Hmany.
  - intros X_val y_val target_col names0 head_trace yv Hhead.
    unfold explain. rewrite Hhead. unfold iobind at 1. fold stage.
    destruct stage as [t r]. reflexivity.
Qed.

End ExplainFacts.

Lemma Z_opp_reverses (a b : Z) :
  Z.leb (Z.opp a) (Z.opp b) = true -> Z.leb b a = true.
Proof. rewrite !Z.leb_le. lia. Qed.

Lemma explain_partial_dependence_panels_witness :
  explain_partial_dependence Z.leb Z.opp Sample.pretty_grid Sample.pd_raises
    Sample.magnitudes Sample.threshold
    (Sample.forest Sample.three_classes) (Sample.forest Sample.three_classes)
    Sample.X_val ["x0"; "x1"; "x2"] 3
  = ([ Printed Z "Computing partial dependence plots...";
       Warned Z "Couldn't run partial dependence plot: too few samples" ],
     Ok tt).
Proof.
  destruct (@explain_partial_dependence_panels Z Z.leb Z.opp Sample.validate
              true Sample.pretty_grid Sample.subplots Sample.pd_raises
              Sample.magnitudes Sample.threshold
              (Sample.forest Sample.three_classes)
              (Sample.forest Sample.three_classes)
              Sample.X_val ["x0"; "x1"; "x2"] 3
              Z_leb_total Z_leb_trans Z_opp_reverses)
    as (_ & _ & Hforest & _).
  destruct (Hforest [5; 1; 3]%Z eq_refl eq_refl eq_refl)
    as (_ & _ & _ & _ & Hmany).
  assert (H3 : 2 < 3) by lia.
  destruct (Hmany H3 Sample.three_classes eq_refl) as [_ Hraise].
  apply (Hraise [] (VNum 0) [VNum 1; VNum 2] "too few samples" eq_refl).
  - intros c' [].
  - reflexivity.
Defined.

(** C7, as stated, fails: validation data is given, the partial
    dependence computation would not raise, and [explain] draws no
    partial dependence plot for a linear model. *)
Lemma linear_model_partial_dependence_counterexample :
  let run :=
    explain Z.leb Z.opp Sample.validate true Sample.pretty_grid
      Sample.subplots Sample.pd_draws Sample.magnitudes Sample.threshold
      Sample.linear (Some Sample.X_val) (Some (map Sample.num [0; 1]%Z)) None
      (Some ["f0"; "f1"; "f2"]) in
  run = ([ ClassificationReport Z; ConfusionMatrix Z; RocCurve Z false;
           Coefficients [4; 0; 2]%Z ["f0"; "f1"; "f2"] None ],
         Ok tt) /\
  ~ (exists features names target n_cols,
       In (PartialDependence Z features names target n_cols) (fst run)).
Proof.
  split; [reflexivity|].
  intros (features & names & target & n_cols & Hin).
  cbn in Hin. repeat destruct Hin as [Hin|Hin]; try discriminate Hin.
  exact Hin.
Qed.

(* ================================================================= *)
(** * Part III.  Further properties of the two modules *)
(* ================================================================= *)

(** ** Which columns are scored *)

Lemma loc_columns_filter (X : dataframe) (mask : bool_series)
    (features : dataframe) :
  loc_columns X mask = Ok features ->
  features = filter (fun c => flagged mask (fst c)) X.
Proof.
  revert features. induction X as [|c X IH]; simpl; intros features H.
  - now injection H as <-.
  - unfold flagged. destruct (lookup_flag mask (fst c)) as [b|e];
      cbn [bind] in H; [|discriminate].
    destruct (loc_columns X mask) as [rest|e]; cbn [bind] in H;
      [|discriminate].
    injection H as <-. rewrite (IH rest eq_refl). reflexivity.
Qed.

Lemma loc_columns_error (X : dataframe) (mask : bool_series) (e : exn) :
  loc_columns X mask = Raise e -> e = IndexingError.
Proof.
  induction X as [|c X IH]; simpl; intros H; [discriminate|].
  unfold lookup_flag in H.
  destruct (find (fun c0 => String.eqb (fst c0) (fst c)) mask);
    cbn [bind] in H; [|congruence].
  destruct (loc_columns X mask); cbn [bind] in H; [discriminate|].
  injection H as <-. now apply IH.
Qed.

Lemma loc_columns_uncovered (X : dataframe) (mask : bool_series)
    (name : string) :
  In name (columns X) -> ~ In name (columns mask) ->
  loc_columns X mask = Raise IndexingError.
Proof.
  intros Hin Hout.
  destruct (loc_columns X mask) as [features|e] eqn:E.
  - exfalso. revert features E.
    induction X as [|c X IH]; simpl in *; intros features E; [contradiction|].
    unfold lookup_flag in E.
    destruct (find (fun c0 => String.eqb (fst c0) (fst c)) mask) as [m|] eqn:F;
      cbn [bind] in E; [|discriminate].
    destruct (loc_columns X mask) as [rest|]; cbn [bind] in E; [|discriminate].
    destruct Hin as [Hc|Hin]; [|eapply IH; eauto].
    apply find_some in F. destruct F as [Hm Heq].
    apply String.eqb_eq in Heq. apply Hout. subst name. rewrite <- Heq.
    unfold columns. now apply in_map.
  - f_equal. eapply loc_columns_error; eassumption.
Qed.

Lemma filter_twice (A : Type) (p q : A -> bool) (l : list A) :
  filter q (filter p l) = filter (fun a => p a && q a) l.
Proof.
  induction l as [|a l IH]; simpl; [reflexivity|].
  destruct (p a); simpl; [destruct (q a); now rewrite IH | assumption].
Qed.

Lemma drop_absent (C : Type) (name : string) (X : list (string * C)) :
  has_column name X = false -> drop name X = X.
Proof.
  unfold has_column, drop, columns.
  induction X as [|c X IH]; simpl; [reflexivity|].
  rewrite (String.eqb_sym (fst c) name).
  destruct (String.eqb name (fst c)); simpl; [discriminate|].
  intros H. now rewrite IH.
Qed.

Lemma kind_series_columns (kind : type_row -> bool) (types : types_frame) :
  columns (kind_series kind types) = columns types.
Proof.
  unfold columns, kind_series. rewrite map_map. reflexivity.
Qed.

Lemma select_features_as_filter (kind : type_row -> bool) (X : dataframe)
    (target_col : string) (types : types_frame) (features : dataframe) :
  select_features kind X target_col types = Ok features ->
  features
  = filter (fun c => flagged (kind_series kind types) (fst c)
                     && negb (String.eqb (fst c) target_col)) X.
Proof.
  unfold select_features. intros H.
  destruct (loc_columns X (kind_series kind types)) as [all|e] eqn:E;
    cbn [bind] in H; [|discriminate].
  apply loc_columns_filter in E.
  assert (Hdrop : features = drop target_col all).
  { destruct (has_column target_col all) eqn:Hc; injection H as <-;
      [reflexivity | symmetry; now apply drop_absent]. }
  rewrite Hdrop, E. unfold drop. apply filter_twice.
Qed.

(** X1.  The frame a panel function scores holds the columns of [X]
    that the type table marks with the kind, without those under the
    target's label, in the order of [X]. *)
Theorem select_features_filter (kind : type_row -> bool) (X : dataframe)
    (target_col : string) (types : types_frame) (features : dataframe) :
  select_features kind X target_col types = Ok features ->
  features
  = filter (fun c => flagged (kind_series kind types) (fst c)
                     && negb (String.eqb (fst c) target_col)) X.
Proof.
  apply select_features_as_filter.
Qed.

Lemma select_features_filter_witness :
  firstn 2 Sample.X_reg
  = filter (fun c => flagged (kind_series continuous Sample.types_reg) (fst c)
                     && negb (String.eqb (fst c) "y")) Sample.X_reg.
Proof.
  apply (@select_features_filter continuous Sample.X_reg "y"
           Sample.types_reg (firstn 2 Sample.X_reg)).
  reflexivity.
Defined.

Lemma select_features_aligned_or_error (kind : type_row -> bool)
    (X : dataframe) (target_col : string) (types : types_frame) :
  ((forall name, In name (columns X) -> In name (columns types)) ->
   exists features, select_features kind X target_col types = Ok features) /\
  (forall name, In name (columns X) -> ~ In name (columns types) ->
   select_features kind X target_col types = Raise IndexingError).
Proof.
  unfold select_features. split.
  - intros Hcov.
    destruct (@loc_columns_ok X (kind_series kind types)) as [all Hall].
    { intros name Hn. rewrite kind_series_columns. auto. }
    rewrite Hall. cbn [bind]. eauto.
  - intros name Hin Hout.
    rewrite (@loc_columns_uncovered X (kind_series kind types) name);
      [reflexivity | assumption | now rewrite kind_series_columns].
Qed.

(** X2.  The selection succeeds exactly when the type table has a row
    for every column of the frame; a column without a row ends it with
    pandas' [IndexingError]. *)
Theorem select_features_needs_aligned_types (kind : type_row -> bool)
    (X : dataframe) (target_col : string) (types : types_frame) :
  ((forall name, In name (columns X) -> In name (columns types)) ->
   exists features, select_features kind X target_col types = Ok features) /\
  (forall name, In name (columns X) -> ~ In name (columns types) ->
   select_features kind X target_col types = Raise IndexingError).
Proof.
  apply select_features_aligned_or_error.
Qed.

Lemma select_features_needs_aligned_types_witness :
  (exists features,
     select_features continuous Sample.X_reg "y" Sample.types_reg
     = Ok features) /\
  select_features continuous Sample.X_reg "y" (firstn 1 Sample.types_reg)
  = Raise IndexingError.
Proof.
  split.
  - apply (proj1 (@select_features_needs_aligned_types continuous
                    Sample.X_reg "y" Sample.types_reg)).
    intros name H. exact H.
  - apply (proj2 (@select_features_needs_aligned_types continuous
                    Sample.X_reg "y" (firstn 1 Sample.types_reg)) "b").
    + simpl. tauto.
    + simpl. intros [H|[]]. discriminate H.
Defined.

Lemma select_features_empty (kind : type_row -> bool) (X : dataframe)
    (target_col : string) (types : types_frame) :
  (forall name, In name (columns X) -> In name (columns types)) ->
  (forall c, In c X -> flagged (kind_series kind types) (fst c) = true ->
             fst c = target_col) ->
  select_features kind X target_col types = Ok [].
Proof.
  intros Hcov Hnone.
  destruct (proj1 (select_features_aligned_or_error kind X target_col
                     types) Hcov) as [features H].
  rewrite H. f_equal. apply select_features_as_filter in H. subst features.
  induction X as [|c X IH]; simpl; [reflexivity|].
  destruct (flagged (kind_series kind types) (fst c)) eqn:F; simpl.
  - rewrite (Hnone c (or_introl eq_refl) F), String.eqb_refl. simpl.
    apply IH.
    + intros name Hn. apply Hcov. now right.
    + intros c' Hc'. apply Hnone. now right.
  - apply IH.
    + intros name Hn. apply Hcov. now right.
    + intros c' Hc'. apply Hnone. now right.
Qed.

Section SkippedPanels.
Variable score : Type.
Variable argsort : list score -> list nat.
Variable _check_X_target_col :
  dataframe -> string -> option types_frame -> option string ->
  result types_frame.
Variable _get_n_top : dataframe -> string -> Z.
Variable _make_subplots : Z -> nat.
Variable impute_column : column -> column.
Variables f_regression_1 f_classif_1 : column -> column -> score.
Variable RandomState : Type.
Variable mi_regression_1 : RandomState -> list Z -> column -> bool -> score.
Variable mi_classif_1 : list Z -> column -> bool -> score.
Variable random_state : RandomState.

(** X3.  A panel function whose kind of feature is absent returns
    without a figure: when no column other than the target is marked
    with the kind, each of the four answers [None], whatever its other
    arguments are. *)
Theorem panels_skipped_without_features (X : dataframe)
    (target_col : string) (types0 : option types_frame)
    (kind : type_row -> bool) (types : types_frame) :
  (forall name, In name (columns X) -> In name (columns types)) ->
  (forall c, In c X -> flagged (kind_series kind types) (fst c) = true ->
             fst c = target_col) ->
  (_check_X_target_col X target_col types0 (Some "regression") = Ok types ->
   (kind = continuous ->
    plot_regression_continuous argsort _check_X_target_col _get_n_top
      _make_subplots impute_column f_regression_1 X target_col types0
    = Ok None) /\
   (kind = categorical ->
    plot_regression_categorical argsort _check_X_target_col _get_n_top
      _make_subplots mi_regression_1 random_state X target_col types0
    = Ok None)) /\
  (_check_X_target_col X target_col types0 (Some "classification")
   = Ok types ->
   (kind = continuous ->
    forall univariate_plot plot_pairwise top_k_interactions,
      plot_classification_continuous argsort _check_X_target_col _get_n_top
        _make_subplots impute_column f_classif_1 X target_col types0
        univariate_plot plot_pairwise top_k_interactions
      = Ok None) /\
   (kind = categorical ->
    forall plot_kind,
      plot_kind <> "auto" ->
      plot_classification_categorical argsort _check_X_target_col _get_n_top
        _make_subplots mi_classif_1 X target_col types0 plot_kind
      = Ok None)).
Proof.
  intros Hcov Hnone.
  pose proof (@select_features_empty kind X target_col types Hcov Hnone) as Hs.
  split; intros Hc; split; intros ->.
  - unfold plot_regression_continuous. rewrite Hc. cbn [bind].
    rewrite Hs. reflexivity.
  - unfold plot_regression_categorical. rewrite Hc. cbn [bind].
    rewrite Hs. reflexivity.
  - intros u p k. unfold plot_classification_continuous.
    rewrite Hc. cbn [bind]. rewrite Hs. reflexivity.
  - intros plot_kind Hk. unfold plot_classification_categorical.
    rewrite Hc. cbn [bind].
    destruct (String.eqb_spec plot_kind "auto") as [|_]; [contradiction|].
    cbn [bind]. rewrite Hs. reflexivity.
Qed.

End SkippedPanels.

Lemma panels_skipped_without_features_witness :
  plot_regression_categorical Sample.argsort Sample.check_types
    Sample.get_n_top Sample.make_subplots Sample.noisy_agreement 0%Z
    Sample.X_reg "y" (Some Sample.types_reg)
  = Ok None.
Proof.
  refine (proj2 (proj1 (@panels_skipped_without_features Z Sample.argsort
            Sample.check_types Sample.get_n_top Sample.make_subplots
            Sample.impute Sample.agreement Sample.agreement
            Z Sample.noisy_agreement Sample.code_agreement 0%Z
            Sample.X_reg "y" (Some Sample.types_reg) categorical
            Sample.types_reg _ _) eq_refl) eq_refl).
  - intros name H. exact H.
  - intros c [<-|[<-|[<-|[]]]] H; discriminate H.
Defined.

(** ** What the panels show *)

Lemma map_result_Forall2 (A B : Type) (fn : A -> result B) (l : list A)
    (out : list B) :
  map_result fn l = Ok out -> Forall2 (fun a b => fn a = Ok b) l out.
Proof.
  revert out. induction l as [|a l IH]; simpl; intros out H.
  - injection H as <-. constructor.
  - inv_ok H. injection H as <-. constructor; auto.
Qed.

Lemma Forall2_impl (A B : Type) (R R' : A -> B -> Prop) (l : list A)
    (l' : list B) :
  (forall a b, In a l -> R a b -> R' a b) ->
  Forall2 R l l' -> Forall2 R' l l'.
Proof.
  intros HR H. induction H as [|a b l l' Hab H IH]; constructor.
  - apply HR; [now left | assumption].
  - apply IH. intros a' b' Hin. apply HR. now right.
Qed.

Lemma Forall2_zip_rank (B P : Type) (Q : nat -> P -> Prop) (top : list nat)
    (axes : list B) (out : list P) :
  Forall2 (fun x p => Q (fst x) p) (Py.zip top axes) out ->
  Forall2 (fun p c => Q c p) out (firstn (length out) top).
Proof.
  unfold Py.zip. revert axes out.
  induction top as [|c top IH]; simpl; intros axes out H.
  - inversion H. constructor.
  - destruct axes as [|ax axes]; simpl in H; inversion H; subst; simpl.
    + constructor.
    + constructor; [assumption | eauto].
Qed.

Lemma Forall2_enumerate (A P : Type) (R : nat * A -> P -> Prop)
    (Q : A -> P -> Prop) (z : list A) (out : list P) :
  (forall i x p, nth_error z i = Some x -> R (i, x) p -> Q x p) ->
  Forall2 R (Py.enumerate z) out -> Forall2 Q z out.
Proof.
  unfold Py.enumerate. intros HQ.
  assert (G : forall s zs out',
             (forall i x p, nth_error zs i = Some x -> R (s + i, x) p ->
                            Q x p) ->
             Forall2 R (combine (seq s (length zs)) zs) out' ->
             Forall2 Q zs out').
  { intros s zs. revert s.
    induction zs as [|x zs IH]; simpl; intros s out' Hq H.
    - inversion H. constructor.
    - inversion H as [|a b l l' Hab Hrest]; subst. constructor.
      + apply (Hq 0 x b eq_refl). now rewrite Nat.add_0_r.
      + apply (IH (S s)); [|assumption].
        intros i y p Hy Hr. apply (Hq (S i) y p Hy).
        now rewrite Nat.add_succ_r. }
  apply G. intros i x p Hx Hr. eapply HQ; eassumption.
Qed.

Lemma map_snd_zip (A B : Type) (l1 : list A) (l2 : list B) :
  map snd (Py.zip l1 l2) = firstn (length l1) l2.
Proof.
  unfold Py.zip. revert l2.
  induction l1 as [|a l1 IH]; intros [|b l2]; simpl; try reflexivity.
  now rewrite IH.
Qed.

Lemma firstn_seq0 (k n s : nat) : firstn k (seq s n) = seq s (Nat.min k n).
Proof.
  revert s n. induction k as [|k IH]; intros s [|n]; simpl; try reflexivity.
  now rewrite IH.
Qed.

Lemma zip_length (A B : Type) (l1 : list A) (l2 : list B) :
  length (Py.zip l1 l2) = Nat.min (length l1) (length l2).
Proof.
  apply length_combine.
Qed.

(** The loop over the axes and the loop that switches off the rest go
    through the whole grid. *)
Lemma axes_partition (A P : Type) (axis : P -> nat) (fn : A -> result P)
    (axis_of : A -> nat) (l : list A) (m n_axes : nat) (drawn : list P)
    (off : list nat) :
  (forall a p, fn a = Ok p -> axis p = axis_of a) ->
  map axis_of l = seq 0 (Nat.min m n_axes) ->
  map_result fn l = Ok drawn ->
  remaining_axes (length drawn) n_axes = Ok off ->
  map axis drawn ++ off = seq 0 n_axes /\
  length drawn = Nat.min m n_axes.
Proof.
  intros Hax Hl Hd Hoff.
  apply map_result_Forall2 in Hd.
  assert (Hmap : map axis drawn = map axis_of l).
  { clear Hl Hoff. induction Hd as [|a p l drawn Hap Hd IH]; simpl;
      [reflexivity|]. rewrite (Hax a p Hap). now rewrite IH. }
  assert (Hlen : length drawn = Nat.min m n_axes).
  { rewrite <- (length_map axis), Hmap, Hl. apply length_seq. }
  split; [|assumption].
  rewrite Hmap, Hl. unfold remaining_axes in Hoff. rewrite Hlen in Hoff.
  destruct (Nat.min m n_axes) as [|k] eqn:Ek; [discriminate|].
  injection Hoff as <-. rewrite <- seq_app. f_equal. lia.
Qed.

(** Where the scores are those of the columns of the frame, position by
    position, a panel that shows the column and the score at one
    position shows a feature under its own score. *)
Lemma panels_show_their_own_score (score : Type) (g : column -> score)
    (features : dataframe) (f : list score) (drawn : list (panel score))
    (sel : list nat) :
  f = map (fun c => g (snd c)) features ->
  Forall2 (fun p c =>
             nth_error (columns features) c = Some (panel_column p) /\
             nth_error f c = panel_title p)
          drawn sel ->
  Forall2 (fun p c =>
             exists col,
               nth_error features c = Some col /\
               panel_column p = fst col /\
               panel_title p = Some (g (snd col)))
          drawn sel.
Proof.
  intros -> H. eapply Forall2_impl; [|exact H].
  intros p c _ [Hcol Htitle]. unfold columns in Hcol.
  rewrite nth_error_map in Hcol. rewrite nth_error_map in Htitle.
  destruct (nth_error features c) as [col|]; [|discriminate].
  exists col. cbn in Hcol, Htitle. injection Hcol as <-.
  repeat split. now symmetry.
Qed.

Section PanelFacts.
Variable score : Type.
Variable argsort : list score -> list nat.
Variable _check_X_target_col :
  dataframe -> string -> option types_frame -> option string ->
  result types_frame.
Variable _get_n_top : dataframe -> string -> Z.
Variable _make_subplots : Z -> nat.
Variable impute_column : column -> column.
Variables f_regression_1 f_classif_1 : column -> column -> score.
Variable RandomState : Type.
Variable mi_regression_1 : RandomState -> list Z -> column -> bool -> score.
Variable mi_classif_1 : list Z -> column -> bool -> score.
Variable random_state : RandomState.

(** In [plot_regression_continuous] the i-th scatter plot shows the
    column of the frame at the i-th position of the ranking, and its
    title the score at that position. *)
Lemma plot_regression_continuous_panels_by_position (X : dataframe)
    (target_col : string) (types0 : option types_frame) (r : ranked score) :
  plot_regression_continuous argsort _check_X_target_col _get_n_top
    _make_subplots impute_column f_regression_1 X target_col types0
  = Ok (Some r) ->
  Forall2 (fun p c =>
             nth_error (columns (scored_features r)) c
             = Some (panel_column p) /\
             nth_error (scores r) c = panel_title p)
          (panels r) (firstn (length (panels r)) (selected r)).
Proof.
  unfold plot_regression_continuous. intros H. inv_ok H.
  injection H as <-. cbn [panels scored_features selected scores].
  match goal with
  | Hm : map_result _ _ = Ok ?out |- Forall2 _ ?out _ =>
      apply map_result_Forall2 in Hm;
      apply Forall2_zip_rank
        with (Q := fun c p =>
                     nth_error (columns a0) c = Some (panel_column p) /\
                     nth_error
                       (f_regression f_regression_1
                          (SimpleImputer_fit_transform impute_column a0) a1)
                       c = panel_title p)
             (axes := seq 0 (_make_subplots (_get_n_top a0 "continuous")));
      eapply Forall2_impl; [|exact Hm]
  end.
  intros [c ax] p _ Hp. cbn beta iota in Hp. unfold Py.getitem in Hp.
  cbn [fst].
  destruct (nth_error (columns a0) c) as [col|]; cbn [bind] in Hp;
    [|discriminate].
  destruct (nth_error _ c) as [fc|]; cbn [bind] in Hp; [|discriminate].
  injection Hp as <-. split; reflexivity.
Qed.

(** X4.  When every continuous feature has an observed value, the i-th
    scatter plot of [plot_regression_continuous] shows the i-th ranked
    feature, and its title is the F score of that same feature against
    the target. *)
Theorem plot_regression_continuous_panels_follow_ranking (X : dataframe)
    (target_col : string) (types0 : option types_frame) (r : ranked score)
    (target : column) :
  plot_regression_continuous argsort _check_X_target_col _get_n_top
    _make_subplots impute_column f_regression_1 X target_col types0
  = Ok (Some r) ->
  getitem X target_col = Ok target ->
  Forall (fun c => observed (snd c) = true) (scored_features r) ->
  Forall2 (fun p c =>
             exists col,
               nth_error (scored_features r) c = Some col /\
               panel_column p = fst col /\
               panel_title p
               = Some (f_regression_1 (impute_column (snd col)) target))
          (panels r) (firstn (length (panels r)) (selected r)).
Proof.
  intros H Ht Hobs.
  pose proof (plot_regression_continuous_panels_by_position _ _ _ H) as Hpos.
  apply plot_regression_continuous_inv in H.
  destruct H as (types & target' & _ & _ & Ht' & Hscores).
  rewrite Ht in Ht'. injection Ht' as <-.
  refine (@panels_show_their_own_score _
            (fun x => f_regression_1 (impute_column x) target)
            _ _ _ _ _ Hpos).
  rewrite Hscores, (SimpleImputer_fit_transform_observed _ Hobs).
  unfold f_regression. now rewrite map_map.
Qed.

(** X5.  Every axis of the grid is either filled by the loop over the
    ranking or switched off by the loop after it, each once and in
    order; the number of panels is the smaller of the length of the
    ranking and the size of the grid. *)
Theorem every_axis_filled_or_switched_off (X : dataframe)
    (target_col : string) (types0 : option types_frame) :
  (forall r,
     plot_regression_continuous argsort _check_X_target_col _get_n_top
       _make_subplots impute_column f_regression_1 X target_col types0
     = Ok (Some r) ->
     let n_axes :=
       _make_subplots (_get_n_top (scored_features r) "continuous") in
     map (@panel_axis score) (panels r) ++ axes_off r = seq 0 n_axes /\
     length (panels r) = Nat.min (length (selected r)) n_axes) /\
  (forall r,
     plot_regression_categorical argsort _check_X_target_col _get_n_top
       _make_subplots mi_regression_1 random_state X target_col types0
     = Ok (Some r) ->
     let n_axes :=
       _make_subplots (_get_n_top (scored_features r) "categorical") in
     map (@panel_axis score) (panels r) ++ axes_off r = seq 0 n_axes /\
     length (panels r) = Nat.min (length (selected r)) n_axes) /\
  (forall kind r,
     plot_classification_categorical argsort _check_X_target_col _get_n_top
       _make_subplots mi_classif_1 X target_col types0 kind
     = Ok (Some r) ->
     let n_axes :=
       _make_subplots (_get_n_top (scored_features r) "categorical") in
     map (@panel_axis score) (panels r) ++ axes_off r = seq 0 n_axes /\
     length (panels r) = Nat.min (length (selected r)) n_axes).
Proof.
  split; [|split].
  - intros r H. unfold plot_regression_continuous in H. inv_ok H.
    injection H as <-. cbn [panels scored_features selected axes_off].
    eapply axes_partition with (axis_of := @snd nat nat);
      [| |eassumption|eassumption].
    + intros [c ax] p Hp. cbn beta iota in Hp. inv_ok Hp.
      injection Hp as <-. reflexivity.
    + rewrite map_snd_zip. apply firstn_seq0.
  - intros r H. unfold plot_regression_categorical in H. inv_ok H.
    injection H as <-. cbn [panels scored_features selected axes_off].
    eapply axes_partition
      with (axis_of := fun it : nat * (nat * nat) => snd (snd it));
      [| |eassumption|eassumption].
    + intros [i [c ax]] p Hp. cbn beta iota in Hp. inv_ok Hp.
      injection Hp as <-. reflexivity.
    + rewrite <- (map_map snd snd), enumerate_snd, map_snd_zip.
      apply firstn_seq0.
  - intros kind r H. unfold plot_classification_categorical in H. inv_ok H.
    all: injection H as <-; cbn [panels scored_features selected axes_off].
    all: eapply axes_partition with (axis_of := @snd nat nat);
           [| |eassumption|eassumption].
    all: try (rewrite map_snd_zip; apply firstn_seq0).
    all: intros [c ax] p Hp; cbn beta iota in Hp; inv_ok Hp;
           injection Hp as <-; reflexivity.
Qed.

End PanelFacts.

Lemma iloc_columns_Forall2 (C : Type) (X : list (string * C))
    (idx : list nat) (best : list (string * C)) :
  iloc_columns X idx = Ok best ->
  Forall2 (fun c b => nth_error X c = Some b) idx best.
Proof.
  revert best. induction idx as [|i idx IH]; simpl; intros best H.
  - injection H as <-. constructor.
  - unfold Py.getitem in H. destruct (nth_error X i) as [c|] eqn:E;
      cbn [bind] in H; [|discriminate].
    inv_ok H. injection H as <-. constructor; auto.
Qed.

Lemma iloc_columns_ok (C : Type) (X : list (string * C)) (idx : list nat) :
  (forall i, In i idx -> i < length X) ->
  exists best, iloc_columns X idx = Ok best.
Proof.
  induction idx as [|i idx IH]; simpl; intros H; [eauto|].
  destruct (@getitem_ok _ X i) as [c Hc]; [apply H; now left|].
  destruct IH as [rest Hrest]; [intros; apply H; now right|].
  rewrite Hc, Hrest. cbn [bind]. eauto.
Qed.

Lemma nth_error_zip_l (A B : Type) (l1 : list A) (l2 : list B) (i : nat)
    (a : A) (b : B) :
  nth_error (Py.zip l1 l2) i = Some (a, b) -> nth_error l1 i = Some a.
Proof.
  unfold Py.zip. revert l2 i.
  induction l1 as [|x l1 IH]; intros [|y l2] [|i]; simpl; try discriminate.
  - now intros [= -> _].
  - apply IH.
Qed.

Lemma Forall2_nth_error_l (A B : Type) (R : A -> B -> Prop) (l : list A)
    (l' : list B) (i : nat) (a : A) :
  Forall2 R l l' -> nth_error l i = Some a ->
  exists b, nth_error l' i = Some b /\ R a b.
Proof.
  intros H. revert i. induction H as [|x y l l' Hxy H IH]; intros [|i];
    simpl; try discriminate.
  - intros [= ->]. eauto.
  - apply IH.
Qed.

Section HistogramFacts.
Variable score : Type.
Variable argsort : list score -> list nat.
Variable _check_X_target_col :
  dataframe -> string -> option types_frame -> option string ->
  result types_frame.
Variable _get_n_top : dataframe -> string -> Z.
Variable _make_subplots : Z -> nat.
Variable impute_column : column -> column.
Variable f_classif_1 : column -> column -> score.

(** The class histograms of [plot_classification_continuous] read
    [best_features.columns[i]] at the loop counter, and [best_features]
    is the feature frame reordered by the ranking: the i-th histogram
    shows the column of the frame at the i-th position of the ranking
    under the score at that position. *)
Lemma plot_classification_continuous_histograms_by_position
    (X : dataframe) (target_col : string) (types0 : option types_frame)
    (plot_pairwise : bool) (top_k_interactions : Z) (r : ranked score)
    (candidates : option (list nat)) :
  plot_classification_continuous argsort _check_X_target_col _get_n_top
    _make_subplots impute_column f_classif_1 X target_col types0
    "histogram" plot_pairwise top_k_interactions
  = Ok (Some (Univariate r candidates)) ->
  Forall2 (fun p c =>
             nth_error (columns (scored_features r)) c
             = Some (panel_column p) /\
             nth_error (scores r) c = panel_title p)
          (panels r) (firstn (length (panels r)) (selected r)).
Proof.
  unfold plot_classification_continuous. intros H.
  cbn [String.eqb Ascii.eqb Bool.eqb] in H.
  destruct (_check_X_target_col X target_col types0 (Some "classification"))
    as [types|]; cbn [bind] in H; [|discriminate].
  destruct (select_features continuous X target_col types) as [features|];
    cbn [bind] in H; [|discriminate].
  destruct (Nat.eqb (shape1 features) 0); [discriminate|].
  destruct (getitem X target_col) as [target|]; cbn [bind] in H;
    [|discriminate].
  destruct (Nat.leb (shape1 features) 5); [discriminate|].
  set (f := f_classif f_classif_1
              (SimpleImputer_fit_transform impute_column features) target)
    in *.
  set (top := top_k argsort f (_get_n_top features "continuous")) in *.
  destruct (iloc_columns features top) as [best|] eqn:Hbest;
    cbn [bind] in H; [|discriminate].
  apply iloc_columns_Forall2 in Hbest.
  destruct (map_result _ _) as [drawn|] eqn:Hd; cbn [bind] in H;
    [|discriminate].
  destruct (remaining_axes _ _) as [off|]; cbn [bind] in H; [|discriminate].
  assert (Hr : r = {| scored_features := features; scores := f;
                      selected := top; panels := drawn; axes_off := off |}).
  { destruct (negb plot_pairwise); injection H as <-; reflexivity. }
  subst r. cbn [panels scored_features selected scores].
  apply map_result_Forall2 in Hd.
  apply Forall2_zip_rank
    with (Q := fun c p =>
                 nth_error (columns features) c = Some (panel_column p) /\
                 nth_error f c = panel_title p)
         (axes := seq 0 (_make_subplots (_get_n_top features "continuous"))).
  eapply Forall2_enumerate; [|exact Hd].
  intros i [ind ax] p Hz Hp. cbn beta iota in Hp. cbn [fst].
  apply nth_error_zip_l in Hz.
  destruct (Forall2_nth_error_l _ Hbest Hz) as (b & Hb & Hfeat).
  unfold Py.getitem in Hp.
  assert (Hcol : nth_error (columns best ++ [target_col]) i = Some (fst b)).
  { rewrite nth_error_app1.
    - unfold columns. rewrite nth_error_map, Hb. reflexivity.
    - unfold columns. rewrite length_map.
      apply nth_error_Some. congruence. }
  rewrite Hcol in Hp. cbn [bind] in Hp.
  destruct (nth_error f ind) as [fc|]; cbn [bind] in Hp; [|discriminate].
  injection Hp as <-. cbn. split; [|reflexivity].
  unfold columns. rewrite nth_error_map, Hfeat. reflexivity.
Qed.

(** X7.  When every continuous feature has an observed value, the i-th
    class histogram of [plot_classification_continuous] shows the i-th
    ranked feature, and its title is the F score of that same feature
    against the target. *)
Theorem plot_classification_continuous_histograms_follow_ranking
    (X : dataframe) (target_col : string) (types0 : option types_frame)
    (plot_pairwise : bool) (top_k_interactions : Z) (r : ranked score)
    (candidates : option (list nat)) (target : column) :
  plot_classification_continuous argsort _check_X_target_col _get_n_top
    _make_subplots impute_column f_classif_1 X target_col types0
    "histogram" plot_pairwise top_k_interactions
  = Ok (Some (Univariate r candidates)) ->
  getitem X target_col = Ok target ->
  Forall (fun c => observed (snd c) = true) (scored_features r) ->
  Forall2 (fun p c =>
             exists col,
               nth_error (scored_features r) c = Some col /\
               panel_column p = fst col /\
               panel_title p
               = Some (f_classif_1 (impute_column (snd col)) target))
          (panels r) (firstn (length (panels r)) (selected r)).
Proof.
  intros H Ht Hobs.
  pose proof (plot_classification_continuous_histograms_by_position
                _ _ _ _ _ H) as Hpos.
  apply plot_classification_continuous_inv in H.
  destruct H as (types & target' & features & _ & _ & Ht' & Hf & Hscores).
  rewrite Ht in Ht'. injection Ht' as <-.
  refine (@panels_show_their_own_score _
            (fun x => f_classif_1 (impute_column x) target)
            _ _ _ _ _ Hpos).
  rewrite Hscores, <- Hf, (SimpleImputer_fit_transform_observed _ Hobs).
  unfold f_classif. now rewrite map_map.
Qed.

End HistogramFacts.

Lemma plot_regression_continuous_panels_follow_ranking_witness :
  exists r,
    plot_regression_continuous Sample.argsort Sample.check_types
      Sample.get_n_top Sample.make_subplots Sample.impute Sample.agreement
      Sample.X_reg "y" (Some Sample.types_reg)
    = Ok (Some r) /\
    Forall2 (fun p c =>
               exists col,
                 nth_error (scored_features r) c = Some col /\
                 panel_column p = fst col /\
                 panel_title p
                 = Some (Sample.agreement (Sample.impute (snd col))
                           (map Sample.num [1; 2; 3; 4]%Z)))
            (panels r) (firstn (length (panels r)) (selected r)).
Proof.
  eexists. split; [vm_compute; reflexivity|].
  eapply (@plot_regression_continuous_panels_follow_ranking Z Sample.argsort
            Sample.check_types Sample.get_n_top Sample.make_subplots
            Sample.impute Sample.agreement Sample.X_reg "y"
            (Some Sample.types_reg)).
  - vm_compute. reflexivity.
  - reflexivity.
  - repeat constructor.
Defined.

Lemma every_axis_filled_or_switched_off_witness :
  exists r,
    plot_regression_categorical Sample.argsort Sample.check_types
      Sample.get_n_top Sample.make_subplots Sample.noisy_agreement 0%Z
      Sample.X_cat "y" (Some Sample.types_cat_reg)
    = Ok (Some r) /\
    map (@panel_axis Z) (panels r) ++ axes_off r = [0; 1].
Proof.
  eexists. split; [vm_compute; reflexivity|].
  apply (proj1 (proj1 (proj2 (@every_axis_filled_or_switched_off Z
           Sample.argsort Sample.check_types Sample.get_n_top
           Sample.make_subplots Sample.impute Sample.agreement
           Z Sample.noisy_agreement Sample.code_agreement 0%Z
           Sample.X_cat "y" (Some Sample.types_cat_reg))) _ eq_refl)).
Defined.

(** X6.  In [plot_classification_categorical] the i-th panel shows the
    i-th ranked categorical feature: the loop reads
    [features.columns[col_ind]]. *)
Theorem classification_panels_show_ranked_columns
    (score : Type) (argsort : list score -> list nat)
    (_check_X_target_col :
       dataframe -> string -> option types_frame -> option string ->
       result types_frame)
    (_get_n_top : dataframe -> string -> Z) (_make_subplots : Z -> nat)
    (mi_classif_1 : list Z -> column -> bool -> score)
    (X : dataframe) (target_col : string) (types0 : option types_frame)
    (kind : string) (r : ranked score) :
  plot_classification_categorical argsort _check_X_target_col _get_n_top
    _make_subplots mi_classif_1 X target_col types0 kind
  = Ok (Some r) ->
  Forall2 (fun p c =>
             nth_error (columns (scored_features r)) c
             = Some (panel_column p))
          (panels r) (firstn (length (panels r)) (selected r)).
Proof.
  apply plot_classification_categorical_panels_follow_ranking.
Qed.

Lemma classification_panels_show_ranked_columns_witness :
  exists r,
    plot_classification_categorical Sample.argsort Sample.check_types
      Sample.get_n_top Sample.make_subplots Sample.code_agreement
      Sample.X_cat "y" (Some Sample.types_cat_clf) "auto"
    = Ok (Some r) /\
    Forall2 (fun p c =>
               nth_error (columns (scored_features r)) c
               = Some (panel_column p))
            (panels r) (firstn (length (panels r)) (selected r)).
Proof.
  eexists. split; [vm_compute; reflexivity|].
  eapply (@classification_panels_show_ranked_columns Z
            Sample.argsort Sample.check_types Sample.get_n_top
            Sample.make_subplots Sample.code_agreement Sample.X_cat "y"
            (Some Sample.types_cat_clf) "auto").
  vm_compute. reflexivity.
Defined.

Lemma plot_classification_continuous_histograms_follow_ranking_witness :
  exists r candidates,
    plot_classification_continuous Sample.argsort Sample.check_types
      Sample.get_n_top Sample.make_subplots Sample.impute Sample.agreement
      Sample.X_wide "y" (Some Sample.types_wide) "histogram" true 10
    = Ok (Some (Univariate r candidates)) /\
    selected r = [3; 2; 4; 1; 5; 0] /\
    Forall2 (fun p c =>
               exists col,
                 nth_error (scored_features r) c = Some col /\
                 panel_column p = fst col /\
                 panel_title p
                 = Some (Sample.agreement (Sample.impute (snd col))
                           (map Sample.num [0; 1; 1; 1]%Z)))
            (panels r) (firstn (length (panels r)) (selected r)).
Proof.
  do 2 eexists. split; [vm_compute; reflexivity|].
  split; [reflexivity|].
  eapply (@plot_classification_continuous_histograms_follow_ranking Z
            Sample.argsort Sample.check_types Sample.get_n_top
            Sample.make_subplots Sample.impute Sample.agreement
            Sample.X_wide "y" (Some Sample.types_wide) true 10).
  - vm_compute. reflexivity.
  - reflexivity.
  - repeat constructor.
Defined.

(** ** Options that are not recognised *)

Section UnknownOptions.
Variable score : Type.
Variable sleb : score -> score -> bool.
Variable argsort : list score -> list nat.
Variable _check_X_target_col :
  dataframe -> string -> option types_frame -> option string ->
  result types_frame.
Variable _get_n_top : dataframe -> string -> Z.
Variable _make_subplots : Z -> nat.
Variable impute_column : column -> column.
Variable f_classif_1 : column -> column -> score.
Variable mi_classif_1 : list Z -> column -> bool -> score.

(** X8.  [plot_classification_continuous] looks at [univariate_plot]
    only when there are more than five continuous features: a value
    other than 'kde' and 'histogram' is then a [ValueError], and with at
    most five features it goes unnoticed and the pair plot is drawn. *)
Theorem unknown_univariate_plot (X : dataframe) (target_col : string)
    (types0 : option types_frame) (types : types_frame)
    (features : dataframe) (target : column) (univariate_plot : string)
    (plot_pairwise : bool) (top_k_interactions : Z) :
  _check_X_target_col X target_col types0 (Some "classification")
  = Ok types ->
  select_features continuous X target_col types = Ok features ->
  getitem X target_col = Ok target ->
  univariate_plot <> "kde" -> univariate_plot <> "histogram" ->
  let run :=
    plot_classification_continuous argsort _check_X_target_col _get_n_top
      _make_subplots impute_column f_classif_1 X target_col types0
      univariate_plot plot_pairwise top_k_interactions in
  (1 <= shape1 features <= 5 -> run = Ok (Some (Pairplot features))) /\
  (5 < shape1 features -> argsort_spec sleb argsort ->
   run = Raise (ValueError "Unknown value for univariate_plot: ")).
Proof.
  intros Hc Hs Ht Hkde Hhist run. unfold run, plot_classification_continuous.
  rewrite Hc. cbn [bind]. rewrite Hs. cbn [bind]. rewrite Ht. cbn [bind].
  split.
  - intros [Hlo Hhi].
    destruct (Nat.eqb_spec (shape1 features) 0); [lia|].
    destruct (Nat.leb_spec (shape1 features) 5); [reflexivity | lia].
  - intros Hn Hsort.
    destruct (Nat.eqb_spec (shape1 features) 0); [lia|].
    destruct (Nat.leb_spec (shape1 features) 5); [lia|].
    match goal with
    | |- context [iloc_columns features ?top] =>
        destruct (@iloc_columns_ok _ features top) as [best Hbest]
    end.
    { intros i Hi. apply (top_k_in_range Hsort) in Hi.
      unfold f_classif in Hi.
      rewrite length_map, SimpleImputer_fit_transform_length in Hi.
      pose proof (filter_length_le observed (map snd features)) as Hle.
      rewrite length_map in Hle. lia. }
    rewrite Hbest. cbn [bind].
    destruct (String.eqb_spec univariate_plot "kde"); [contradiction|].
    destruct (String.eqb_spec univariate_plot "histogram"); [contradiction|].
    reflexivity.
Qed.

(** X9.  [plot_classification_categorical] checks the plot kind inside
    the loop over the panels: an unknown kind is a [ValueError] as soon
    as there is a categorical feature to draw, and goes unnoticed when
    there is none. *)
Theorem unknown_plot_kind (X : dataframe) (target_col : string)
    (types0 : option types_frame) (types : types_frame)
    (features : dataframe) (target : column) (kind : string) :
  _check_X_target_col X target_col types0 (Some "classification")
  = Ok types ->
  select_features categorical X target_col types = Ok features ->
  getitem X target_col = Ok target ->
  kind <> "auto" -> kind <> "proportion" -> kind <> "mosaic" ->
  kind <> "count" ->
  let run :=
    plot_classification_categorical argsort _check_X_target_col _get_n_top
      _make_subplots mi_classif_1 X target_col types0 kind in
  (shape1 features = 0 -> run = Ok None) /\
  (1 <= shape1 features -> argsort_spec sleb argsort ->
   (0 < _get_n_top features "categorical")%Z ->
   0 < _make_subplots (_get_n_top features "categorical") ->
   exists msg, run = Raise (ValueError msg)).
Proof.
  intros Hc Hs Ht Hauto Hprop Hmos Hcount run.
  unfold run, plot_classification_categorical.
  rewrite Hc. cbn [bind].
  destruct (String.eqb_spec kind "auto"); [contradiction|]. cbn [bind].
  rewrite Hs. cbn [bind]. split.
  - intros ->. reflexivity.
  - intros Hn Hsort Htop Hax.
    destruct (Nat.eqb_spec (shape1 features) 0); [lia|].
    rewrite Ht. cbn [bind].
    set (f := mutual_info_classif mi_classif_1 (apply cat_codes features)
                target (repeat true (shape1 X))).
    assert (Hf : length f = shape1 features).
    { unfold f. rewrite mutual_info_classif_length, apply_shape,
        repeat_length.
      apply select_features_length in Hs. lia. }
    set (top := top_k argsort f (_get_n_top features "categorical")).
    assert (Hlen : length top
                   = Z.to_nat (Z.min (_get_n_top features "categorical")
                                     (Z.of_nat (length f)))).
    { apply (top_k_length Hsort). assumption. }
    destruct top as [|c top'] eqn:Etop; [simpl in Hlen; lia|].
    assert (Hc0 : c < length f).
    { apply (top_k_in_range Hsort) with
        (show_top := _get_n_top features "categorical").
      fold top. rewrite Etop. now left. }
    destruct (_make_subplots (_get_n_top features "categorical"))
      as [|n_axes]; [lia|].
    cbn [seq Py.zip combine map_result].
    destruct (@getitem_ok _ (columns features) c) as [col Hcol].
    { unfold columns. rewrite length_map. unfold shape1 in Hf. lia. }
    rewrite Hcol. cbn [bind].
    destruct (String.eqb_spec kind "proportion"); [contradiction|].
    destruct (String.eqb_spec kind "mosaic"); [contradiction|].
    destruct (String.eqb_spec kind "count"); [contradiction|].
    eexists. reflexivity.
Qed.

End UnknownOptions.

Lemma unknown_univariate_plot_witness :
  plot_classification_continuous Sample.argsort Sample.check_types
    Sample.get_n_top Sample.make_subplots Sample.impute Sample.agreement
    Sample.X_wide "y" (Some Sample.types_wide) "violin" true 10
  = Raise (ValueError "Unknown value for univariate_plot: ") /\
  plot_classification_continuous Sample.argsort Sample.check_types
    Sample.get_n_top Sample.make_subplots Sample.impute Sample.agreement
    Sample.X_reg "y" (Some Sample.types_reg) "violin" true 10
  = Ok (Some (Pairplot (firstn 2 Sample.X_reg))).
Proof.
  split.
  - apply (proj2 (@unknown_univariate_plot Z Z.leb Sample.argsort
                    Sample.check_types Sample.get_n_top Sample.make_subplots
                    Sample.impute Sample.agreement Sample.X_wide "y"
                    (Some Sample.types_wide) Sample.types_wide
                    (firstn 6 Sample.X_wide) (map Sample.num [0; 1; 1; 1]%Z)
                    "violin" true 10 eq_refl eq_refl eq_refl
                    ltac:(discriminate) ltac:(discriminate))).
    + vm_compute. lia.
    + exact sample_argsort_spec.
  - apply (proj1 (@unknown_univariate_plot Z Z.leb Sample.argsort
                    Sample.check_types Sample.get_n_top Sample.make_subplots
                    Sample.impute Sample.agreement Sample.X_reg "y"
                    (Some Sample.types_reg) Sample.types_reg
                    (firstn 2 Sample.X_reg) (map Sample.num [1; 2; 3; 4]%Z)
                    "violin" true 10 eq_refl eq_refl eq_refl
                    ltac:(discriminate) ltac:(discriminate))).
    vm_compute. lia.
Defined.

Lemma unknown_plot_kind_witness :
  exists msg,
  plot_classification_categorical Sample.argsort Sample.check_types
    Sample.get_n_top Sample.make_subplots Sample.code_agreement
    Sample.X_cat "y" (Some Sample.types_cat_clf) "pie"
  = Raise (ValueError msg).
Proof.
  apply (proj2 (@unknown_plot_kind Z Z.leb Sample.argsort
                  Sample.check_types Sample.get_n_top Sample.make_subplots
                  Sample.code_agreement Sample.X_cat "y"
                  (Some Sample.types_cat_clf) Sample.types_cat_clf
                  (firstn 2 Sample.X_cat) (map Sample.num [0; 1; 0; 1]%Z)
                  "pie" eq_refl eq_refl eq_refl
                  ltac:(discriminate) ltac:(discriminate)
                  ltac:(discriminate) ltac:(discriminate))).
  - vm_compute. lia.
  - exact sample_argsort_spec.
  - vm_compute. reflexivity.
  - vm_compute. lia.
Defined.

(** ** The budget of the ranking *)

(** [np.argsort(f)[-show_top:][::-1]] keeps every position when the
    budget is at least their number, and also when the budget is zero,
    since [a[-0:]] is the whole array. *)
Lemma top_k_keeps_every_feature
    (score : Type) (sleb : score -> score -> bool)
    (argsort : list score -> list nat) (f : list score) (show_top : Z) :
  argsort_spec sleb argsort ->
  (show_top = 0 \/ Z.of_nat (length f) <= show_top)%Z ->
  Permutation (top_k argsort f show_top) (seq 0 (length f)) /\
  length (top_k argsort f show_top) = length f.
Proof.
  intros Hsort Hk.
  assert (E : top_k argsort f show_top = rev (argsort f)).
  { unfold top_k, Py.reversed, Py.slice_from. f_equal.
    rewrite (argsort_length Hsort).
    replace (Z.to_nat _) with 0; [reflexivity|].
    destruct (Z.ltb_spec (- show_top) 0); lia. }
  rewrite E. split.
  - rewrite <- Permutation_rev. apply (argsort_perm Hsort).
  - rewrite length_rev. apply (argsort_length Hsort).
Qed.

Example top_k_zero_budget :
  top_k Sample.argsort [5; 1; 7]%Z 0 = [2; 0; 1].
Proof. reflexivity. Qed.

Section InteractionCandidates.
Variable score : Type.
Variable sleb : score -> score -> bool.
Variable argsort : list score -> list nat.
Variable _check_X_target_col :
  dataframe -> string -> option types_frame -> option string ->
  result types_frame.
Variable _get_n_top : dataframe -> string -> Z.
Variable _make_subplots : Z -> nat.
Variable impute_column : column -> column.
Variable f_classif_1 : column -> column -> score.

(** The interaction search gets [np.argsort(f)[-top_k_interactions:][::-1]],
    and only when [plot_pairwise] is set. *)
Lemma plot_classification_continuous_candidates (X : dataframe)
    (target_col : string) (types0 : option types_frame)
    (univariate_plot : string) (plot_pairwise : bool)
    (top_k_interactions : Z) (r : ranked score)
    (candidates : option (list nat)) :
  plot_classification_continuous argsort _check_X_target_col _get_n_top
    _make_subplots impute_column f_classif_1 X target_col types0
    univariate_plot plot_pairwise top_k_interactions
  = Ok (Some (Univariate r candidates)) ->
  candidates
  = if plot_pairwise
    then Some (top_k argsort (scores r) top_k_interactions)
    else None.
Proof.
  unfold plot_classification_continuous. intros H. inv_ok H.
  all: try discriminate H.
  all: injection H as <- <-.
  all: match goal with
       | E : negb ?pp = _ |- _ => destruct pp; try discriminate E
       end.
  all: try reflexivity.
  all: match goal with
       | E : _ = Ok ?a |- context [scores ?a] =>
           inv_ok E; injection E as <-
       end.
  all: reflexivity.
Qed.

(** X10.  With [plot_pairwise], [plot_classification_continuous] hands the
    interaction search positions of the scored matrix chosen by
    [top_k_interactions], whatever [_get_n_top] answered for the
    univariate plots: distinct positions, [min(top_k_interactions, n)]
    of them for a positive budget, and every position when the budget
    is at least [n] and also when it is 0, since [a[-0:]] is the whole
    array. *)
Theorem interaction_search_candidates (X : dataframe)
    (target_col : string) (types0 : option types_frame)
    (univariate_plot : string) (top_k_interactions : Z) (r : ranked score)
    (candidates : option (list nat)) :
  argsort_spec sleb argsort ->
  plot_classification_continuous argsort _check_X_target_col _get_n_top
    _make_subplots impute_column f_classif_1 X target_col types0
    univariate_plot true top_k_interactions
  = Ok (Some (Univariate r candidates)) ->
  exists cands,
    candidates = Some cands /\
    NoDup cands /\
    (forall i, In i cands -> i < length (scores r)) /\
    ((0 < top_k_interactions)%Z ->
     length cands
     = Z.to_nat (Z.min top_k_interactions (Z.of_nat (length (scores r))))) /\
    ((top_k_interactions = 0
      \/ Z.of_nat (length (scores r)) <= top_k_interactions)%Z ->
     Permutation cands (seq 0 (length (scores r)))).
Proof.
  intros Hsort H. apply plot_classification_continuous_candidates in H.
  eexists. split; [exact H|].
  split; [apply (top_k_NoDup Hsort)|].
  split; [intros i; apply (top_k_in_range Hsort)|].
  split.
  - intros Hk. now apply (top_k_length Hsort).
  - intros Hk.
    apply (@top_k_keeps_every_feature _ sleb argsort (scores r)
             top_k_interactions Hsort Hk).
Qed.

End InteractionCandidates.

Lemma interaction_search_candidates_witness :
  exists r cands,
    plot_classification_continuous Sample.argsort Sample.check_types
      Sample.get_n_top Sample.make_subplots Sample.impute Sample.agreement
      Sample.X_wide "y" (Some Sample.types_wide) "histogram" true 0
    = Ok (Some (Univariate r (Some cands))) /\
    Permutation cands (seq 0 6).
Proof.
  do 2 eexists. split; [vm_compute; reflexivity|].
  destruct (@interaction_search_candidates Z Z.leb Sample.argsort
              Sample.check_types Sample.get_n_top Sample.make_subplots
              Sample.impute Sample.agreement Sample.X_wide "y"
              (Some Sample.types_wide) "histogram" 0 _ _
              sample_argsort_spec eq_refl)
    as (cands & Hc & _ & _ & _ & Hall).
  injection Hc as <-. apply Hall. left. reflexivity.
Defined.

(** X11.  The features the ranking leaves out score no higher than the
    ones it keeps. *)
Theorem top_k_keeps_the_highest
    (score : Type) (sleb : score -> score -> bool)
    (argsort : list score -> list nat) (f : list score) (show_top : Z)
    (i j : nat) :
  argsort_spec sleb argsort ->
  i < length f -> ~ In i (top_k argsort f show_top) ->
  In j (top_k argsort f show_top) ->
  ascending_at sleb f i j.
Proof.
  intros Hsort. now apply top_k_dominates.
Qed.

Lemma top_k_keeps_the_highest_witness :
  ascending_at Z.leb [5; 1; 7]%Z 1 0.
Proof.
  apply (@top_k_keeps_the_highest Z Z.leb Sample.argsort [5; 1; 7]%Z 2 1 0).
  - exact sample_argsort_spec.
  - simpl. lia.
  - vm_compute. intros [H|[H|[]]]; discriminate H.
  - vm_compute. tauto.
Defined.

(** ** The type table after [plot] has resolved it *)

Lemma getitem_missing (X : dataframe) (name : string) :
  ~ In name (columns X) -> getitem X name = Raise (KeyError name).
Proof.
  intros H. unfold getitem.
  destruct (find (fun c => String.eqb (fst c) name) X) as [c|] eqn:E;
    [|reflexivity].
  apply find_some in E. destruct E as [Hin Heq].
  apply String.eqb_eq in Heq. exfalso. apply H. rewrite <- Heq.
  unfold columns. now apply in_map.
Qed.

Lemma getitem_error (X : dataframe) (name : string) (e : exn) :
  getitem X name = Raise e -> e = KeyError name /\ ~ In name (columns X).
Proof.
  unfold getitem.
  destruct (find (fun c => String.eqb (fst c) name) X) as [c|] eqn:E;
    [discriminate|].
  intros [= <-]. split; [reflexivity|].
  intros Hin. unfold columns in Hin. apply in_map_iff in Hin.
  destruct Hin as (c & Hc & Hin). apply (find_none _ _ E) in Hin.
  rewrite Hc, String.eqb_refl in Hin. discriminate.
Qed.

Section ResolvedTypes.
Variable guess_ordinal : column -> bool.

Lemma retype_low_card_int_cases (X : dataframe) (cols : list string) :
  forall types,
    (exists types',
       retype_low_card_int guess_ordinal X cols types = Ok types' /\
       forall col, In col cols -> exists x, getitem X col = Ok x) \/
    (exists col,
       retype_low_card_int guess_ordinal X cols types = Raise (KeyError col) /\
       In col cols /\ ~ In col (columns X)).
Proof.
  induction cols as [|col cols IH]; intros types.
  - left. exists types. split; [reflexivity | intros col []].
  - cbn [retype_low_card_int].
    destruct (getitem X col) as [x|e] eqn:E; cbn [bind].
    + match goal with
      | |- context [retype_low_card_int _ _ _ ?t] => destruct (IH t)
          as [(types' & Hok & Hall)|(c & Herr & Hin & Hout)]
      end.
      * left. exists types'. split; [assumption|].
        intros c [<-|Hc]; eauto.
      * right. exists c. split; [assumption|]. split; [now right | assumption].
    + right. exists col. apply getitem_error in E. destruct E as [-> Hout].
      split; [reflexivity|]. split; [now left | assumption].
Qed.

(** A successful resolution is a map over the rows of the table. *)
Lemma resolve_low_card_int_map (X : dataframe) (types types' : types_frame) :
  resolve_low_card_int guess_ordinal X types = Ok types' ->
  (forall col, In col (index_where low_card_int types) ->
               exists x, getitem X col = Ok x) /\
  types'
  = map (fun r => if existsb (String.eqb (fst r))
                       (index_where low_card_int types)
                  then retype_row guess_ordinal X r else r) types.
Proof.
  unfold resolve_low_card_int.
  destruct (existsb (fun r => low_card_int (snd r)) types) eqn:Eany.
  - intros H.
    destruct (retype_low_card_int_cases X (index_where low_card_int types)
                types) as [(t & Hok & Hall)|(c & Herr & _)];
      [|congruence].
    split; [assumption|].
    rewrite (retype_low_card_int_map guess_ordinal X _ Hall) in H.
    now injection H as <-.
  - intros [= <-].
    assert (Hnil : index_where low_card_int types = []).
    { unfold index_where.
      replace (filter (fun r => low_card_int (snd r)) types) with
        (@nil (string * type_row)); [reflexivity|].
      symmetry. induction types as [|r types IH]; [reflexivity|].
      simpl in *. apply orb_false_iff in Eany. destruct Eany as [-> Hrest].
      now apply IH. }
    rewrite Hnil. split; [intros col []|].
    simpl. now rewrite map_id.
Qed.

(** X12.  When [plot] has resolved the low-cardinality integers, the
    table has the same labels in the same order, no row is a
    low-cardinality integer, a row whose label no low-cardinality
    integer row carries is as it was, and resolving again changes
    nothing. *)
Theorem resolve_low_card_int_result (X : dataframe)
    (types types' : types_frame) :
  resolve_low_card_int guess_ordinal X types = Ok types' ->
  columns types' = columns types /\
  (forall r', In r' types' -> low_card_int (snd r') = false) /\
  Forall2 (fun r r' =>
             (forall r2, In r2 types -> low_card_int (snd r2) = true ->
                         fst r2 <> fst r) ->
             r' = r)
          types types' /\
  resolve_low_card_int guess_ordinal X types' = Ok types'.
Proof.
  intros H. apply resolve_low_card_int_map in H. destruct H as [Hall ->].
  set (cols := index_where low_card_int types) in *.
  set (g := fun r : string * type_row =>
              if existsb (String.eqb (fst r)) cols
              then retype_row guess_ordinal X r else r).
  assert (Hlabel : forall r, fst (g r) = fst r).
  { intros r. unfold g.
    destruct (existsb _ cols); [apply retype_row_label | reflexivity]. }
  assert (Hnone : forall r, In r types -> low_card_int (snd (g r)) = false).
  { intros r Hin. unfold g.
    destruct (existsb (String.eqb (fst r)) cols) eqn:Ex.
    - apply existsb_exists in Ex. destruct Ex as (col & Hcol & Heq).
      apply String.eqb_eq in Heq. subst col.
      destruct (Hall _ Hcol) as [x Hx]. unfold retype_row. rewrite Hx.
      cbn [snd]. destruct (guess_ordinal x); reflexivity.
    - destruct (low_card_int (snd r)) eqn:Hk; [|reflexivity].
      pose proof (index_where_In low_card_int types r Hin Hk) as Hex.
      fold cols in Hex. congruence. }
  split; [|split; [|split]].
  - unfold columns. rewrite map_map. apply map_ext. exact Hlabel.
  - intros r' Hin. apply in_map_iff in Hin. destruct Hin as (r & <- & Hin).
    now apply Hnone.
  - apply Forall2_map_self. intros r Hin Hfree. unfold g.
    destruct (existsb (String.eqb (fst r)) cols) eqn:Ex; [|reflexivity].
    apply existsb_exists in Ex. destruct Ex as (col & Hcol & Heq).
    apply String.eqb_eq in Heq. subst col.
    apply index_where_columns in Hcol. destruct Hcol as (row & Hin2 & Hk).
    exfalso. apply (Hfree (fst r, row) Hin2 Hk). reflexivity.
  - unfold resolve_low_card_int.
    replace (existsb (fun r => low_card_int (snd r)) (map g types))
      with false; [reflexivity|].
    symmetry. apply not_true_is_false. intros Hex.
    apply existsb_exists in Hex. destruct Hex as (r' & Hin & Hk).
    apply in_map_iff in Hin. destruct Hin as (r & <- & Hin).
    rewrite (Hnone r Hin) in Hk. discriminate.
Qed.

(** X13.  A type table that names a low-cardinality integer column the
    frame does not have ends the resolution with a [KeyError] for such
    a column. *)
Theorem resolve_low_card_int_stale_types (X : dataframe)
    (types : types_frame) (r : string * type_row) :
  In r types -> low_card_int (snd r) = true -> ~ In (fst r) (columns X) ->
  exists col,
    resolve_low_card_int guess_ordinal X types = Raise (KeyError col) /\
    In col (index_where low_card_int types) /\ ~ In col (columns X).
Proof.
  intros Hin Hk Hout. unfold resolve_low_card_int.
  assert (Hany : existsb (fun r => low_card_int (snd r)) types = true).
  { apply existsb_exists. eauto. }
  rewrite Hany.
  destruct (retype_low_card_int_cases X (index_where low_card_int types)
              types) as [(t & Hok & Hall)|(c & Herr & Hc & Hcout)].
  - exfalso. destruct (Hall (fst r)) as [x Hx].
    { unfold index_where. apply in_map. apply filter_In. auto. }
    rewrite (@getitem_missing X (fst r) Hout) in Hx. discriminate.
  - exists c. auto.
Qed.

End ResolvedTypes.

Lemma resolve_low_card_int_result_witness :
  columns [ ("n", Sample.is_continuous); ("c", Sample.is_categorical);
            ("y", Sample.is_continuous) ]
  = columns Sample.types_low.
Proof.
  apply (proj1 (@resolve_low_card_int_result Sample.guess_ordinal
                  Sample.X_low Sample.types_low _ eq_refl)).
Defined.

Lemma resolve_low_card_int_stale_types_witness :
  exists col,
    resolve_low_card_int Sample.guess_ordinal Sample.X_reg Sample.types_low
    = Raise (KeyError col) /\
    In col (index_where low_card_int Sample.types_low) /\
    ~ In col (columns Sample.X_reg).
Proof.
  apply (@resolve_low_card_int_stale_types Sample.guess_ordinal Sample.X_reg
           Sample.types_low ("n", Sample.is_low_card_int)).
  - simpl. tauto.
  - reflexivity.
  - simpl. intros [H|[H|[H|[]]]]; discriminate H.
Defined.

Lemma find_kind_series_map (kind : type_row -> bool)
    (g : string * type_row -> string * type_row) (types : types_frame)
    (name : string) :
  (forall r, fst (g r) = fst r) ->
  find (fun c => String.eqb (fst c) name) (kind_series kind (map g types))
  = match find (fun r => String.eqb (fst r) name) types with
    | Some r => Some (fst r, kind (snd (g r)))
    | None => None
    end.
Proof.
  intros Hg. unfold kind_series.
  induction types as [|r types IH]; simpl; [reflexivity|].
  rewrite Hg. destruct (String.eqb (fst r) name); [reflexivity | assumption].
Qed.

(** X14.  For a target that is a low-cardinality integer, [plot] takes
    the task for a regression exactly when [guess_ordinal] takes the
    target for ordinal, and for a classification otherwise. *)
Theorem plot_task_of_low_card_int_target
    (score : Type) (argsort : list score -> list nat)
    (_check_X_target_col :
       dataframe -> string -> option types_frame -> option string ->
       result types_frame)
    (_get_n_top : dataframe -> string -> Z) (_make_subplots : Z -> nat)
    (impute_column : column -> column)
    (f_regression_1 f_classif_1 : column -> column -> score)
    (RandomState : Type)
    (mi_regression_1 : RandomState -> list Z -> column -> bool -> score)
    (mi_classif_1 : list Z -> column -> bool -> score)
    (clean : dataframe -> option (list (string * string)) ->
             dataframe * types_frame)
    (guess_ordinal : column -> bool) (random_state : RandomState)
    (X : dataframe) (target_col : string)
    (type_hints : option (list (string * string))) (plot_pairwise : bool)
    (Xc : dataframe) (types_c types : types_frame)
    (row : string * type_row) (x : column) (p : plotted score) :
  clean X type_hints = (Xc, types_c) ->
  _check_X_target_col Xc target_col (Some types_c) None = Ok types ->
  find (fun r => String.eqb (fst r) target_col) types = Some row ->
  low_card_int (snd row) = true ->
  continuous (snd row) = false ->
  getitem Xc target_col = Ok x ->
  plot argsort _check_X_target_col _get_n_top _make_subplots
    impute_column f_regression_1 f_classif_1 mi_regression_1
    mi_classif_1 clean guess_ordinal random_state X target_col type_hints
    plot_pairwise
  = Ok p ->
  match plotted_figures p with
  | Regression _ _ => guess_ordinal x = true
  | Classification _ _ => guess_ordinal x = false
  end.
Proof.
  intros Hclean Hcheck Hfind Hlow Hcont Hx H.
  unfold plot in H. rewrite Hclean, Hcheck in H. cbn [bind] in H.
  destruct (resolve_low_card_int guess_ordinal Xc types) as [types'|] eqn:Hres;
    cbn [bind] in H; [|discriminate].
  apply resolve_low_card_int_map in Hres. destruct Hres as [_ ->].
  rewrite find_kind_series_map in H.
  2:{ intros r. destruct (existsb _ _);
        [apply retype_row_label | reflexivity]. }
  rewrite Hfind in H. cbn [bind snd] in H.
  pose proof (find_some _ _ Hfind) as [Hin Heq].
  apply String.eqb_eq in Heq.
  rewrite (index_where_In low_card_int types row Hin Hlow) in H.
  unfold retype_row in H. rewrite Heq, Hx in H. cbn [snd] in H.
  destruct (guess_ordinal x); cbn in H; rewrite ?Hcont in H.
  - inv_ok H. injection H as <-. reflexivity.
  - inv_ok H. injection H as <-. reflexivity.
Qed.

Lemma plot_task_of_low_card_int_target_witness :
  exists p,
    plot Sample.argsort Sample.check_types Sample.get_n_top
      Sample.make_subplots Sample.impute Sample.agreement Sample.agreement
      Sample.noisy_agreement Sample.code_agreement Sample.clean_rating
      Sample.guess_ordinal 0%Z Sample.X_rating "y" None true
    = Ok p /\
    match plotted_figures p with
    | Regression _ _ =>
        Sample.guess_ordinal (map Sample.num [1; 2; 3; 1]%Z) = true
    | Classification _ _ =>
        Sample.guess_ordinal (map Sample.num [1; 2; 3; 1]%Z) = false
    end.
Proof.
  eexists. split; [vm_compute; reflexivity|].
  eapply (@plot_task_of_low_card_int_target Z Sample.argsort
            Sample.check_types Sample.get_n_top Sample.make_subplots
            Sample.impute Sample.agreement Sample.agreement
            Z Sample.noisy_agreement Sample.code_agreement
            Sample.clean_rating Sample.guess_ordinal 0%Z
            Sample.X_rating "y" None true
            Sample.X_rating Sample.types_rating Sample.types_rating
            ("y", Sample.is_low_card_int) (map Sample.num [1; 2; 3; 1]%Z));
    reflexivity.
Defined.

(** ** The output of [explain] *)

Section TraceFacts.
Variable score : Type.
Variable P : event score -> bool.

Lemma iobind_trace (A B : Type) (m : io score A) (k : A -> io score B) :
  forallb P (fst m) = true ->
  (forall a, forallb P (fst (k a)) = true) ->
  forallb P (fst (iobind m k)) = true.
Proof.
  destruct m as [t [a|e]]; simpl; intros Ht Hk; [|assumption].
  specialize (Hk a). destruct (k a) as [t' r]. simpl in *.
  now rewrite forallb_app, Ht, Hk.
Qed.

Lemma lift_trace (A : Type) (r : result A) :
  forallb P (fst (lift (score := score) r)) = true.
Proof.
  reflexivity.
Qed.

Lemma for_each_trace (A : Type) (body : A -> io score unit) (l : list A) :
  (forall a, forallb P (fst (body a)) = true) ->
  forallb P (fst (for_each body l)) = true.
Proof.
  intros Hb. induction l as [|a l IH]; [reflexivity|].
  cbn [for_each]. apply iobind_trace; auto.
Qed.

End TraceFacts.

Lemma for_each_emit (score A : Type) (h : A -> event score) (l : list A) :
  for_each (fun a => emit (h a)) l = (map h l, Ok tt).
Proof.
  induction l as [|a l IH]; [reflexivity|].
  cbn [for_each map]. rewrite IH. reflexivity.
Qed.

Section ExplainOutput.
Variable score : Type.
Variable sleb : score -> score -> bool.
Variable sneg : score -> score.
Variable _validate_Xyt :
  dataframe -> option column -> option string -> dataframe * column.
Variable has_plot_roc_curve : bool.
Variable find_pretty_grid : nat -> nat * nat.
Variable _make_subplots : nat -> nat.
Variable plot_partial_dependence :
  estimator score -> dataframe -> list string -> list string ->
  option value -> nat -> option exn.
Variable coef_importances : coef score -> list score.
Variable calculate_threshold : estimator score -> list score -> score.

(** The plots of the unwrapped estimator hold no classification metric
    and no partial dependence plot. *)
Lemma explain_inner_trace (est inner_estimator : estimator score)
    (feature_names : list string) (n_classes : nat) :
  forallb (@is_model_plot score)
          (fst (explain_inner _make_subplots est inner_estimator
                  feature_names n_classes))
  = true.
Proof.
  unfold explain_inner.
  assert (Hforest :
    forallb (@is_model_plot score)
      (fst (iobind (lift (getattr (@feature_importances_ score)
                            "feature_importances_" inner_estimator))
              (fun imp =>
               iobind (emit (Coefficients imp feature_names None))
                 (fun _ => emit (YLabel score "Imputity Decrease")))))
    = true).
  { apply iobind_trace; [apply lift_trace|]. intros imp. reflexivity. }
  assert (Hcoef : forall c : coef score,
    forallb (@is_model_plot score)
      (fst (if Nat.ltb 2 n_classes then
              iobind (lift (getattr (@classes_ score) "classes_"
                              inner_estimator))
                (fun classes =>
                 for_each (fun kc => emit (Coefficients (snd kc)
                                             feature_names (Some (fst kc))))
                          (firstn (_make_subplots n_classes)
                                  (Py.zip classes (atleast_2d c))))
            else
              match squeeze c with
              | Some v => emit (Coefficients v feature_names None)
              | None => throw (ValueError "Don't know how to handle multi-target regressor")
              end))
    = true).
  { intros c. destruct (Nat.ltb 2 n_classes).
    - apply iobind_trace; [apply lift_trace|]. intros classes.
      apply for_each_trace. intros kc. reflexivity.
    - destruct (squeeze c); reflexivity. }
  destruct inner_estimator as [a e|a e|a e|a steps|a|a|a];
    cbn [attrs_of];
    try (destruct (coef_ a) as [c|]; [apply Hcoef | first [exact Hforest | reflexivity]]).
  apply iobind_trace; [reflexivity|]. intros _.
  apply iobind_trace; [destruct (tree_depth a); reflexivity|]. intros _.
  apply iobind_trace; [apply lift_trace|]. intros class_names.
  apply iobind_trace; [reflexivity|]. intros _.
  apply iobind_trace; [apply lift_trace|]. intros imp. reflexivity.
Qed.

End ExplainOutput.

Lemma model_plots_hold_no_metrics (score : Type) (t : list (event score)) :
  forallb (@is_model_plot score) t = true ->
  existsb (@is_metrics score) t = false /\
  existsb (@is_partial_dependence score) t = false.
Proof.
  induction t as [|ev t IH]; simpl; [tauto|].
  unfold is_model_plot at 1. intros H.
  apply andb_true_iff in H. destruct H as [Hev Ht].
  apply negb_true_iff, orb_false_iff in Hev. destruct Hev as [-> ->].
  simpl. now apply IH.
Qed.

Lemma iobind_trace_exists (score A B : Type) (P : event score -> bool)
    (m : io score A) (k : A -> io score B) :
  existsb P (fst m) = true -> existsb P (fst (iobind m k)) = true.
Proof.
  destruct m as [t [a|e]]; simpl; intros Ht; [|assumption].
  destruct (k a) as [t' r]. simpl. now rewrite existsb_app, Ht.
Qed.

Lemma iobind_result (score A B : Type) (m : io score A)
    (k : A -> io score B) (b : B) :
  snd (iobind m k) = Ok b -> exists a, snd m = Ok a /\ snd (k a) = Ok b.
Proof.
  destruct m as [t [a|e]]; simpl; [|discriminate].
  destruct (k a) as [t' r] eqn:E. simpl. intros ->. exists a.
  now rewrite E.
Qed.

Lemma iobind_trace_result (score A B : Type) (P : event score -> bool)
    (m : io score A) (k : A -> io score B) :
  forallb P (fst m) = true ->
  (forall a, snd m = Ok a -> forallb P (fst (k a)) = true) ->
  forallb P (fst (iobind m k)) = true.
Proof.
  destruct m as [t [a|e]]; simpl; intros Ht Hk; [|assumption].
  specialize (Hk a eq_refl). destruct (k a) as [t' r]. simpl in *.
  now rewrite forallb_app, Ht, Hk.
Qed.

Section ExplainRuns.
Variable score : Type.
Variable sleb : score -> score -> bool.
Variable sneg : score -> score.
Variable _validate_Xyt :
  dataframe -> option column -> option string -> dataframe * column.
Variable has_plot_roc_curve : bool.
Variable find_pretty_grid : nat -> nat * nat.
Variable _make_subplots : nat -> nat.
Variable plot_partial_dependence :
  estimator score -> dataframe -> list string -> list string ->
  option value -> nat -> option exn.
Variable coef_importances : coef score -> list score.
Variable calculate_threshold : estimator score -> list score -> score.

(** X15.  Without validation data [explain] prints no classification
    metric and draws no ROC curve and no partial dependence plot,
    whatever the estimator is. *)
Theorem explain_without_validation_data (est : estimator score)
    (y_val : option column) (target_col : option string)
    (feature_names : option (list string)) :
  let trace :=
    fst (explain sleb sneg _validate_Xyt has_plot_roc_curve find_pretty_grid
           _make_subplots plot_partial_dependence coef_importances
           calculate_threshold est None y_val target_col feature_names) in
  existsb (@is_metrics score) trace = false /\
  existsb (@is_partial_dependence score) trace = false.
Proof.
  intros trace. apply model_plots_hold_no_metrics. unfold trace.
  unfold explain.
  apply iobind_trace_result.
  - unfold explain_head. apply iobind_trace.
    + destruct feature_names as [names|];
        [|destruct (feature_names_ (attrs_of est))]; reflexivity.
    + intros names. apply iobind_trace; [apply lift_trace|].
      intros [inner names']. apply iobind_trace; [reflexivity|]. intros _.
      apply iobind_trace; [apply explain_inner_trace|]. reflexivity.
  - intros [[[inner names'] n] validated] Hhead.
    assert (Hnone : validated = None).
    { unfold explain_head in Hhead.
      apply iobind_result in Hhead. destruct Hhead as (names & _ & Hhead).
      apply iobind_result in Hhead.
      destruct Hhead as ([inner0 names0] & _ & Hhead).
      apply iobind_result in Hhead. destruct Hhead as (u & _ & Hhead).
      apply iobind_result in Hhead. destruct Hhead as (u' & _ & Hhead).
      simpl in Hhead. now injection Hhead as _ _ _ <-. }
    subst validated. reflexivity.
Qed.

End ExplainRuns.

Section ExplainStages.
Variable score : Type.
Variable sleb : score -> score -> bool.
Variable sneg : score -> score.
Variable _validate_Xyt :
  dataframe -> option column -> option string -> dataframe * column.
Variable has_plot_roc_curve : bool.
Variable find_pretty_grid : nat -> nat * nat.
Variable _make_subplots : nat -> nat.
Variable plot_partial_dependence :
  estimator score -> dataframe -> list string -> list string ->
  option value -> nat -> option exn.
Variable coef_importances : coef score -> list score.
Variable calculate_threshold : estimator score -> list score -> score.

(** X16.  Once the estimator is unwrapped, [explain] prints the
    classification report and the confusion matrix exactly when it has
    validation data and the estimator has [classes_] with at least two
    classes. *)
Theorem classification_metrics_only_for_classifiers
    (est inner_estimator : estimator score) (X_val : option dataframe)
    (y_val : option column) (target_col : option string)
    (feature_names names : list string) :
  _extract_inner_estimator est feature_names = Ok (inner_estimator, names) ->
  let trace :=
    fst (explain_head _validate_Xyt has_plot_roc_curve _make_subplots est
           X_val y_val target_col (Some feature_names)) in
  existsb (@is_metrics score) trace = true <->
  (X_val <> None /\
   exists classes,
     classes_ (attrs_of est) = Some classes /\ 2 <= length classes).
Proof.
  intros Hext trace. unfold trace, explain_head.
  unfold ret at 1. rewrite iobind_ret_l.
  rewrite Hext. unfold lift. rewrite iobind_ret_l.
  assert (Hquiet : forall (n_classes : nat)
                          (validated : option (dataframe * column)),
    existsb (@is_metrics score)
      (fst (iobind (ret (score := score) tt) (fun _ =>
            iobind (explain_inner _make_subplots est inner_estimator names
                      n_classes)
              (fun _ => ret (inner_estimator, names, n_classes, validated)))))
    = false).
  { intros n v. apply model_plots_hold_no_metrics.
    apply iobind_trace; [reflexivity|]. intros _.
    apply iobind_trace; [apply explain_inner_trace | reflexivity]. }
  destruct X_val as [Xv|].
  - destruct (_validate_Xyt Xv y_val target_col) as [Xv' yv].
    destruct (classes_ (attrs_of est)) as [classes|] eqn:Hcl.
    + destruct (Nat.leb_spec 2 (length classes)) as [Hge|Hlt].
      * split; [intros _; split; [discriminate | eauto]|]. intros _.
        apply iobind_trace_exists. unfold classification_metrics.
        apply iobind_trace_exists. reflexivity.
      * rewrite Hquiet. split; [discriminate|].
        intros (_ & cs & [= <-] & Hge). lia.
    + rewrite Hquiet. split; [discriminate|].
      intros (_ & cs & Hcs & _). discriminate.
  - destruct (classes_ (attrs_of est)) as [classes|];
      [destruct (Nat.leb 2 (length classes))|];
      rewrite Hquiet; (split; [discriminate | intros [H _]; now elim H]).
Qed.

(** X17.  The two structural failures of [explain] come before any
    output: without feature names, given or on the estimator, it raises
    [ValueError], and for a pipeline that has not two steps
    [AssertionError], with nothing printed or drawn, validation data or
    not. *)
Theorem explain_fails_before_output (est : estimator score)
    (X_val : option dataframe) (y_val : option column)
    (target_col : option string) :
  (feature_names_ (attrs_of est) = None ->
   explain sleb sneg _validate_Xyt has_plot_roc_curve find_pretty_grid
     _make_subplots plot_partial_dependence coef_importances
     calculate_threshold est X_val y_val target_col None
   = ([], Raise (ValueError "Can't determine input feature names, please pass them."))) /\
  (forall a steps feature_names,
     unwrap_wrapper est = Pipeline a steps -> length steps <> 2 ->
     explain sleb sneg _validate_Xyt has_plot_roc_curve find_pretty_grid
       _make_subplots plot_partial_dependence coef_importances
       calculate_threshold est X_val y_val target_col (Some feature_names)
     = ([], Raise AssertionError)).
Proof.
  split.
  - intros Hnames. unfold explain, explain_head. rewrite Hnames. reflexivity.
  - intros a steps feature_names Hu Hlen. unfold explain, explain_head.
    unfold ret at 1. rewrite iobind_ret_l.
    unfold _extract_inner_estimator. rewrite Hu.
    destruct (Nat.eqb_spec (length steps) 2); [contradiction|]. reflexivity.
Qed.

(** X18.  For a linear model of more than two classes the coefficients
    are drawn one panel per class, each row of [coef_] under the class
    at the same position of the unwrapped estimator's [classes_], as far
    as the grid has axes. *)
Theorem explain_inner_one_panel_per_class
    (est inner_estimator : estimator score) (feature_names : list string)
    (n_classes : nat) (rows : list (list score)) (classes : list value) :
  match inner_estimator with
  | DecisionTreeClassifier _ => False
  | _ => True
  end ->
  coef_ (attrs_of inner_estimator) = Some (Coef2 rows) ->
  classes_ (attrs_of inner_estimator) = Some classes ->
  2 < n_classes ->
  length rows = length classes ->
  length classes <= _make_subplots n_classes ->
  explain_inner _make_subplots est inner_estimator feature_names n_classes
  = (map (fun kc => Coefficients (snd kc) feature_names (Some (fst kc)))
         (combine classes rows),
     Ok tt) /\
  length (combine classes rows) = length classes.
Proof.
  intros Hkind Hcoef Hclasses Hn Hrows Hgrid.
  split; [|rewrite length_combine; lia].
  unfold explain_inner.
  destruct inner_estimator as [a e|a e|a e|a steps|a|a|a];
    try contradiction; cbn [attrs_of] in *; rewrite Hcoef.
  all: destruct (Nat.ltb_spec 2 n_classes); [|lia].
  all: unfold getattr; cbn [attrs_of]; rewrite Hclasses.
  all: unfold lift; rewrite iobind_ret_l, for_each_emit.
  all: cbn [atleast_2d]; unfold Py.zip; rewrite firstn_all2;
         [reflexivity | rewrite length_combine; lia].
Qed.

(** X19.  With at most two classes and a coefficient matrix that
    [np.squeeze] leaves two-dimensional (several rows, not all of one
    entry), the plots of the model end with [ValueError] and nothing
    drawn. *)
Theorem explain_inner_multi_target
    (est inner_estimator : estimator score) (feature_names : list string)
    (n_classes : nat) (rows : list (list score)) (row : list score) :
  match inner_estimator with
  | DecisionTreeClassifier _ => False
  | _ => True
  end ->
  coef_ (attrs_of inner_estimator) = Some (Coef2 rows) ->
  n_classes <= 2 ->
  2 <= length rows -> In row rows -> length row <> 1 ->
  explain_inner _make_subplots est inner_estimator feature_names n_classes
  = ([], Raise (ValueError "Don't know how to handle multi-target regressor")).
Proof.
  intros Hkind Hcoef Hn Hrows Hin Hrow.
  assert (Hsq : squeeze (Coef2 rows) = None).
  { unfold squeeze.
    assert (Hall : forallb (fun r => Nat.eqb (length r) 1) rows = false).
    { apply not_true_is_false. intros Hall.
      rewrite forallb_forall in Hall. specialize (Hall row Hin).
      apply Nat.eqb_eq in Hall. contradiction. }
    destruct rows as [|r1 [|r2 rest]]; simpl in Hrows; try lia.
    now rewrite Hall. }
  unfold explain_inner.
  destruct inner_estimator as [a e|a e|a e|a steps|a|a|a];
    try contradiction; cbn [attrs_of] in *; rewrite Hcoef.
  all: destruct (Nat.ltb_spec 2 n_classes); [lia|].
  all: rewrite Hsq; reflexivity.
Qed.

End ExplainStages.

Section PartialDependenceErrors.
Variable score : Type.
Variable sleb : score -> score -> bool.
Variable sneg : score -> score.
Variable find_pretty_grid : nat -> nat * nat.
Variable plot_partial_dependence :
  estimator score -> dataframe -> list string -> list string ->
  option value -> nat -> option exn.
Variable coef_importances : coef score -> list score.
Variable calculate_threshold : estimator score -> list score -> score.

(** X20.  The partial dependence block handles [ValueError] only: any
    other exception of the computation ends [explain] with that
    exception, after the figures of the classes before it. *)
Theorem partial_dependence_other_errors_propagate
    (est inner_estimator : estimator score) (Xv : dataframe)
    (feature_names features : list string) (n_classes n_rows n_cols : nat)
    (e : exn) :
  coef_ (attrs_of inner_estimator) = None ->
  SelectFromModel_transform sleb sneg coef_importances calculate_threshold
    inner_estimator 10 feature_names = Ok features ->
  find_pretty_grid (length features) = (n_rows, n_cols) ->
  (forall msg, e <> ValueError msg) ->
  let stage :=
    explain_partial_dependence sleb sneg find_pretty_grid
      plot_partial_dependence coef_importances calculate_threshold
      est inner_estimator Xv feature_names n_classes in
  let raises target :=
    plot_partial_dependence est Xv features feature_names target n_cols in
  let drawn target :=
    PartialDependence score features feature_names target n_cols in
  let announced := Printed score "Computing partial dependence plots..." in
  (n_classes <= 2 -> raises None = Some e ->
   stage = ([announced], Raise e)) /\
  (2 < n_classes ->
   forall classes pre c post,
     classes_ (attrs_of est) = Some classes ->
     classes = pre ++ c :: post ->
     (forall c', In c' pre -> raises (Some c') = None) ->
     raises (Some c) = Some e ->
     stage = (announced :: map (fun c => drawn (Some c)) pre, Raise e)).
Proof.
  intros Hcoef Hsel Hgrid He stage raises drawn announced.
  assert (Hstage :
    stage
    = let (t, r) :=
        try_except
          (if Nat.leb n_classes 2 then
             partial_dependence_figure plot_partial_dependence est Xv
               features feature_names None n_cols
           else
             iobind (lift (getattr (@classes_ score) "classes_" est))
               (fun classes =>
                for_each (fun c => partial_dependence_figure
                                     plot_partial_dependence est Xv features
                                     feature_names (Some c) n_cols)
                         classes))
          (fun e => match e with
                    | ValueError msg =>
                        Some (emit (Warned score
                                ("Couldn't run partial dependence plot: "
                                 ++ msg)))
                    | _ => None
                    end) in
      (announced :: t, r)).
  { unfold stage, explain_partial_dependence.
    rewrite Hsel. unfold lift. rewrite iobind_ret_l.
    unfold hasattr. rewrite Hcoef, Hgrid. reflexivity. }
  split.
  - intros Hn Hr. rewrite Hstage.
    destruct (Nat.leb_spec n_classes 2) as [_|]; [|lia].
    unfold partial_dependence_figure. fold (raises None). rewrite Hr.
    destruct e; try reflexivity. now elim (He msg).
  - intros Hn classes pre c post Hclasses -> Hpre Hc. rewrite Hstage.
    destruct (Nat.leb_spec n_classes 2) as [|_]; [lia|].
    unfold getattr. rewrite Hclasses. unfold lift. rewrite iobind_ret_l.
    rewrite (for_each_class_first_raise plot_partial_dependence est Xv
               features feature_names n_cols pre post c Hpre Hc).
    destruct e; try reflexivity. now elim (He msg).
Qed.

End PartialDependenceErrors.

Lemma classification_metrics_only_for_classifiers_witness :
  existsb (@is_metrics Z)
    (fst (explain_head Sample.validate true Sample.subplots
            (Sample.forest Sample.two_classes) (Some Sample.X_val)
            (Some (map Sample.num [0; 1]%Z)) None
            (Some ["f0"; "f1"; "f2"])))
  = true.
Proof.
  apply (proj2 (@classification_metrics_only_for_classifiers Z
                  Sample.validate true Sample.subplots
                  (Sample.forest Sample.two_classes)
                  (Sample.forest Sample.two_classes) (Some Sample.X_val)
                  (Some (map Sample.num [0; 1]%Z)) None
                  ["f0"; "f1"; "f2"] ["f0"; "f1"; "f2"] eq_refl)).
  split; [discriminate|].
  exists Sample.two_classes. split; [reflexivity | simpl; lia].
Defined.

Lemma explain_fails_before_output_witness :
  explain Z.leb Z.opp Sample.validate true Sample.pretty_grid
    Sample.subplots Sample.pd_draws Sample.magnitudes Sample.threshold
    Sample.pipeline3 (Some Sample.X_val) (Some (map Sample.num [0; 1]%Z))
    None (Some ["x0"; "x1"; "x2"])
  = ([], Raise AssertionError).
Proof.
  apply (proj2 (@explain_fails_before_output Z Z.leb Z.opp Sample.validate
                  true Sample.pretty_grid Sample.subplots Sample.pd_draws
                  Sample.magnitudes Sample.threshold Sample.pipeline3
                  (Some Sample.X_val) (Some (map Sample.num [0; 1]%Z)) None)
           Sample.pipeline_attrs _ ["x0"; "x1"; "x2"] eq_refl).
  simpl. lia.
Defined.

Lemma explain_inner_one_panel_per_class_witness :
  explain_inner Sample.subplots Sample.linear3 Sample.linear3
    ["f0"; "f1"; "f2"] 3
  = ([ Coefficients [1; 0; 2]%Z ["f0"; "f1"; "f2"] (Some (VNum 0));
       Coefficients [0; 3; 0]%Z ["f0"; "f1"; "f2"] (Some (VNum 1));
       Coefficients [4; 4; 1]%Z ["f0"; "f1"; "f2"] (Some (VNum 2)) ],
     Ok tt).
Proof.
  refine (proj1 (@explain_inner_one_panel_per_class Z Sample.subplots
                   Sample.linear3 Sample.linear3 ["f0"; "f1"; "f2"] 3
                   [[1; 0; 2]; [0; 3; 0]; [4; 4; 1]]%Z Sample.three_classes
                   I eq_refl eq_refl _ eq_refl _)).
  - lia.
  - vm_compute. lia.
Defined.

Lemma explain_inner_multi_target_witness :
  explain_inner Sample.subplots Sample.multi_target Sample.multi_target
    ["f0"; "f1"; "f2"] 1
  = ([], Raise (ValueError "Don't know how to handle multi-target regressor")).
Proof.
  apply (@explain_inner_multi_target Z Sample.subplots Sample.multi_target
           Sample.multi_target ["f0"; "f1"; "f2"] 1
           [[1; 0; 2]; [0; 3; 0]]%Z [1; 0; 2]%Z I eq_refl).
  - lia.
  - simpl. lia.
  - simpl. tauto.
  - simpl. lia.
Defined.

Lemma partial_dependence_other_errors_propagate_witness :
  explain_partial_dependence Z.leb Z.opp Sample.pretty_grid
    Sample.pd_type_error Sample.magnitudes Sample.threshold
    (Sample.forest Sample.two_classes) (Sample.forest Sample.two_classes)
    Sample.X_val ["x0"; "x1"; "x2"] 2
  = ([Printed Z "Computing partial dependence plots..."], Raise TypeError).
Proof.
  refine (proj1 (@partial_dependence_other_errors_propagate Z Z.leb Z.opp
            Sample.pretty_grid Sample.pd_type_error Sample.magnitudes
            Sample.threshold (Sample.forest Sample.two_classes)
            (Sample.forest Sample.two_classes) Sample.X_val
            ["x0"; "x1"; "x2"] ["x0"; "x2"] 2 1 2 TypeError
            eq_refl eq_refl eq_refl _) _ eq_refl).
  - intros msg H. discriminate H.
  - lia.
Defined.

(** ** The ordinal encoding *)

(** The encoding on a column of strings, and on one that mixes strings
    with a number. *)
Example cat_codes_sorted :
  cat_codes [Some (VStr "b"); Some (VStr "a"); None; Some (VStr "b")]
  = [1; 0; -1; 1]%Z.
Proof.
  reflexivity.
Qed.

Example cat_codes_mixed :
  cat_codes [Some (VStr "b"); Some (VNum 3); None; Some (VStr "b");
             Some (VStr "a")]
  = [2; 0; -1; 2; 1]%Z.
Proof.
  reflexivity.
Qed.

(** ** The categorical panels *)

Section CategoricalPanels.
Variable score : Type.
Variable sleb : score -> score -> bool.
Variable argsort : list score -> list nat.
Variable _check_X_target_col :
  dataframe -> string -> option types_frame -> option string ->
  result types_frame.
Variable _get_n_top : dataframe -> string -> Z.
Variable _make_subplots : Z -> nat.
Variable RandomState : Type.
Variable mi_regression_1 : RandomState -> list Z -> column -> bool -> score.
Variable mi_classif_1 : list Z -> column -> bool -> score.
Variable random_state : RandomState.
Hypothesis argsort_ok : argsort_spec sleb argsort.

Lemma mutual_info_scores_cover (X : dataframe) (target_col : string)
    (types : types_frame) (features : dataframe) (target : column) :
  select_features categorical X target_col types = Ok features ->
  length (mutual_info_regression mi_regression_1 random_state (apply cat_codes features)
            target (repeat true (shape1 X))) = shape1 features /\
  length (mutual_info_classif mi_classif_1 (apply cat_codes features)
            target (repeat true (shape1 X))) = shape1 features.
Proof.
  intros H. apply select_features_length in H.
  rewrite mutual_info_regression_length, mutual_info_classif_length,
    apply_shape, repeat_length.
  lia.
Qed.

(** X22.  The rankings of the two categorical panel functions are like
    the one of the continuous panel: with a positive budget,
    [min(show_top, n_features)] positions of the feature frame, each at
    most once, in descending order of the mutual information. *)
Theorem categorical_rankings (X : dataframe) (target_col : string)
    (types0 : option types_frame) :
  let ranking_ok (r : ranked score) :=
    (0 < _get_n_top (scored_features r) "categorical")%Z ->
    length (selected r)
    = Z.to_nat (Z.min (_get_n_top (scored_features r) "categorical")
                      (Z.of_nat (shape1 (scored_features r)))) /\
    NoDup (selected r) /\
    (forall i, In i (selected r) -> i < shape1 (scored_features r)) /\
    StronglySorted (descending_at sleb (scores r)) (selected r) in
  (forall r,
     plot_regression_categorical argsort _check_X_target_col _get_n_top
       _make_subplots mi_regression_1 random_state X target_col types0
     = Ok (Some r) -> ranking_ok r) /\
  (forall kind r,
     plot_classification_categorical argsort _check_X_target_col _get_n_top
       _make_subplots mi_classif_1 X target_col types0 kind
     = Ok (Some r) -> ranking_ok r).
Proof.
  intros ranking_ok. unfold ranking_ok. split.
  - intros r H Htop. unfold plot_regression_categorical in H. inv_ok H.
    injection H as <-. cbn [selected scored_features scores] in *.
    destruct (mutual_info_scores_cover X target_col a a1 E0) as [Hf _].
    rewrite (top_k_length argsort_ok) by assumption. rewrite Hf.
    repeat split.
    + apply (top_k_NoDup argsort_ok).
    + intros i Hi. rewrite <- Hf. eapply top_k_in_range; eassumption.
    + apply (top_k_descending argsort_ok).
  - intros kind r H Htop. unfold plot_classification_categorical in H.
    inv_ok H.
    all: injection H as <-; cbn [selected scored_features scores] in *.
    all: match goal with
         | Hs : select_features categorical ?X0 ?tc ?t = Ok ?fs,
           Ht : getitem ?X0 ?tc = Ok ?y |- _ =>
             destruct (mutual_info_scores_cover X0 tc t y Hs) as [_ Hf]
         end.
    all: rewrite (top_k_length argsort_ok) by assumption; rewrite Hf.
    all: repeat split;
           [ apply (top_k_NoDup argsort_ok)
           | intros i Hi; rewrite <- Hf; eapply top_k_in_range; eassumption
           | apply (top_k_descending argsort_ok) ].
Qed.

End CategoricalPanels.

Lemma categorical_rankings_witness :
  exists r,
    plot_regression_categorical Sample.argsort Sample.check_types
      Sample.get_n_top Sample.make_subplots Sample.noisy_agreement 0%Z
      Sample.X_cat "y" (Some Sample.types_cat_reg)
    = Ok (Some r) /\
    length (selected r) = 2 /\ NoDup (selected r).
Proof.
  eexists. split; [vm_compute; reflexivity|].
  destruct (proj1 (@categorical_rankings Z Z.leb Sample.argsort
                     Sample.check_types Sample.get_n_top
                     Sample.make_subplots Z Sample.noisy_agreement
                     Sample.code_agreement 0%Z sample_argsort_spec
                     Sample.X_cat "y" (Some Sample.types_cat_reg))
              _ eq_refl) as (Hlen & Hnd & _).
  - vm_compute. reflexivity.
  - split; [exact Hlen | exact Hnd].
Defined.


(** ** The plot kind in [plot_classification_categorical] *)

Section ClassificationKinds.
Variable score : Type.
Variable sleb : score -> score -> bool.
Variable argsort : list score -> list nat.
Variable _check_X_target_col :
  dataframe -> string -> option types_frame -> option string ->
  result types_frame.
Variable _get_n_top : dataframe -> string -> Z.
Variable _make_subplots : Z -> nat.
Variable mi_classif_1 : list Z -> column -> bool -> score.
Hypothesis argsort_ok : argsort_spec sleb argsort.

(** A kind other than 'auto' is taken as it is given. *)
Lemma resolve_kind_given (kind : string) (target : column) :
  kind <> "auto" -> resolve_kind kind target = kind.
Proof.
  intros H. unfold resolve_kind.
  destruct (String.eqb_spec kind "auto"); [contradiction | reflexivity].
Qed.

(** With ['auto'] the function does what it does with the kind that
    ['auto'] stands for. *)
Lemma plot_classification_categorical_auto (X : dataframe)
    (target_col : string) (types0 : option types_frame) (target : column) :
  getitem X target_col = Ok target ->
  plot_classification_categorical argsort _check_X_target_col _get_n_top
    _make_subplots mi_classif_1 X target_col types0 "auto"
  = plot_classification_categorical argsort _check_X_target_col _get_n_top
      _make_subplots mi_classif_1 X target_col types0
      (if Nat.leb (nunique target) 5 then "mosaic" else "count").
Proof.
  intros Ht. unfold plot_classification_categorical.
  destruct (_check_X_target_col X target_col types0 (Some "classification"));
    cbn [bind]; [|reflexivity].
  rewrite Ht. cbn [String.eqb Ascii.eqb Bool.eqb bind].
  rewrite resolve_kind_auto_eq.
  destruct (Nat.leb (nunique target) 5); reflexivity.
Qed.

(** A run on a mosaic or count plot goes through to the end once there
    is a feature to draw, a positive budget and a grid. *)
Lemma plot_classification_categorical_runs (X : dataframe)
    (target_col : string) (types0 : option types_frame)
    (types : types_frame) (features : dataframe) (target : column)
    (kind : string) :
  _check_X_target_col X target_col types0 (Some "classification")
  = Ok types ->
  select_features categorical X target_col types = Ok features ->
  1 <= shape1 features ->
  getitem X target_col = Ok target ->
  kind = "mosaic" \/ kind = "count" ->
  (0 < _get_n_top features "categorical")%Z ->
  0 < _make_subplots (_get_n_top features "categorical") ->
  exists r,
    plot_classification_categorical argsort _check_X_target_col _get_n_top
      _make_subplots mi_classif_1 X target_col types0 kind
    = Ok (Some r) /\
    scored_features r = features /\
    1 <= length (panels r) /\
    Forall (fun p => panel_kind p = kind) (panels r).
Proof.
  intros Hc Hs Hn Ht Hkind Htop Hax.
  unfold plot_classification_categorical. rewrite Hc. cbn [bind].
  assert (Hauto : String.eqb kind "auto" = false).
  { destruct Hkind as [ -> | -> ]; reflexivity. }
  rewrite Hauto. cbn [bind]. rewrite Hs. cbn [bind].
  destruct (Nat.eqb_spec (shape1 features) 0); [lia|].
  rewrite Ht. cbn [bind].
  set (f := mutual_info_classif mi_classif_1 (apply cat_codes features)
              target (repeat true (shape1 X))).
  assert (Hf : length f = shape1 features).
  { unfold f. rewrite mutual_info_classif_length, apply_shape, repeat_length.
    apply select_features_length in Hs. lia. }
  assert (Hprop : String.eqb kind "proportion" = false).
  { destruct Hkind as [ -> | -> ]; reflexivity. }
  assert (Hvalid : String.eqb kind "mosaic" || String.eqb kind "count" = true).
  { destruct Hkind as [ -> | -> ]; reflexivity. }
  match goal with
  | |- context [map_result ?fn ?l] =>
      destruct (map_result_ok fn l) as (drawn & Hd & Hlen);
      [|assert (Hkinds : Forall (fun p => panel_kind p = kind) drawn)]
  end.
  { intros [c ax] Hin. apply in_combine_l in Hin.
    apply (top_k_in_range argsort_ok) in Hin.
    destruct (@getitem_ok _ (columns features) c) as [col Hcol].
    { unfold columns. rewrite length_map. unfold shape1 in Hf. lia. }
    rewrite Hcol. cbn [bind]. rewrite Hprop, Hvalid. eauto. }
  { eapply map_result_Forall; [|exact Hd].
    intros [c ax] p _ Hp. cbn beta iota zeta in Hp.
    inv_ok Hp; injection Hp as <-; reflexivity. }
  rewrite Hd. cbn [bind].
  assert (Hpos : 0 < length drawn).
  { rewrite Hlen, zip_length, length_seq.
    rewrite (top_k_length argsort_ok) by assumption. lia. }
  destruct (@remaining_axes_ok (length drawn)
              (_make_subplots (_get_n_top features "categorical")) Hpos)
    as [off Hoff].
  rewrite Hoff. cbn [bind].
  eexists. split; [reflexivity|]. cbn.
  split; [reflexivity|]. split; [lia | assumption].
Qed.

(** C6.  With [kind='auto'], a categorical feature to draw, a positive
    budget and a grid, [plot_classification_categorical] draws its
    panels, at least one, as mosaic plots when the target has at most
    five distinct classes and as count plots otherwise; in each case the
    whole run is the run with that kind given. *)
Theorem plot_classification_categorical_auto_kind (X : dataframe)
    (target_col : string) (types0 : option types_frame)
    (types : types_frame) (features : dataframe) (target : column) :
  _check_X_target_col X target_col types0 (Some "classification")
  = Ok types ->
  select_features categorical X target_col types = Ok features ->
  1 <= shape1 features ->
  getitem X target_col = Ok target ->
  (0 < _get_n_top features "categorical")%Z ->
  0 < _make_subplots (_get_n_top features "categorical") ->
  let run :=
    plot_classification_categorical argsort _check_X_target_col _get_n_top
      _make_subplots mi_classif_1 X target_col types0 in
  exists r,
    run "auto" = Ok (Some r) /\
    1 <= length (panels r) /\
    (nunique target <= 5 ->
     Forall (fun p => panel_kind p = "mosaic") (panels r) /\
     run "auto" = run "mosaic") /\
    (5 < nunique target ->
     Forall (fun p => panel_kind p = "count") (panels r) /\
     run "auto" = run "count").
Proof.
  intros Hc Hs Hn Ht Htop Hax run.
  pose proof (@plot_classification_categorical_auto X target_col types0
                target Ht) as Hauto.
  fold run in Hauto.
  destruct (Nat.leb_spec (nunique target) 5) as [Hle|Hgt].
  - destruct (@plot_classification_categorical_runs X target_col types0
                types features target "mosaic"
                Hc Hs Hn Ht (or_introl eq_refl) Htop Hax)
      as (r & Hr & _ & Hlen & Hkinds).
    fold run in Hr. exists r. rewrite Hauto.
    repeat split; try assumption; try reflexivity; lia.
  - destruct (@plot_classification_categorical_runs X target_col types0
                types features target "count"
                Hc Hs Hn Ht (or_intror eq_refl) Htop Hax)
      as (r & Hr & _ & Hlen & Hkinds).
    fold run in Hr. exists r. rewrite Hauto.
    repeat split; try assumption; try reflexivity; lia.
Qed.

(** X23.  With a categorical feature besides the target, a positive
    budget and a grid that is not empty,
    [plot_classification_categorical] goes through to the end for a
    mosaic or a count plot: it returns the features it scored and at
    least one panel, every panel of the kind asked for.  (A proportion
    plot also reads [target[0]], and is left out here.) *)
Theorem plot_classification_categorical_returns (X : dataframe)
    (target_col : string) (types0 : option types_frame)
    (types : types_frame) (features : dataframe) (target : column)
    (kind : string) :
  _check_X_target_col X target_col types0 (Some "classification")
  = Ok types ->
  select_features categorical X target_col types = Ok features ->
  1 <= shape1 features ->
  getitem X target_col = Ok target ->
  kind = "mosaic" \/ kind = "count" ->
  (0 < _get_n_top features "categorical")%Z ->
  0 < _make_subplots (_get_n_top features "categorical") ->
  exists r,
    plot_classification_categorical argsort _check_X_target_col _get_n_top
      _make_subplots mi_classif_1 X target_col types0 kind
    = Ok (Some r) /\
    scored_features r = features /\
    1 <= length (panels r) /\
    Forall (fun p => panel_kind p = kind) (panels r).
Proof.
  apply plot_classification_categorical_runs.
Qed.

End ClassificationKinds.

Lemma plot_classification_categorical_auto_kind_witness :
  exists r,
    plot_classification_categorical Sample.argsort Sample.check_types
      Sample.get_n_top Sample.make_subplots Sample.code_agreement
      Sample.X_cat "y" (Some Sample.types_cat_clf) "auto"
    = Ok (Some r) /\
    1 <= length (panels r) /\
    Forall (fun p => panel_kind p = "mosaic") (panels r).
Proof.
  destruct (@plot_classification_categorical_auto_kind Z Z.leb Sample.argsort
              Sample.check_types Sample.get_n_top Sample.make_subplots
              Sample.code_agreement sample_argsort_spec Sample.X_cat "y"
              (Some Sample.types_cat_clf) Sample.types_cat_clf
              (firstn 2 Sample.X_cat) (map Sample.num [0; 1; 0; 1]%Z))
    as (r & Hr & Hlen & Hmosaic & _).
  - reflexivity.
  - reflexivity.
  - vm_compute. lia.
  - reflexivity.
  - vm_compute. reflexivity.
  - vm_compute. lia.
  - exists r. split; [exact Hr|]. split; [exact Hlen|].
    apply Hmosaic. vm_compute. lia.
Defined.

Lemma plot_classification_categorical_returns_witness :
  exists r,
    plot_classification_categorical Sample.argsort Sample.check_types
      Sample.get_n_top Sample.make_subplots Sample.code_agreement
      Sample.X_cat "y" (Some Sample.types_cat_clf) "count"
    = Ok (Some r) /\
    scored_features r = firstn 2 Sample.X_cat /\
    1 <= length (panels r) /\
    Forall (fun p => panel_kind p = "count") (panels r).
Proof.
  apply (@plot_classification_categorical_returns Z Z.leb Sample.argsort
           Sample.check_types Sample.get_n_top Sample.make_subplots
           Sample.code_agreement sample_argsort_spec
           Sample.X_cat "y"
           (Some Sample.types_cat_clf) Sample.types_cat_clf
           (firstn 2 Sample.X_cat) (map Sample.num [0; 1; 0; 1]%Z) "count").
  - reflexivity.
  - reflexivity.
  - vm_compute. lia.
  - reflexivity.
  - tauto.
  - vm_compute. reflexivity.
  - vm_compute. lia.
Defined.

(** ** The random state of the regression ranker *)

Section RepeatedCalls.
Variable score : Type.
Variable argsort : list score -> list nat.
Variable _check_X_target_col :
  dataframe -> string -> option types_frame -> option string ->
  result types_frame.
Variable _get_n_top : dataframe -> string -> Z.
Variable _make_subplots : Z -> nat.
Variable RandomState : Type.
Variable mi_regression_1 : RandomState -> list Z -> column -> bool -> score.



End RepeatedCalls.





(** ** The panels of the resolved columns *)




Section ResolvedPanels.
Variable score : Type.
Variable argsort : list score -> list nat.
Variable _check_X_target_col :
  dataframe -> string -> option types_frame -> option string ->
  result types_frame.
Variable _get_n_top : dataframe -> string -> Z.
Variable _make_subplots : Z -> nat.
Variable impute_column : column -> column.
Variables f_regression_1 f_classif_1 : column -> column -> score.
Variable RandomState : Type.
Variable mi_regression_1 : RandomState -> list Z -> column -> bool -> score.
Variable mi_classif_1 : list Z -> column -> bool -> score.
Variable random_state : RandomState.

Variable X : dataframe.
Variable target_col : string.
Variable types : types_frame.
Variable c : string * column.
Hypothesis c_in_X : In c X.
Hypothesis c_not_target : fst c <> target_col.
Hypothesis check_returns_types :
  forall task types1,
    _check_X_target_col X target_col (Some types) task = Ok types1 ->
    types1 = types.





End ResolvedPanels.


(** ** The panels that [plot] calls *)



Example resolve_low_card_int_sample :
  resolve_low_card_int Sample.guess_ordinal Sample.X_low Sample.types_low
  = Ok [ ("n", Sample.is_continuous); ("c", Sample.is_categorical);
         ("y", Sample.is_continuous) ].
Proof. reflexivity. Qed.

